(* A shallow embedding of the Python client of the Copilot SDK
   (copilot/client.py and copilot/session.py): the client options and the
   cli_url parser, the session registry, the inbound request router
   (tool.call, permission.request), the models cache, the lifecycle and
   session event subscriptions, start() and stop().

   Python values are modelled as follows.
   - A Python str is a [pystr], the list of its code points, where the
     code inspects characters (the cli_url parser and the constructor
     options), and elsewhere a [string] holding its UTF-8 encoding; so are
     exception messages.
   - A raised exception is a value of [exn]; a call that may raise returns
     an [outcome].  Stateful methods run in the state-and-exception monad
     [M] over [St], so that the state changes made before a [raise] are
     kept, as in Python.
   - Objects that the code shares by reference (session objects, the lists
     returned by list_models and the cached list) live in a heap indexed
     by [nat]; the registry and the cache hold references into it.
   - Handlers (tool, permission, event) are identified by a [nat]: Python
     compares them with [==], which for functions is identity. *)

From stdpp Require Import base gmap list strings.
From Stdlib Require Import Ascii String ZArith.
From Stdlib Require PrimFloat FloatClass SpecFloat FloatOps.
From Stdlib Require Import PrimFloat DecimalString.
Close Scope float_scope.

Open Scope Z_scope.

(* ===================================================================== *)
(** * Python values: exceptions, outcomes, truthiness                    *)
(* ===================================================================== *)

Inductive exn : Type :=
  | ValueError (msg : string)
  | RuntimeError (msg : string)
  | OtherError (msg : string).

(** [str(e)] *)
Definition exn_str (e : exn) : string :=
  match e with
  | ValueError m | RuntimeError m | OtherError m => m
  end.

(** The result of a Python call: a value, or an exception raised. *)
Inductive outcome (A : Type) : Type :=
  | Ok (a : A)
  | Raise (e : exn).
Arguments Ok {A} a.
Arguments Raise {A} e.

Definition is_raise {A} (o : outcome A) : bool :=
  match o with Raise _ => true | Ok _ => false end.

(** A Python str where the code inspects its characters: the list of its
    code points. *)
Definition pystr := list Z.

(** Python truthiness of an optional str ([None] and [""] are falsy). *)
Definition truthy_chars (o : option pystr) : bool :=
  match o with Some (_ :: _) => true | _ => false end.

Definition truthy_str (o : option string) : bool :=
  match o with Some EmptyString | None => false | Some _ => true end.

(** Python truthiness of an optional bool. *)
Definition truthy_bool (o : option bool) : bool :=
  match o with Some true => true | _ => false end.

Definition is_not_None {A} (o : option A) : bool :=
  match o with Some _ => true | None => false end.

(** An ASCII string literal as a str. *)
Definition chars (s : string) : pystr :=
  map (fun a => Z.of_nat (nat_of_ascii a)) (list_ascii_of_string s).

(** The UTF-8 encoding of a code point (a lone surrogate is encoded like
    any other code point below U+10000). *)
Definition utf8_char (c : Z) : list ascii :=
  let b (n : Z) := ascii_of_N (Z.to_N n) in
  if c <? 128 then [b c]
  else if c <? 2048 then [b (192 + Z.shiftr c 6); b (128 + Z.land c 63)]
  else if c <? 65536 then
    [b (224 + Z.shiftr c 12); b (128 + Z.land (Z.shiftr c 6) 63); b (128 + Z.land c 63)]
  else
    [b (240 + Z.shiftr c 18); b (128 + Z.land (Z.shiftr c 12) 63);
     b (128 + Z.land (Z.shiftr c 6) 63); b (128 + Z.land c 63)].

(** A str inside an exception message, which is a [string] of bytes: its
    UTF-8 encoding. *)
Definition str (s : pystr) : string := string_of_list_ascii (flat_map utf8_char s).

(** A non-negative int formatted in decimal ([%d]). *)
Definition decimal_str (z : Z) : string := NilZero.string_of_int (Z.to_int z).

(* ===================================================================== *)
(** * The Unicode database and int() of a str                            *)
(* ===================================================================== *)

(** What the interpreter's Unicode database answers for the code points
    from U+0080 on ([str.isspace], [str.isdigit], the decimal value of
    [unicodedata.decimal], [str.isprintable]); the ASCII answers are fixed
    below.  [cpython311_unicode] is the database of CPython 3.11. *)
Record UnicodeDB := {
  u_isspace : Z -> bool;
  u_isdigit : Z -> bool;
  u_decimal : Z -> option Z;
  u_isprintable : Z -> bool;
}.

Definition is_digit10 (c : Z) : bool := (48 <=? c) && (c <=? 57).

(** [Py_ISSPACE]: the ASCII whitespace of the C library. *)
Definition Py_ISSPACE (c : Z) : bool := ((9 <=? c) && (c <=? 13)) || (c =? 32).

(** [_PY_LONG_MAX_STR_DIGITS_THRESHOLD]; [sys.get_int_max_str_digits()]
    is 4300 unless the program or the environment changes it (0 turns the
    limit off). *)
Definition max_str_digits_threshold : Z := 640.
Definition default_max_str_digits : Z := 4300.

(** The test of [PyLong_FromString] on the number of digits. *)
Definition max_str_digits_exceeded (max_str_digits digits : Z) : bool :=
  (max_str_digits_threshold <? digits) && (0 <? max_str_digits) && (max_str_digits <? digits).

(** The result of [PyLong_FromString]: a value, the error that jumps to
    [onError] (invalid literal), or the error on too many digits. *)
Inductive long_result := LongOk (z : Z) | LongInvalid | LongTooManyDigits (digits : Z).

Fixpoint skip_space (s : list Z) : list Z :=
  match s with
  | c :: r => if Py_ISSPACE c then skip_space r else s
  | [] => []
  end.

(** The scan of the numeric characters of [PyLong_FromString] (base 10):
    digits and underscores, an underscore never following another.
    [None] when it meets a second underscore; otherwise the last character
    scanned ([prev]), the number of digits, their value and the rest. *)
Fixpoint scan_digits (prev digits acc : Z) (s : list Z) : option (Z * Z * Z * list Z) :=
  match s with
  | c :: r =>
      if is_digit10 c then scan_digits c (digits + 1) (acc * 10 + (c - 48)) r
      else if c =? 95 then
        if prev =? 95 then None else scan_digits c digits acc r
      else Some (prev, digits, acc, s)
  | [] => Some (prev, digits, acc, [])
  end.

(** [PyLong_FromString(str, &end, 10)] on the ASCII text [str].  A NUL
    ends the C string; here it is an invalid character, which gives the
    same results: [PyLong_FromUnicodeObject] turns a parse that stopped at
    a NUL into an invalid literal. *)
Definition PyLong_FromString (max_str_digits : Z) (s : list Z) : long_result :=
  let s := skip_space s in
  let '(sign, s) :=
    match s with
    | c :: r => if c =? 43 (* + *) then (1, r) else if c =? 45 (* - *) then (-1, r) else (1, s)
    | [] => (1, s)
    end in
  if match s with c :: _ => c =? 95 (* _ *) | [] => false end then LongInvalid
  else
      match scan_digits 0 0 0 s with
      | None => LongInvalid
      | Some (prev, digits, z, rest) =>
          if prev =? 95 then LongInvalid
          else if max_str_digits_exceeded max_str_digits digits then LongTooManyDigits digits
          else if digits =? 0 then LongInvalid
          else match skip_space rest with
               | [] => LongOk (sign * z)
               | _ => LongInvalid
               end
      end.

(** Lowercase hexadecimal, [n] digits. *)
Fixpoint hex_digits (n : nat) (c : Z) : pystr :=
  match n with
  | O => []
  | S k =>
      let d := Z.land (Z.shiftr c (4 * Z.of_nat k)) 15 in
      (if d <? 10 then 48 + d else 87 + d) :: hex_digits k c
  end.

Section UnicodeText.

Variable db : UnicodeDB.

(** [Py_UNICODE_ISSPACE]: the ASCII table has 9..13 and 28..32. *)
Definition py_isspace (c : Z) : bool :=
  if c <? 128 then ((9 <=? c) && (c <=? 13)) || ((28 <=? c) && (c <=? 32))
  else u_isspace db c.

(** [Py_UNICODE_ISDIGIT] *)
Definition py_isdigit_char (c : Z) : bool :=
  if c <? 128 then is_digit10 c else u_isdigit db c.

(** [Py_UNICODE_TODECIMAL] *)
Definition py_todecimal (c : Z) : option Z :=
  if c <? 128 then (if is_digit10 c then Some (c - 48) else None) else u_decimal db c.

(** [str.isdigit()]: non-empty and all digits. *)
Definition isdigit (s : pystr) : bool :=
  match s with [] => false | _ => forallb py_isdigit_char s end.

(** [_PyUnicode_TransformDecimalAndSpaceToASCII]: ASCII is kept, other
    whitespace becomes a space and other decimal digits their ASCII digit;
    the first other character becomes '?' and ends the text. *)
Fixpoint transform_decimal_and_space (s : pystr) : list Z :=
  match s with
  | [] => []
  | ch :: r =>
      if ch <? 127 then ch :: transform_decimal_and_space r
      else if py_isspace ch then 32 :: transform_decimal_and_space r
      else match py_todecimal ch with
           | Some d => (48 + d) :: transform_decimal_and_space r
           | None => [63]
           end
  end.

(** One character of [repr(s)] ([unicode_repr]), [quote] being the quote
    chosen for [s]. *)
Definition repr_char (quote ch : Z) : pystr :=
  if (ch =? quote) || (ch =? 92) then [92; ch]
  else if ch =? 9 then [92; 116]
  else if ch =? 10 then [92; 110]
  else if ch =? 13 then [92; 114]
  else if (ch <? 32) || (ch =? 127) then 92 :: 120 :: hex_digits 2 ch
  else if ch <? 127 then [ch]
  else if u_isprintable db ch then [ch]
  else if ch <=? 255 then 92 :: 120 :: hex_digits 2 ch
  else if ch <=? 65535 then 92 :: 117 :: hex_digits 4 ch
  else 92 :: 85 :: hex_digits 8 ch.

(** [repr(s)]: double quotes when [s] has a single quote and no double
    quote, single quotes otherwise. *)
Definition py_repr (s : pystr) : pystr :=
  let quote := if existsb (Z.eqb 39) s && negb (existsb (Z.eqb 34) s) then 34 else 39 in
  quote :: flat_map (repr_char quote) s ++ [quote].

Variable max_str_digits : Z.

(** [int(s)] for a str [s] ([PyLong_FromUnicodeObject], base 10).  An
    invalid literal is reported with [%.200R]: the first 200 characters of
    [repr(s)]. *)
Definition python_int (s : pystr) : outcome Z :=
  match PyLong_FromString max_str_digits (transform_decimal_and_space s) with
  | LongOk z => Ok z
  | LongTooManyDigits digits =>
      Raise (ValueError ("Exceeds the limit (" +:+ decimal_str max_str_digits
                         +:+ " digits) for integer string conversion: value has "
                         +:+ decimal_str digits
                         +:+ " digits; use sys.set_int_max_str_digits() to increase the limit"))
  | LongInvalid =>
      Raise (ValueError ("invalid literal for int() with base 10: " +:+ str (firstn 200 (py_repr s))))
  end.

End UnicodeText.

(* ===================================================================== *)
(** * CopilotClient._parse_cli_url                                       *)
(* ===================================================================== *)

(** [s] with the prefix [p] removed, when [s] starts with [p]. *)
Fixpoint drop_prefix (p s : pystr) : option pystr :=
  match p, s with
  | [], _ => Some s
  | c :: p', d :: s' => if Z.eq_dec c d then drop_prefix p' s' else None
  | _ :: _, [] => None
  end.

(** [re.sub(r"^https?://", "", url)] *)
Definition strip_scheme (url : pystr) : pystr :=
  match drop_prefix (chars "http://") url with
  | Some rest => rest
  | None =>
      match drop_prefix (chars "https://") url with
      | Some rest => rest
      | None => url
      end
  end.

(** [str.split(sep)]: the pieces between the separators (always at least
    one piece). *)
Fixpoint split_on (sep : Z) (s : pystr) : list pystr :=
  match s with
  | [] => [[]]
  | c :: r =>
      let rest := split_on sep r in
      if Z.eq_dec c sep then [] :: rest
      else match rest with
           | w :: ws => (c :: w) :: ws
           | [] => [[c]]
           end
  end.

(** The value of a string of ASCII decimal digits. *)
Definition decimal_value (d : pystr) : Z :=
  fold_left (fun acc c => acc * 10 + (c - 48)) d 0.

Definition port_out_of_range (port : Z) : bool := (port <=? 0) || (65535 <? port).

Definition localhost : pystr := chars "localhost".

(** [parts[0] if parts[0] else "localhost"] *)
Definition host_or_localhost (h : pystr) : pystr :=
  match h with [] => localhost | _ => h end.

Definition parse_cli_url_error (what : string) (url : pystr) : exn :=
  ValueError (what +:+ str url).

(** [_parse_cli_url(url)]: the [int()] of the first branch is not guarded,
    so its own ValueError escapes; the second branch turns it into
    "Invalid port in cli_url". *)
Definition parse_cli_url (db : UnicodeDB) (max_str_digits : Z) (url : pystr)
    : outcome (pystr * Z) :=
  let clean_url := strip_scheme url in
  if isdigit db clean_url then
    match python_int db max_str_digits clean_url with
    | Raise e => Raise e
    | Ok port =>
        if port_out_of_range port
        then Raise (parse_cli_url_error "Invalid port in cli_url: " url)
        else Ok (localhost, port)
    end
  else
    match split_on 58 (* : *) clean_url with
    | [h; p] =>
        let host := host_or_localhost h in
        match python_int db max_str_digits p with
        | Raise (ValueError _) => Raise (parse_cli_url_error "Invalid port in cli_url: " url)
        | Raise e => Raise e
        | Ok port =>
            if port_out_of_range port
            then Raise (parse_cli_url_error "Invalid port in cli_url: " url)
            else Ok (host, port)
        end
    | _ => Raise (parse_cli_url_error "Invalid cli_url format: " url)
    end.

(* ===================================================================== *)
(** * CopilotClient.__init__                                             *)
(* ===================================================================== *)

(** The options the constructor inspects; [None] is a key left out of the
    options dict. *)
Record CopilotClientOptions := {
  o_cli_url : option pystr;
  o_use_stdio : option bool;
  o_cli_path : option pystr;
  o_github_token : option pystr;
  o_use_logged_in_user : option bool;
}.

(** The configuration the constructor stores on the new client. *)
Record ClientConfig := {
  cfg_cli_path : pystr;
  cfg_use_stdio : bool;
  cfg_use_logged_in_user : bool;
  cfg_cli_url : option pystr;
  cfg_github_token : option pystr;
  cfg_actual_host : pystr;
  cfg_actual_port : option Z;
  cfg_is_external_server : bool;
}.

(** What the constructor does to the outside world, in order: the lookup of
    the bundled CLI binary and the [os.getcwd()] read of the default cwd. *)
Inductive InitEffect := LookupBundledCli | GetCwd.

Definition or_default {A} (o : option A) (d : A) : A :=
  match o with Some a => a | None => d end.

Definition cli_not_found_error : exn :=
  RuntimeError ("Copilot CLI not found. The bundled CLI binary is not available. "
                +:+ "Ensure you installed a platform-specific wheel, or provide cli_path.").

(** [CopilotClient(options)]; [bundled] is what [_get_bundled_cli_path()]
    finds on this machine; [db] and [max_str_digits] are the interpreter's
    Unicode database and int-digit limit, which [_parse_cli_url] uses. *)
Definition CopilotClient_init (db : UnicodeDB) (max_str_digits : Z) (bundled : option pystr)
    (opts : CopilotClientOptions) : outcome ClientConfig * list InitEffect :=
  if truthy_chars (o_cli_url opts)
     && (truthy_bool (o_use_stdio opts) || truthy_chars (o_cli_path opts)) then
    (Raise (ValueError "cli_url is mutually exclusive with use_stdio and cli_path"), [])
  else if truthy_chars (o_cli_url opts)
     && (truthy_chars (o_github_token opts) || is_not_None (o_use_logged_in_user opts)) then
    (Raise (ValueError ("github_token and use_logged_in_user cannot be used with cli_url "
                         +:+ "(external server manages its own auth)")), [])
  else
    let parsed :=
      match o_cli_url opts with
      | Some ((_ :: _) as url) =>
          match parse_cli_url db max_str_digits url with
          | Ok (h, p) => Ok (h, Some p, true)
          | Raise e => Raise e
          end
      | _ => Ok (localhost, None, false)
      end in
    match parsed with
    | Raise e => (Raise e, [])
    | Ok (host, port, external) =>
        let path :=
          if truthy_chars (o_cli_url opts) then (Ok [], [])
          else match o_cli_path opts with
               | Some ((_ :: _) as p) => (Ok p, [])
               | _ =>
                   match bundled with
                   | Some ((_ :: _) as b) => (Ok b, [LookupBundledCli])
                   | _ => (Raise cli_not_found_error, [LookupBundledCli])
                   end
               end in
        match path with
        | (Raise e, eff) => (Raise e, eff)
        | (Ok default_cli_path, eff) =>
            let github_token := o_github_token opts in
            let use_logged_in_user :=
              match o_use_logged_in_user opts with
              | Some b => b
              | None => negb (truthy_chars github_token)
              end in
            (Ok {| cfg_cli_path := default_cli_path;
                   cfg_use_stdio :=
                     if truthy_chars (o_cli_url opts) then false
                     else or_default (o_use_stdio opts) true;
                   cfg_use_logged_in_user := use_logged_in_user;
                   cfg_cli_url :=
                     if truthy_chars (o_cli_url opts) then o_cli_url opts else None;
                   cfg_github_token :=
                     if truthy_chars github_token then github_token else None;
                   cfg_actual_host := host;
                   cfg_actual_port := port;
                   cfg_is_external_server := external |},
             eff ++ [GetCwd])
        end
    end.

(* ===================================================================== *)
(** * Sessions, handlers and the client state                            *)
(* ===================================================================== *)

(** [ToolInvocation] (types.py). *)
Record ToolInvocation := {
  inv_session_id : string;
  inv_tool_call_id : string;
  inv_tool_name : string;
  inv_arguments : string;
}.

(** [ToolResult] (types.py), with the keys the SDK itself fills in. *)
Record ToolResult := {
  textResultForLlm : string;
  resultType : string;
  error : option string;
  toolTelemetry : list (string * string);
}.

(** A tool handler returns a result, returns [None], or raises. *)
Inductive ToolOutcome :=
  | TReturn (r : option ToolResult)
  | TRaise (e : exn).

Definition ToolHandler := ToolInvocation -> ToolOutcome.

(** A permission request payload and the decision dict (its "kind"). *)
Definition PermissionRequest := list (string * string).
Record PermissionResult := { kind : string }.

Inductive PermissionOutcome :=
  | PReturn (r : PermissionResult)
  | PRaise (e : exn).

(** A permission handler receives the request and the invocation context
    [{"session_id": ...}]. *)
Definition PermissionHandler := PermissionRequest -> string -> PermissionOutcome.

(** A [CopilotSession] object. *)
Record Session := {
  session_id : string;
  event_handlers : gset nat;
  tool_handlers : gmap string ToolHandler;
  permission_handler : option PermissionHandler;
}.

(** [ModelInfo] (types.py), reduced to its identifying fields. *)
Record ModelInfo := { model_id : string; model_name : string }.

Inductive ConnectionState := Disconnected | Connecting | Connected | Error.

(** The attributes of a [CopilotClient] and the objects they reach. *)
Record St := {
  state : ConnectionState;
  client : bool;                (* self._client is not None *)
  process : bool;               (* self._process is not None *)
  is_external_server : bool;
  actual_port : option Z;
  sessions : gmap string nat;   (* self._sessions: id -> session object *)
  models_cache : option nat;    (* self._models_cache: a list object or None *)
  lifecycle_handlers : list nat;
  typed_lifecycle_handlers : gmap string (list nat);
  heap_sessions : gmap nat Session;
  heap_lists : gmap nat (list ModelInfo);
  heap_next : nat;
  io_log : list string;        (* requests sent and process operations, oldest first *)
}.

Definition set_state (x : ConnectionState) (s : St) : St :=
  {| state := x; client := client s; process := process s;
     is_external_server := is_external_server s; actual_port := actual_port s;
     sessions := sessions s; models_cache := models_cache s;
     lifecycle_handlers := lifecycle_handlers s;
     typed_lifecycle_handlers := typed_lifecycle_handlers s;
     heap_sessions := heap_sessions s; heap_lists := heap_lists s;
     heap_next := heap_next s; io_log := io_log s |}.

Definition set_client (x : bool) (s : St) : St :=
  {| state := state s; client := x; process := process s;
     is_external_server := is_external_server s; actual_port := actual_port s;
     sessions := sessions s; models_cache := models_cache s;
     lifecycle_handlers := lifecycle_handlers s;
     typed_lifecycle_handlers := typed_lifecycle_handlers s;
     heap_sessions := heap_sessions s; heap_lists := heap_lists s;
     heap_next := heap_next s; io_log := io_log s |}.

Definition set_process (x : bool) (s : St) : St :=
  {| state := state s; client := client s; process := x;
     is_external_server := is_external_server s; actual_port := actual_port s;
     sessions := sessions s; models_cache := models_cache s;
     lifecycle_handlers := lifecycle_handlers s;
     typed_lifecycle_handlers := typed_lifecycle_handlers s;
     heap_sessions := heap_sessions s; heap_lists := heap_lists s;
     heap_next := heap_next s; io_log := io_log s |}.

Definition set_actual_port (x : option Z) (s : St) : St :=
  {| state := state s; client := client s; process := process s;
     is_external_server := is_external_server s; actual_port := x;
     sessions := sessions s; models_cache := models_cache s;
     lifecycle_handlers := lifecycle_handlers s;
     typed_lifecycle_handlers := typed_lifecycle_handlers s;
     heap_sessions := heap_sessions s; heap_lists := heap_lists s;
     heap_next := heap_next s; io_log := io_log s |}.

Definition set_sessions (x : gmap string nat) (s : St) : St :=
  {| state := state s; client := client s; process := process s;
     is_external_server := is_external_server s; actual_port := actual_port s;
     sessions := x; models_cache := models_cache s;
     lifecycle_handlers := lifecycle_handlers s;
     typed_lifecycle_handlers := typed_lifecycle_handlers s;
     heap_sessions := heap_sessions s; heap_lists := heap_lists s;
     heap_next := heap_next s; io_log := io_log s |}.

Definition set_models_cache (x : option nat) (s : St) : St :=
  {| state := state s; client := client s; process := process s;
     is_external_server := is_external_server s; actual_port := actual_port s;
     sessions := sessions s; models_cache := x;
     lifecycle_handlers := lifecycle_handlers s;
     typed_lifecycle_handlers := typed_lifecycle_handlers s;
     heap_sessions := heap_sessions s; heap_lists := heap_lists s;
     heap_next := heap_next s; io_log := io_log s |}.

Definition set_lifecycle (w : list nat) (t : gmap string (list nat)) (s : St) : St :=
  {| state := state s; client := client s; process := process s;
     is_external_server := is_external_server s; actual_port := actual_port s;
     sessions := sessions s; models_cache := models_cache s;
     lifecycle_handlers := w; typed_lifecycle_handlers := t;
     heap_sessions := heap_sessions s; heap_lists := heap_lists s;
     heap_next := heap_next s; io_log := io_log s |}.

Definition set_heap_sessions (x : gmap nat Session) (s : St) : St :=
  {| state := state s; client := client s; process := process s;
     is_external_server := is_external_server s; actual_port := actual_port s;
     sessions := sessions s; models_cache := models_cache s;
     lifecycle_handlers := lifecycle_handlers s;
     typed_lifecycle_handlers := typed_lifecycle_handlers s;
     heap_sessions := x; heap_lists := heap_lists s;
     heap_next := heap_next s; io_log := io_log s |}.

Definition set_heap_lists (x : gmap nat (list ModelInfo)) (n : nat) (s : St) : St :=
  {| state := state s; client := client s; process := process s;
     is_external_server := is_external_server s; actual_port := actual_port s;
     sessions := sessions s; models_cache := models_cache s;
     lifecycle_handlers := lifecycle_handlers s;
     typed_lifecycle_handlers := typed_lifecycle_handlers s;
     heap_sessions := heap_sessions s; heap_lists := x;
     heap_next := n; io_log := io_log s |}.

Definition log_request (m : string) (s : St) : St :=
  {| state := state s; client := client s; process := process s;
     is_external_server := is_external_server s; actual_port := actual_port s;
     sessions := sessions s; models_cache := models_cache s;
     lifecycle_handlers := lifecycle_handlers s;
     typed_lifecycle_handlers := typed_lifecycle_handlers s;
     heap_sessions := heap_sessions s; heap_lists := heap_lists s;
     heap_next := heap_next s; io_log := io_log s ++ [m] |}.

(* ===================================================================== *)
(** * The state-and-exception monad                                      *)
(* ===================================================================== *)

(** A method call: from the state before, the outcome and the state after.
    Python's [with lock:] sections are sequential here: each call runs to
    completion before the next one starts, which is the interleaving the
    locks enforce for the critical sections modelled. *)
Definition M (A : Type) : Type := St -> outcome A * St.

Global Instance M_ret : MRet M := fun A a s => (Ok a, s).
Global Instance M_bind : MBind M := fun A B k m s =>
  match m s with
  | (Ok a, s') => k a s'
  | (Raise e, s') => (Raise e, s')
  end.

Definition raise {A} (e : exn) : M A := fun s => (Raise e, s).
Definition gets {A} (f : St -> A) : M A := fun s => (Ok (f s), s).
Definition modify (f : St -> St) : M unit := fun s => (Ok tt, f s).

(** [try: m except Exception as e: h(e)] *)
Definition try_except {A} (m : M A) (h : exn -> M A) : M A := fun s =>
  match m s with
  | (Raise e, s') => h e s'
  | r => r
  end.

(** [await self._client.request(method, ...)]: the request is sent (and
    logged) and [resp] is what the server answers, or the transport error. *)
Definition request {A} (method : string) (resp : outcome A) : M A := fun s =>
  (resp, log_request method s).

Definition lift {A} (o : outcome A) : M A := fun s => (o, s).

(* ===================================================================== *)
(** * Inbound requests: permission.request and tool.call                 *)
(* ===================================================================== *)

Definition denied_no_rule : PermissionResult :=
  {| kind := "denied-no-approval-rule-and-could-not-request-from-user" |}.

(** [CopilotSession._handle_permission_request]; an awaitable result is
    awaited, which the model folds into the handler's outcome. *)
Definition session_handle_permission_request (sess : Session) (req : PermissionRequest)
    : outcome PermissionResult :=
  match permission_handler sess with
  | None => Ok denied_no_rule
  | Some handler =>
      match handler req (session_id sess) with
      | PReturn r => Ok r
      | PRaise _ => Ok denied_no_rule
      end
  end.

(** The session object the registry maps [sid] to. *)
Definition session_of (s : St) (sid : string) : option Session :=
  sessions s !! sid ≫= fun l => heap_sessions s !! l.

Definition lookup_session (sid : string) : M (option Session) :=
  gets (fun s => session_of s sid).

Record PermissionParams := {
  pp_sessionId : option string;
  pp_permissionRequest : option PermissionRequest;
}.

(** [CopilotClient._handle_permission_request]: the value of the "result"
    key of the response dict. *)
Definition handle_permission_request (params : PermissionParams) : M PermissionResult :=
  let session_id := pp_sessionId params in
  let permission_request := pp_permissionRequest params in
  match session_id, permission_request with
  | Some sid, Some ((_ :: _) as req) =>
      if negb (truthy_str session_id) then raise (ValueError "invalid permission request payload")
      else
        session ← lookup_session sid;
        match session with
        | None => raise (ValueError ("unknown session " +:+ sid))
        | Some sess =>
            try_except (lift (session_handle_permission_request sess req))
                       (fun _ => mret denied_no_rule)
        end
  | _, _ => raise (ValueError "invalid permission request payload")
  end.

Definition generic_tool_error_text : string :=
  "Invoking this tool produced an error. Detailed information is not available.".

(** [CopilotClient._execute_tool_call]. *)
Definition execute_tool_call (session_id tool_call_id tool_name arguments : string)
    (handler : ToolHandler) : ToolResult :=
  let invocation := {| inv_session_id := session_id; inv_tool_call_id := tool_call_id;
                       inv_tool_name := tool_name; inv_arguments := arguments |} in
  let result :=
    match handler invocation with
    | TReturn r => r
    | TRaise exc =>
        Some {| textResultForLlm := generic_tool_error_text;
                resultType := "failure";
                error := Some (exn_str exc);
                toolTelemetry := [] |}
    end in
  match result with
  | None => {| textResultForLlm := "Tool returned no result.";
               resultType := "failure";
               error := Some "tool returned no result";
               toolTelemetry := [] |}
  (* _normalize_tool_result: a ToolResult is a TypedDict, not a dataclass,
     so it is returned unchanged *)
  | Some r => r
  end.

(** [CopilotClient._build_unsupported_tool_result]. *)
Definition build_unsupported_tool_result (tool_name : string) : ToolResult :=
  {| textResultForLlm := "Tool '" +:+ tool_name +:+ "' is not supported.";
     resultType := "failure";
     error := Some ("tool '" +:+ tool_name +:+ "' not supported");
     toolTelemetry := [] |}.

Record ToolCallParams := {
  tc_sessionId : option string;
  tc_toolCallId : option string;
  tc_toolName : option string;
  tc_arguments : string;
}.

(** [CopilotClient._handle_tool_call_request]: the value of the "result"
    key of the response dict. *)
Definition handle_tool_call_request (params : ToolCallParams) : M ToolResult :=
  match tc_sessionId params, tc_toolCallId params, tc_toolName params with
  | Some sid, Some tcid, Some name =>
      if negb (truthy_str (Some sid) && truthy_str (Some tcid) && truthy_str (Some name))
      then raise (ValueError "invalid tool call payload")
      else
        session ← lookup_session sid;
        match session with
        | None => raise (ValueError ("unknown session " +:+ sid))
        | Some sess =>
            match tool_handlers sess !! name with
            | None => mret (build_unsupported_tool_result name)
            | Some handler =>
                mret (execute_tool_call sid tcid name (tc_arguments params) handler)
            end
        end
  | _, _, _ => raise (ValueError "invalid tool call payload")
  end.

(* ===================================================================== *)
(** * Session.destroy, CopilotClient.delete_session                      *)
(* ===================================================================== *)

(** The session object at [l] after its handler tables are cleared. *)
Definition cleared (sess : Session) : Session :=
  {| session_id := session_id sess; event_handlers := ∅;
     tool_handlers := ∅; permission_handler := None |}.

Definition update_session (l : nat) (f : Session -> Session) (s : St) : St :=
  set_heap_sessions (alter f l (heap_sessions s)) s.

(** [CopilotSession.destroy] on the session object at [l]; [resp] is the
    server's answer to session.destroy.  The session object holds the
    JSON-RPC connection, not the [CopilotClient], so this method reaches
    no registry. *)
Definition session_destroy (l : nat) (resp : outcome unit) : M unit :=
  request "session.destroy" resp ;;
  modify (update_session l cleared).

(** The response dict of session.delete. *)
Record DeleteResponse := { dr_success : option bool; dr_error : option string }.

(** [CopilotClient.delete_session]. *)
Definition delete_session (session_id : string) (resp : outcome DeleteResponse) : M unit :=
  c ← gets client;
  if negb c then raise (RuntimeError "Client not connected")
  else
    response ← request "session.delete" resp;
    if negb (truthy_bool (dr_success response)) then
      raise (RuntimeError ("Failed to delete session " +:+ session_id +:+ ": "
                           +:+ or_default (dr_error response) "Unknown error"))
    else modify (fun s => set_sessions (delete session_id (sessions s)) s).

(* ===================================================================== *)
(** * CopilotClient.stop                                                 *)
(* ===================================================================== *)

Record StopError := { stop_message : string }.

(** What the outside world answers during [stop()]: the server's answer to
    session.destroy for each session id, the outcome of closing the
    JSON-RPC client, and whether [process.wait(timeout=5)] times out. *)
Record StopIO := {
  destroy_response : string -> outcome unit;
  transport_stop : outcome unit;
  wait_times_out : bool;
}.

Definition log_op (op : string) : M unit := modify (log_request op).

(** [await self._client.stop()] *)
Definition close_transport (io : StopIO) : M unit := fun s =>
  (transport_stop io, log_request "transport.stop" s).

(** The loop over the sessions taken out of the registry; the registry key
    is the session's [session_id] (create/resume insert it under it). *)
Fixpoint destroy_sessions (io : StopIO) (to_destroy : list (string * nat))
    : M (list StopError) :=
  match to_destroy with
  | [] => mret []
  | (sid, l) :: rest =>
      errs ← try_except (session_destroy l (destroy_response io sid) ;; mret [])
               (fun e => mret [{| stop_message := "Failed to destroy session " +:+ sid
                                                   +:+ ": " +:+ exn_str e |}]);
      errs' ← destroy_sessions io rest;
      mret (errs ++ errs')
  end.

(** [if self._client: await self._client.stop(); self._client = None] *)
Definition stop_client (io : StopIO) : M unit :=
  c ← gets client;
  if (c : bool) then (close_transport io ;; modify (set_client false)) else mret tt.

(** Terminate the CLI process, only if this client spawned it; kill it
    when [wait(timeout=5)] expires. *)
Definition stop_process (io : StopIO) : M unit :=
  p ← gets process;
  ext ← gets is_external_server;
  if (p : bool) && negb ext then
    (log_op "process.terminate" ;;
     (if wait_times_out io then log_op "process.kill" else mret tt) ;;
     modify (set_process false))
  else mret tt.

Definition stop (io : StopIO) : M (list StopError) :=
  sessions_to_destroy ← gets (fun s => map_to_list (sessions s));
  modify (set_sessions ∅) ;;
  errors ← destroy_sessions io sessions_to_destroy;
  stop_client io ;;
  modify (set_models_cache None) ;;
  stop_process io ;;
  modify (set_state Disconnected) ;;
  ext ← gets is_external_server;
  (if negb ext then modify (set_actual_port None) else mret tt) ;;
  mret errors.

(** The errors [stop()] collects for the sessions [to_destroy], in order:
    one per session whose session.destroy fails. *)
Definition stop_errors (io : StopIO) (to_destroy : list (string * nat)) : list StopError :=
  flat_map (fun '(sid, _) =>
              match destroy_response io sid with
              | Ok _ => []
              | Raise e => [{| stop_message := "Failed to destroy session " +:+ sid
                                               +:+ ": " +:+ exn_str e |}]
              end) to_destroy.

(** The operations [stop()] performs, in order, after the destroy loop. *)
Definition stop_ops (io : StopIO) (s : St) : list string :=
  (if client s then ["transport.stop"%string] else []) ++
  (if process s && negb (is_external_server s)
   then "process.terminate"%string :: (if wait_times_out io then ["process.kill"%string] else [])
   else []).

(* ===================================================================== *)
(** * CopilotClient.list_models                                          *)
(* ===================================================================== *)

(** A new list object holding [v]. *)
Definition alloc (v : list ModelInfo) : M nat := fun s =>
  (Ok (heap_next s), set_heap_lists (<[heap_next s := v]> (heap_lists s)) (S (heap_next s)) s).

(** [list(x)]: a new list object with the elements of the list at [l]. *)
Definition copy_list (l : nat) : M nat :=
  v ← gets (fun s => heap_lists s !! l);
  alloc (default [] v).

(** [list_models()]; [resp] is the server's answer to models.list, already
    turned into [ModelInfo]s (a malformed entry is a raised exception). *)
Definition list_models (resp : outcome (list ModelInfo)) : M nat :=
  c ← gets client;
  if negb c then raise (RuntimeError "Client not connected")
  else
    cache ← gets models_cache;
    match cache with
    | Some l => copy_list l
    | None =>
        models ← request "models.list" resp;
        l ← alloc models;
        modify (set_models_cache (Some l)) ;;
        copy_list l
    end.

(** Callers serialized by the cache lock: each gets the answer the server
    would give if it sends the request. *)
Fixpoint list_models_calls (resps : list (outcome (list ModelInfo))) : M (list (outcome nat)) :=
  match resps with
  | [] => mret []
  | r :: rest =>
      o ← try_except (x ← list_models r; mret (Ok x)) (fun e => mret (Raise e));
      os ← list_models_calls rest;
      mret (o :: os)
  end.

(** A caller mutating a list object it holds ([append], [remove], ...). *)
Definition mutate_list (l : nat) (f : list ModelInfo -> list ModelInfo) (s : St) : St :=
  set_heap_lists (alter f l (heap_lists s)) (heap_next s) s.

(** The heap of list objects is well formed: every object lives below the
    allocation pointer, and the cache names an existing object. *)
Definition heap_wf (s : St) : Prop :=
  (forall l, is_Some (heap_lists s !! l) -> (l < heap_next s)%nat) /\
  (forall c, models_cache s = Some c -> is_Some (heap_lists s !! c)).

(** The number of models.list requests serialized callers send, from a
    cold ([true]) or warm cache, given the server's answers in order. *)
Fixpoint requests_sent (cold : bool) (rs : list (outcome (list ModelInfo))) : nat :=
  if cold then
    match rs with
    | [] => 0
    | Ok _ :: _ => 1
    | Raise _ :: rest => S (requests_sent true rest)
    end
  else 0.

(** The dataclass [PingResponse] (copilot/types.py). *)
Record PingResponse := { message : string; timestamp : Z; protocolVersion : Z }.

(* ===================================================================== *)
(** * Subscriptions: Session.on and CopilotClient.on                     *)
(* ===================================================================== *)

(** The first argument of [CopilotClient.on]: a handler or an event type. *)
Inductive OnArg := ArgHandler (h : nat) | ArgEventType (t : string).

(** The unsubscribe closures returned by the [on] methods, as data: the
    handler, and the event type or session object they close over. *)
Inductive Unsubscribe :=
  | UnsubscribeWildcard (h : nat)
  | UnsubscribeTyped (t : string) (h : nat)
  | UnsubscribeSession (l : nat) (h : nat).

(** [list.remove(h)]: drops the first element equal to [h]. *)
Fixpoint list_remove (h : nat) (l : list nat) : list nat :=
  match l with
  | [] => []
  | x :: r => if decide (x = h) then r else x :: list_remove h r
  end.

(** [CopilotClient.on(event_type_or_handler, handler)]. *)
Definition client_on (x : OnArg) (handler : option nat) : M Unsubscribe :=
  match x, handler with
  | ArgHandler h, None =>
      modify (fun s => set_lifecycle (lifecycle_handlers s ++ [h])
                                     (typed_lifecycle_handlers s) s) ;;
      mret (UnsubscribeWildcard h)
  | ArgEventType t, Some h =>
      modify (fun s =>
        let hs := default [] (typed_lifecycle_handlers s !! t) in
        set_lifecycle (lifecycle_handlers s)
                      (<[t := hs ++ [h]]> (typed_lifecycle_handlers s)) s) ;;
      mret (UnsubscribeTyped t h)
  | _, _ => raise (ValueError "Invalid arguments: use on(handler) or on(event_type, handler)")
  end.

(** [CopilotSession.on(handler)] on the session object at [l]. *)
Definition session_on (l : nat) (h : nat) : M Unsubscribe :=
  modify (update_session l (fun sess =>
    {| session_id := session_id sess; event_handlers := {[h]} ∪ event_handlers sess;
       tool_handlers := tool_handlers sess;
       permission_handler := permission_handler sess |})) ;;
  mret (UnsubscribeSession l h).

(** Calling an unsubscribe closure. *)
Definition unsubscribe (u : Unsubscribe) (s : St) : St :=
  match u with
  | UnsubscribeWildcard h =>
      let hs := lifecycle_handlers s in
      set_lifecycle (if decide (h ∈ hs) then list_remove h hs else hs)
                    (typed_lifecycle_handlers s) s
  | UnsubscribeTyped t h =>
      (* [handlers = self._typed_lifecycle_handlers.get(event_type, [])]:
         for an absent event type the list is a fresh one *)
      match typed_lifecycle_handlers s !! t with
      | Some hs =>
          set_lifecycle (lifecycle_handlers s)
            (<[t := if decide (h ∈ hs) then list_remove h hs else hs]>
               (typed_lifecycle_handlers s)) s
      | None => s
      end
  | UnsubscribeSession l h =>
      update_session l (fun sess =>
        {| session_id := session_id sess; event_handlers := event_handlers sess ∖ {[h]};
           tool_handlers := tool_handlers sess;
           permission_handler := permission_handler sess |}) s
  end.

(** The handlers [_dispatch_lifecycle_event] calls for an event of type
    [t], in order: the typed ones, then the wildcard ones. *)
Definition lifecycle_receivers (t : string) (s : St) : list nat :=
  default [] (typed_lifecycle_handlers s !! t) ++ lifecycle_handlers s.

(** The handlers [_dispatch_event] of the session object at [l] calls. *)
Definition session_receivers (l : nat) (s : St) : gset nat :=
  default ∅ (event_handlers <$> heap_sessions s !! l).

(** How many times [h] is registered in a handler list. *)
Definition registrations (h : nat) (l : list nat) : nat := count_occ Nat.eq_dec l h.

(* ===================================================================== *)
(** * Python values, dicts and the dataclasses of types.py               *)
(* ===================================================================== *)

(** A Python value as decoded from JSON ([None], bool, int, float, str,
    list, dict with str keys).  A dict is its list of items in insertion
    order, keys unique. *)
Local Set Warnings "-register-all".
Inductive pyval : Type :=
  | PNone
  | PBool (b : bool)
  | PInt (z : Z)
  | PFloat (f : PrimFloat.float)
  | PStr (s : string)
  | PList (l : list pyval)
  | PDict (d : list (string * pyval)).

Definition dict := list (string * pyval).

(** [d[k]] when [k in d]. *)
Fixpoint dict_get (d : dict) (k : string) : option pyval :=
  match d with
  | [] => None
  | (k', v) :: r => if String.eqb k k' then Some v else dict_get r k
  end.

(** [d[k] = v]: an existing key keeps its position. *)
Fixpoint dict_set (d : dict) (k : string) (v : pyval) : dict :=
  match d with
  | [] => [(k, v)]
  | (k', v') :: r => if String.eqb k k' then (k, v) :: r else (k', v') :: dict_set r k v
  end.

(** [d.get(k)], [d.get(k, default)], [k in d] *)
Definition py_get (d : dict) (k : string) : pyval := default PNone (dict_get d k).
Definition py_get_or (d : dict) (k : string) (dflt : pyval) : pyval := default dflt (dict_get d k).
Definition py_in (k : string) (d : dict) : bool := is_not_None (dict_get d k).

(** [v is None] *)
Definition is_None (v : pyval) : bool := match v with PNone => true | _ => false end.

(** [bool(v)]: Python truthiness. *)
Definition truthy (v : pyval) : bool :=
  match v with
  | PNone => false
  | PBool b => b
  | PInt z => negb (Z.eqb z 0)
  | PFloat f =>
      match PrimFloat.classify f with
      | FloatClass.PZero | FloatClass.NZero => false
      | _ => true
      end
  | PStr s => negb (String.eqb s "")
  | PList l => negb (Nat.eqb (List.length l) 0)
  | PDict d => negb (Nat.eqb (List.length d) 0)
  end.

(** [type(v).__name__] *)
Definition py_type_name (v : pyval) : string :=
  match v with
  | PNone => "NoneType" | PBool _ => "bool" | PInt _ => "int" | PFloat _ => "float"
  | PStr _ => "str" | PList _ => "list" | PDict _ => "dict"
  end.

(** Exceptions of other classes, by their [str(e)]. *)
Definition KeyError (k : string) : exn := OtherError ("'" +:+ k +:+ "'").
Definition AssertionError : exn := OtherError "".
Definition AttributeError_get (v : pyval) : exn :=
  OtherError ("'" +:+ py_type_name v +:+ "' object has no attribute 'get'").

(** [k in v] for a str [k]: key of a dict, element of a list, substring of
    a str; a TypeError for the other types. *)
Definition py_contains (k : string) (v : pyval) : outcome bool :=
  match v with
  | PDict d => Ok (py_in k d)
  | PList l => Ok (existsb (fun x => match x with PStr s => String.eqb s k | _ => false end) l)
  | PStr s => Ok (is_not_None (String.index 0 k s))
  | _ => Raise (OtherError ("argument of type '" +:+ py_type_name v +:+ "' is not iterable"))
  end.

(** [v[k]] for a str [k]. *)
Definition py_getitem (v : pyval) (k : string) : outcome pyval :=
  match v with
  | PDict d => match dict_get d k with Some x => Ok x | None => Raise (KeyError k) end
  | PNone => Raise (OtherError "'NoneType' object is not subscriptable")
  | PList _ => Raise (OtherError "list indices must be integers or slices, not str")
  | PStr _ => Raise (OtherError "string indices must be integers, not 'str'")
  | _ => Raise (OtherError ("'" +:+ py_type_name v +:+ "' object is not subscriptable"))
  end.

(** [for x in v]: the items a loop over [v] visits. *)
Definition py_iter (v : pyval) : outcome (list pyval) :=
  match v with
  | PList l => Ok l
  | PDict d => Ok (map (fun kv => PStr (fst kv)) d)
  | PStr s => Ok (map (fun a => PStr (String a EmptyString)) (list_ascii_of_string s))
  | _ => Raise (OtherError ("'" +:+ py_type_name v +:+ "' object is not iterable"))
  end.

(** Sequencing of calls that may raise. *)
Definition obind {A B} (m : outcome A) (k : A -> outcome B) : outcome B :=
  match m with Ok a => k a | Raise e => Raise e end.

(** [[f(x) for x in xs]]: the first exception raised stops the loop. *)
Fixpoint omap {A B} (f : A -> outcome B) (xs : list A) : outcome (list B) :=
  match xs with
  | [] => Ok []
  | x :: r => obind (f x) (fun y => obind (omap f r) (fun ys => Ok (y :: ys)))
  end.

(** The builtins [str], [int] and [float] applied to a JSON value.  The
    development uses only the facts of [conv_ok]: each leaves a value of its
    own type unchanged, and [str(None)] is "None". *)
Record PyConv := {
  py_str : pyval -> string;
  py_int : pyval -> outcome Z;
  py_float : pyval -> outcome PrimFloat.float;
}.

Definition conv_ok (c : PyConv) : Prop :=
  (forall s, py_str c (PStr s) = s) /\ py_str c PNone = "None"%string /\
  (forall z, py_int c (PInt z) = Ok z) /\ (forall f, py_float c (PFloat f) = Ok f).

(** [int(x)] for a float [x]: truncation toward zero; NaN raises
    ValueError and the infinities OverflowError.  A finite float is
    [(-1)^s * m * 2^e]. *)
Definition float_to_int (f : PrimFloat.float) : outcome Z :=
  match FloatOps.Prim2SF f with
  | SpecFloat.S754_zero _ => Ok 0
  | SpecFloat.S754_infinity _ => Raise (OtherError "cannot convert float infinity to integer")
  | SpecFloat.S754_nan => Raise (ValueError "cannot convert float NaN to integer")
  | SpecFloat.S754_finite sgn m e =>
      let n := Z.shiftl (Zpos m) e in Ok (if sgn then - n else n)
  end.

Module Types.

(** [assert isinstance(obj, dict)] then the body. *)
Definition with_dict {A} (obj : pyval) (k : dict -> outcome A) : outcome A :=
  match obj with PDict d => k d | _ => Raise AssertionError end.

(** [PingResponse.from_dict] / [to_dict] *)
Definition PingResponse_from_dict (c : PyConv) (obj : pyval) : outcome PingResponse :=
  with_dict obj (fun obj =>
    let message := py_get obj "message" in
    let timestamp := py_get obj "timestamp" in
    let protocolVersion := py_get obj "protocolVersion" in
    if is_None message || is_None timestamp || is_None protocolVersion then
      Raise (ValueError ("Missing required fields in PingResponse: message=" +:+ py_str c message
                         +:+ ", timestamp=" +:+ py_str c timestamp
                         +:+ ", protocolVersion=" +:+ py_str c protocolVersion))
    else
      obind (py_int c timestamp) (fun t =>
      obind (py_int c protocolVersion) (fun v =>
      Ok {| message := py_str c message; timestamp := t; protocolVersion := v |}))).

Definition PingResponse_to_dict (self : PingResponse) : pyval :=
  let result := [] in
  let result := dict_set result "message" (PStr (message self)) in
  let result := dict_set result "timestamp" (PInt (timestamp self)) in
  let result := dict_set result "protocolVersion" (PInt (protocolVersion self)) in
  PDict result.

(** [StopError.from_dict] / [to_dict] *)
Definition StopError_from_dict (c : PyConv) (obj : pyval) : outcome StopError :=
  with_dict obj (fun obj =>
    let message := py_get obj "message" in
    if is_None message then Raise (ValueError "Missing required field 'message' in StopError")
    else Ok {| stop_message := py_str c message |}).

Definition StopError_to_dict (self : StopError) : pyval :=
  PDict (dict_set [] "message" (PStr (stop_message self))).

(** [GetStatusResponse] *)
Record GetStatusResponse := { gs_version : string; gs_protocolVersion : Z }.

Definition GetStatusResponse_from_dict (c : PyConv) (obj : pyval) : outcome GetStatusResponse :=
  with_dict obj (fun obj =>
    let version := py_get obj "version" in
    let protocolVersion := py_get obj "protocolVersion" in
    if is_None version || is_None protocolVersion then
      Raise (ValueError ("Missing required fields in GetStatusResponse: version=" +:+ py_str c version
                         +:+ ", protocolVersion=" +:+ py_str c protocolVersion))
    else
      obind (py_int c protocolVersion) (fun v =>
      Ok {| gs_version := py_str c version; gs_protocolVersion := v |})).

Definition GetStatusResponse_to_dict (self : GetStatusResponse) : pyval :=
  let result := [] in
  let result := dict_set result "version" (PStr (gs_version self)) in
  let result := dict_set result "protocolVersion" (PInt (gs_protocolVersion self)) in
  PDict result.

(** [GetAuthStatusResponse]; the optional fields keep the JSON value. *)
Record GetAuthStatusResponse := {
  isAuthenticated : bool;
  authType : pyval;
  host : pyval;
  login : pyval;
  statusMessage : pyval;
}.

Definition GetAuthStatusResponse_from_dict (obj : pyval) : outcome GetAuthStatusResponse :=
  with_dict obj (fun obj =>
    let isAuthenticated := py_get obj "isAuthenticated" in
    if is_None isAuthenticated then
      Raise (ValueError "Missing required field 'isAuthenticated' in GetAuthStatusResponse")
    else
      Ok {| isAuthenticated := truthy isAuthenticated;
            authType := py_get obj "authType"; host := py_get obj "host";
            login := py_get obj "login"; statusMessage := py_get obj "statusMessage" |}).

(** [if v is not None: result[k] = v] *)
Definition set_if_not_None (result : dict) (k : string) (v : pyval) : dict :=
  if is_None v then result else dict_set result k v.

Definition GetAuthStatusResponse_to_dict (self : GetAuthStatusResponse) : pyval :=
  let result := [] in
  let result := dict_set result "isAuthenticated" (PBool (isAuthenticated self)) in
  let result := set_if_not_None result "authType" (authType self) in
  let result := set_if_not_None result "host" (host self) in
  let result := set_if_not_None result "login" (login self) in
  let result := set_if_not_None result "statusMessage" (statusMessage self) in
  PDict result.

(** [ModelVisionLimits] *)
Record ModelVisionLimits := {
  supported_media_types : pyval;
  max_prompt_images : pyval;
  max_prompt_image_size : pyval;
}.

Definition ModelVisionLimits_from_dict (obj : pyval) : outcome ModelVisionLimits :=
  with_dict obj (fun obj =>
    Ok {| supported_media_types := py_get obj "supported_media_types";
          max_prompt_images := py_get obj "max_prompt_images";
          max_prompt_image_size := py_get obj "max_prompt_image_size" |}).

Definition ModelVisionLimits_to_dict (self : ModelVisionLimits) : pyval :=
  let result := [] in
  let result := set_if_not_None result "supported_media_types" (supported_media_types self) in
  let result := set_if_not_None result "max_prompt_images" (max_prompt_images self) in
  let result := set_if_not_None result "max_prompt_image_size" (max_prompt_image_size self) in
  PDict result.

(** [ModelLimits] *)
Record ModelLimits := {
  max_prompt_tokens : pyval;
  max_context_window_tokens : pyval;
  vision : option ModelVisionLimits;
}.

Definition ModelLimits_from_dict (obj : pyval) : outcome ModelLimits :=
  with_dict obj (fun obj =>
    let max_prompt_tokens := py_get obj "max_prompt_tokens" in
    let max_context_window_tokens := py_get obj "max_context_window_tokens" in
    let vision_dict := py_get obj "vision" in
    obind (if truthy vision_dict
           then obind (ModelVisionLimits_from_dict vision_dict) (fun v => Ok (Some v))
           else Ok None) (fun vision =>
    Ok {| max_prompt_tokens := max_prompt_tokens;
          max_context_window_tokens := max_context_window_tokens;
          vision := vision |})).

Definition ModelLimits_to_dict (self : ModelLimits) : pyval :=
  let result := [] in
  let result := set_if_not_None result "max_prompt_tokens" (max_prompt_tokens self) in
  let result := set_if_not_None result "max_context_window_tokens"
                                (max_context_window_tokens self) in
  let result := match vision self with
                | Some v => dict_set result "vision" (ModelVisionLimits_to_dict v)
                | None => result
                end in
  PDict result.

(** [ModelSupports] *)
Record ModelSupports := { supports_vision : bool; reasoning_effort : bool }.

Definition ModelSupports_from_dict (obj : pyval) : outcome ModelSupports :=
  with_dict obj (fun obj =>
    let vision := py_get obj "vision" in
    if is_None vision then Raise (ValueError "Missing required field 'vision' in ModelSupports")
    else
      let reasoning_effort := py_get_or obj "reasoningEffort" (PBool false) in
      Ok {| supports_vision := truthy vision; reasoning_effort := truthy reasoning_effort |}).

Definition ModelSupports_to_dict (self : ModelSupports) : pyval :=
  let result := [] in
  let result := dict_set result "vision" (PBool (supports_vision self)) in
  let result := dict_set result "reasoningEffort" (PBool (reasoning_effort self)) in
  PDict result.

(** [ModelCapabilities] *)
Record ModelCapabilities := { supports : ModelSupports; limits : ModelLimits }.

Definition ModelCapabilities_from_dict (c : PyConv) (obj : pyval) : outcome ModelCapabilities :=
  with_dict obj (fun obj =>
    let supports_dict := py_get obj "supports" in
    let limits_dict := py_get obj "limits" in
    if is_None supports_dict || is_None limits_dict then
      Raise (ValueError ("Missing required fields in ModelCapabilities: supports="
                         +:+ py_str c supports_dict +:+ ", limits=" +:+ py_str c limits_dict))
    else
      obind (ModelSupports_from_dict supports_dict) (fun supports =>
      obind (ModelLimits_from_dict limits_dict) (fun limits =>
      Ok {| supports := supports; limits := limits |}))).

Definition ModelCapabilities_to_dict (self : ModelCapabilities) : pyval :=
  let result := [] in
  let result := dict_set result "supports" (ModelSupports_to_dict (supports self)) in
  let result := dict_set result "limits" (ModelLimits_to_dict (limits self)) in
  PDict result.

(** [ModelPolicy] *)
Record ModelPolicy := { policy_state : string; terms : string }.

Definition ModelPolicy_from_dict (c : PyConv) (obj : pyval) : outcome ModelPolicy :=
  with_dict obj (fun obj =>
    let state := py_get obj "state" in
    let terms := py_get obj "terms" in
    if is_None state || is_None terms then
      Raise (ValueError ("Missing required fields in ModelPolicy: state=" +:+ py_str c state
                         +:+ ", terms=" +:+ py_str c terms))
    else Ok {| policy_state := py_str c state; terms := py_str c terms |}).

Definition ModelPolicy_to_dict (self : ModelPolicy) : pyval :=
  let result := [] in
  let result := dict_set result "state" (PStr (policy_state self)) in
  let result := dict_set result "terms" (PStr (terms self)) in
  PDict result.

(** [ModelBilling] *)
Record ModelBilling := { multiplier : PrimFloat.float }.

Definition ModelBilling_from_dict (c : PyConv) (obj : pyval) : outcome ModelBilling :=
  with_dict obj (fun obj =>
    let multiplier := py_get obj "multiplier" in
    if is_None multiplier then Raise (ValueError "Missing required field 'multiplier' in ModelBilling")
    else obind (py_float c multiplier) (fun m => Ok {| multiplier := m |})).

Definition ModelBilling_to_dict (self : ModelBilling) : pyval :=
  PDict (dict_set [] "multiplier" (PFloat (multiplier self))).

(** [ModelInfo] (the full dataclass) *)
Record ModelInfo := {
  mi_id : string;
  mi_name : string;
  capabilities : ModelCapabilities;
  policy : option ModelPolicy;
  billing : option ModelBilling;
  supported_reasoning_efforts : pyval;
  default_reasoning_effort : pyval;
}.

(** [X.from_dict(d) if d else None] *)
Definition from_dict_if_truthy {A} (f : pyval -> outcome A) (v : pyval) : outcome (option A) :=
  if truthy v then obind (f v) (fun x => Ok (Some x)) else Ok None.

Definition ModelInfo_from_dict (c : PyConv) (obj : pyval) : outcome ModelInfo :=
  with_dict obj (fun obj =>
    let id := py_get obj "id" in
    let name := py_get obj "name" in
    let capabilities_dict := py_get obj "capabilities" in
    if is_None id || is_None name || is_None capabilities_dict then
      Raise (ValueError ("Missing required fields in ModelInfo: id=" +:+ py_str c id
                         +:+ ", name=" +:+ py_str c name
                         +:+ ", capabilities=" +:+ py_str c capabilities_dict))
    else
      obind (ModelCapabilities_from_dict c capabilities_dict) (fun capabilities =>
      obind (from_dict_if_truthy (ModelPolicy_from_dict c) (py_get obj "policy")) (fun policy =>
      obind (from_dict_if_truthy (ModelBilling_from_dict c) (py_get obj "billing")) (fun billing =>
      Ok {| mi_id := py_str c id; mi_name := py_str c name; capabilities := capabilities;
            policy := policy; billing := billing;
            supported_reasoning_efforts := py_get obj "supportedReasoningEfforts";
            default_reasoning_effort := py_get obj "defaultReasoningEffort" |})))).

Definition ModelInfo_to_dict (self : ModelInfo) : pyval :=
  let result := [] in
  let result := dict_set result "id" (PStr (mi_id self)) in
  let result := dict_set result "name" (PStr (mi_name self)) in
  let result := dict_set result "capabilities" (ModelCapabilities_to_dict (capabilities self)) in
  let result := match policy self with
                | Some p => dict_set result "policy" (ModelPolicy_to_dict p) | None => result end in
  let result := match billing self with
                | Some b => dict_set result "billing" (ModelBilling_to_dict b) | None => result end in
  let result := set_if_not_None result "supportedReasoningEfforts"
                                (supported_reasoning_efforts self) in
  let result := set_if_not_None result "defaultReasoningEffort" (default_reasoning_effort self) in
  PDict result.

(** [SessionContext] *)
Record SessionContext := { cwd : string; gitRoot : pyval; repository : pyval; branch : pyval }.

Definition SessionContext_from_dict (c : PyConv) (obj : pyval) : outcome SessionContext :=
  with_dict obj (fun obj =>
    let cwd := py_get obj "cwd" in
    if is_None cwd then Raise (ValueError "Missing required field 'cwd' in SessionContext")
    else Ok {| cwd := py_str c cwd; gitRoot := py_get obj "gitRoot";
               repository := py_get obj "repository"; branch := py_get obj "branch" |}).

Definition SessionContext_to_dict (self : SessionContext) : pyval :=
  let result := [("cwd", PStr (cwd self))] in
  let result := set_if_not_None result "gitRoot" (gitRoot self) in
  let result := set_if_not_None result "repository" (repository self) in
  let result := set_if_not_None result "branch" (branch self) in
  PDict result.

(** [SessionListFilter]: every field may be None. *)
Record SessionListFilter := {
  lf_cwd : pyval;
  lf_gitRoot : pyval;
  lf_repository : pyval;
  lf_branch : pyval;
}.

Definition SessionListFilter_to_dict (self : SessionListFilter) : pyval :=
  let result := [] in
  let result := set_if_not_None result "cwd" (lf_cwd self) in
  let result := set_if_not_None result "gitRoot" (lf_gitRoot self) in
  let result := set_if_not_None result "repository" (lf_repository self) in
  let result := set_if_not_None result "branch" (lf_branch self) in
  PDict result.

(** [SessionMetadata] *)
Record SessionMetadata := {
  sm_sessionId : string;
  startTime : string;
  modifiedTime : string;
  isRemote : bool;
  summary : pyval;
  context : option SessionContext;
}.

Definition SessionMetadata_from_dict (c : PyConv) (obj : pyval) : outcome SessionMetadata :=
  with_dict obj (fun obj =>
    let sessionId := py_get obj "sessionId" in
    let startTime := py_get obj "startTime" in
    let modifiedTime := py_get obj "modifiedTime" in
    let isRemote := py_get obj "isRemote" in
    if is_None sessionId || is_None startTime || is_None modifiedTime || is_None isRemote then
      Raise (ValueError ("Missing required fields in SessionMetadata: sessionId=" +:+ py_str c sessionId
                         +:+ ", startTime=" +:+ py_str c startTime
                         +:+ ", modifiedTime=" +:+ py_str c modifiedTime
                         +:+ ", isRemote=" +:+ py_str c isRemote))
    else
      let summary := py_get obj "summary" in
      obind (from_dict_if_truthy (SessionContext_from_dict c) (py_get obj "context")) (fun context =>
      Ok {| sm_sessionId := py_str c sessionId; startTime := py_str c startTime;
            modifiedTime := py_str c modifiedTime; isRemote := truthy isRemote;
            summary := summary; context := context |})).

Definition SessionMetadata_to_dict (self : SessionMetadata) : pyval :=
  let result := [] in
  let result := dict_set result "sessionId" (PStr (sm_sessionId self)) in
  let result := dict_set result "startTime" (PStr (startTime self)) in
  let result := dict_set result "modifiedTime" (PStr (modifiedTime self)) in
  let result := dict_set result "isRemote" (PBool (isRemote self)) in
  let result := set_if_not_None result "summary" (summary self) in
  let result := match context self with
                | Some cx => dict_set result "context" (SessionContext_to_dict cx) | None => result end in
  PDict result.

(** [SessionLifecycleEventMetadata.from_dict(data)]: [data.get] on a value
    that is not a dict raises AttributeError. *)
Record SessionLifecycleEventMetadata := {
  lm_startTime : pyval;
  lm_modifiedTime : pyval;
  lm_summary : pyval;
}.

Definition SessionLifecycleEventMetadata_from_dict (data : pyval)
    : outcome SessionLifecycleEventMetadata :=
  match data with
  | PDict d =>
      Ok {| lm_startTime := py_get_or d "startTime" (PStr "");
            lm_modifiedTime := py_get_or d "modifiedTime" (PStr "");
            lm_summary := py_get d "summary" |}
  | _ => Raise (AttributeError_get data)
  end.

(** [SessionLifecycleEvent.from_dict(data)] on the notification params. *)
Record SessionLifecycleEvent := {
  le_type : pyval;
  le_sessionId : pyval;
  le_metadata : option SessionLifecycleEventMetadata;
}.

Definition SessionLifecycleEvent_from_dict (data : dict) : outcome SessionLifecycleEvent :=
  obind (if py_in "metadata" data && truthy (py_get data "metadata")
         then obind (SessionLifecycleEventMetadata_from_dict (py_get data "metadata"))
                    (fun m => Ok (Some m))
         else Ok None) (fun metadata =>
  Ok {| le_type := py_get_or data "type" (PStr "session.updated");
        le_sessionId := py_get_or data "sessionId" (PStr "");
        le_metadata := metadata |}).

End Types.

(* ===================================================================== *)
(** * CopilotClient.start and the protocol-version handshake             *)
(* ===================================================================== *)

(** What the outside world answers during [start()]: whether the CLI is
    found and spawned ([os.path.exists], [subprocess.Popen]); the port
    announcement ([Ok None] in stdio mode, which does not wait for one,
    [Ok (Some p)] when the TCP server announces port [p], [Raise] when it
    exits or times out first); whether the transport opens; and the
    server's answer to ping, a JSON value. *)
Record StartIO := {
  spawn_result : outcome unit;
  port_result : outcome (option Z);
  connect_result : outcome unit;
  ping_result : outcome pyval;
}.

(** [_start_cli_server]: [self._process] is set by [Popen], before the wait
    for the port announcement, so it stays set when that wait fails. *)
Definition start_cli_server (io : StartIO) : M unit := fun s =>
  match spawn_result io with
  | Raise e => (Raise e, s)
  | Ok _ =>
      let s1 := set_process true s in
      match port_result io with
      | Ok None => (Ok tt, s1)
      | Ok (Some p) => (Ok tt, set_actual_port (Some p) s1)
      | Raise e => (Raise e, s1)
      end
  end.

(** [_connect_to_server]: [self._client] is set when the transport opens. *)
Definition connect_to_server (io : StartIO) : M unit := fun s =>
  match connect_result io with
  | Ok _ => (Ok tt, set_client true s)
  | Raise e => (Raise e, s)
  end.

(** [ping()]: the answer goes through [PingResponse.from_dict], which
    applies [int()] to [timestamp] and [protocolVersion]. *)
Definition ping (conv : PyConv) (io : StartIO) : M PingResponse :=
  cl ← gets client;
  if negb cl then raise (RuntimeError "Client not connected")
  else
    result ← request "ping" (ping_result io);
    lift (Types.PingResponse_from_dict conv result).

(** [_verify_protocol_version]; [expected_version] is
    [get_sdk_protocol_version()].  [protocolVersion] is an int once
    [from_dict] has succeeded, so the code's [is None] test cannot fire. *)
Definition verify_protocol_version (conv : PyConv) (expected_version : Z) (io : StartIO)
    : M unit :=
  ping_resp ← ping conv io;
  let server_version := protocolVersion ping_resp in
  if bool_decide (server_version = expected_version) then mret tt
  else raise (RuntimeError ("SDK protocol version mismatch: SDK expects version "
                            +:+ py_str conv (PInt expected_version)
                            +:+ ", but server reports version "
                            +:+ py_str conv (PInt server_version)
                            +:+ ". Please update your SDK or server to ensure compatibility.")).

(** [start()] *)
Definition start (conv : PyConv) (expected_version : Z) (io : StartIO) : M unit :=
  st ← gets state;
  match st with
  | Connected => mret tt
  | _ =>
      modify (set_state Connecting) ;;
      try_except
        (ext ← gets is_external_server;
         (if (ext : bool) then mret tt else start_cli_server io) ;;
         connect_to_server io ;;
         verify_protocol_version conv expected_version io ;;
         modify (set_state Connected))
        (fun e => modify (set_state Error) ;; raise e)
  end.


(* ===================================================================== *)
(** * More of CopilotClient: force_stop and the simple requests          *)
(* ===================================================================== *)

(** [try: m finally: f] *)
Definition try_finally {A} (m : M A) (f : M unit) : M A := fun s =>
  match m s with
  | (r, s') =>
      match f s' with
      | (Ok _, s'') => (r, s'')
      | (Raise e, s'') => (Raise e, s'')
      end
  end.

(** [force_stop()]; [transport] is the outcome of [self._client.stop()].
    [self._process.kill()] does not raise. *)
Definition force_stop (transport : outcome unit) : M unit :=
  modify (set_sessions ∅) ;;
  c ← gets client;
  (if (c : bool) then
     try_except (fun s => (transport, log_request "transport.stop" s)) (fun _ => mret tt) ;;
     modify (set_client false)
   else mret tt) ;;
  modify (set_models_cache None) ;;
  p ← gets process;
  ext ← gets is_external_server;
  (if (p : bool) && negb ext then log_op "process.kill" ;; modify (set_process false)
   else mret tt) ;;
  modify (set_state Disconnected) ;;
  ext ← gets is_external_server;
  (if negb ext then modify (set_actual_port None) else mret tt).

(** [response.get(k, default)] on the server's answer: a value that is not
    a dict has no [get]. *)
Definition response_get (response : pyval) (k : string) (dflt : pyval) : outcome pyval :=
  match response with
  | PDict d => Ok (py_get_or d k dflt)
  | _ => Raise (AttributeError_get response)
  end.

(** [if not self._client: raise RuntimeError("Client not connected")] *)
Definition require_client : M unit :=
  c ← gets client;
  if negb c then raise (RuntimeError "Client not connected") else mret tt.

(** [get_status()] *)
Definition get_status (c : PyConv) (resp : outcome pyval) : M Types.GetStatusResponse :=
  require_client ;;
  result ← request "status.get" resp;
  lift (Types.GetStatusResponse_from_dict c result).

(** [get_auth_status()] *)
Definition get_auth_status (resp : outcome pyval) : M Types.GetAuthStatusResponse :=
  require_client ;;
  result ← request "auth.getStatus" resp;
  lift (Types.GetAuthStatusResponse_from_dict result).

(** [list_sessions()] *)
Definition list_sessions (c : PyConv) (resp : outcome pyval) : M (list Types.SessionMetadata) :=
  require_client ;;
  response ← request "session.list" resp;
  lift (obind (response_get response "sessions" (PList [])) (fun sessions_data =>
        obind (py_iter sessions_data) (fun items =>
        omap (Types.SessionMetadata_from_dict c) items))).

(** [get_foreground_session_id()] *)
Definition get_foreground_session_id (resp : outcome pyval) : M pyval :=
  require_client ;;
  response ← request "session.getForeground" resp;
  lift (response_get response "sessionId" PNone).

(** [set_foreground_session_id(session_id)] *)
Definition set_foreground_session_id (c : PyConv) (session_id : string) (resp : outcome pyval)
    : M unit :=
  require_client ;;
  response ← request "session.setForeground" resp;
  success ← lift (response_get response "success" (PBool false));
  if negb (truthy success) then
    error ← lift (response_get response "error" (PStr "Unknown error"));
    raise (RuntimeError ("Failed to set foreground session: " +:+ py_str c error))
  else mret tt.

(* ===================================================================== *)
(** * Wire formats and the session configuration                         *)
(* ===================================================================== *)

(** [if k in src: wire[k'] = src[k]] for a dict [src]. *)
Definition copy_if_in (src : dict) (k k' : string) (wire : dict) : dict :=
  if py_in k src then dict_set wire k' (py_get src k) else wire.

(** The same for a value [src] of any type: [in] and [[]] may raise. *)
Definition copy_if_contains (src : pyval) (k k' : string) (wire : dict) : outcome dict :=
  obind (py_contains k src) (fun b =>
    if b then obind (py_getitem src k) (fun v => Ok (dict_set wire k' v)) else Ok wire).

(** [_convert_provider_to_wire_format(provider)] *)
Definition convert_provider_to_wire_format (provider : pyval) : outcome dict :=
  match provider with
  | PDict p =>
      let wire_provider := [("type", py_get p "type")] in
      let wire_provider := copy_if_in p "base_url" "baseUrl" wire_provider in
      let wire_provider := copy_if_in p "api_key" "apiKey" wire_provider in
      let wire_provider := copy_if_in p "wire_api" "wireApi" wire_provider in
      let wire_provider := copy_if_in p "bearer_token" "bearerToken" wire_provider in
      if py_in "azure" p then
        let azure := py_get p "azure" in
        obind (copy_if_contains azure "api_version" "apiVersion" []) (fun wire_azure =>
        Ok (if truthy (PDict wire_azure) then dict_set wire_provider "azure" (PDict wire_azure)
            else wire_provider))
      else Ok wire_provider
  | _ => Raise (AttributeError_get provider)
  end.

(** [_convert_custom_agent_to_wire_format(agent)] *)
Definition convert_custom_agent_to_wire_format (agent : pyval) : outcome dict :=
  match agent with
  | PDict a =>
      let wire_agent := [("name", py_get a "name"); ("prompt", py_get a "prompt")] in
      let wire_agent := copy_if_in a "display_name" "displayName" wire_agent in
      let wire_agent := copy_if_in a "description" "description" wire_agent in
      let wire_agent := copy_if_in a "tools" "tools" wire_agent in
      let wire_agent := copy_if_in a "mcp_servers" "mcpServers" wire_agent in
      let wire_agent := copy_if_in a "infer" "infer" wire_agent in
      Ok wire_agent
  | _ => Raise (AttributeError_get agent)
  end.

(** The [Tool] dataclass (types.py). *)
Record Tool := {
  tool_name : string;
  tool_description : string;
  tool_handler : option ToolHandler;
  tool_parameters : pyval;
}.

(** The loop of [CopilotSession._register_tools] over [tools]. *)
Fixpoint register_tools_loop (tools : list Tool) (m : gmap string ToolHandler)
    : gmap string ToolHandler :=
  match tools with
  | [] => m
  | tool :: rest =>
      let m := match tool_handler tool with
               | Some h => if String.eqb (tool_name tool) "" then m else <[tool_name tool := h]> m
               | None => m
               end in
      register_tools_loop rest m
  end.

(** [CopilotSession._register_tools(tools)]: the tool table afterwards
    ([clear()], then the loop). *)
Definition register_tools (tools : option (list Tool)) : gmap string ToolHandler :=
  match tools with
  | None | Some [] => ∅
  | Some ts => register_tools_loop ts ∅
  end.

(** A hook handler: it returns a value or raises. *)
Definition HookHandler := pyval -> string -> outcome pyval.

(** A [SessionHooks] dict: each key maps to a handler or to [None]. *)
Definition SessionHooks := list (string * option HookHandler).

(** [d.get(k)] on a dict with str keys. *)
Fixpoint str_assoc {A} (l : list (string * A)) (k : string) : option A :=
  match l with
  | [] => None
  | (k', v) :: r => if String.eqb k k' then Some v else str_assoc r k
  end.

(** The question of a user input request, as the handler receives it. *)
Record UserInputRequest := { uir_question : pyval; uir_choices : pyval; uir_allowFreeform : pyval }.

Definition UserInputHandler := UserInputRequest -> string -> outcome pyval.

(** The keys of a [SessionConfig] / [ResumeSessionConfig] dict; an absent
    key is [PNone] (or [None]), as [cfg.get] sees it. *)
Record SessionConfig := {
  cfg_session_id : pyval;
  cfg_model : pyval;
  cfg_reasoning_effort : pyval;
  cfg_tools : option (list Tool);
  cfg_system_message : pyval;
  cfg_available_tools : pyval;
  cfg_excluded_tools : pyval;
  cfg_on_permission_request : option PermissionHandler;
  cfg_on_user_input_request : option UserInputHandler;
  cfg_hooks : option SessionHooks;
  cfg_working_directory : pyval;
  cfg_streaming : pyval;
  cfg_provider : pyval;
  cfg_mcp_servers : pyval;
  cfg_custom_agents : pyval;
  cfg_config_dir : pyval;
  cfg_skill_directories : pyval;
  cfg_disabled_skills : pyval;
  cfg_infinite_sessions : pyval;
  cfg_disable_resume : pyval;
}.

(** [if x: payload[k] = x] *)
Definition set_if_truthy (payload : dict) (k : string) (x : pyval) : dict :=
  if truthy x then dict_set payload k x else payload.

(** [tool_defs]: one definition per tool. *)
Definition tool_definition (tool : Tool) : pyval :=
  let definition := [("name", PStr (tool_name tool)); ("description", PStr (tool_description tool))] in
  PDict (set_if_truthy definition "parameters" (tool_parameters tool)).

Definition tool_defs (tools : option (list Tool)) : list pyval :=
  match tools with
  | Some ts => map tool_definition ts
  | None => []
  end.

(** [if hooks and any(hooks.values())] *)
Definition hooks_enabled (hooks : option SessionHooks) : bool :=
  match hooks with
  | Some hs => bool_decide (hs <> []) && existsb (fun kv => is_not_None (snd kv)) hs
  | None => false
  end.

(** [payload["customAgents"] = [convert(agent) for agent in custom_agents]] *)
Definition set_custom_agents (payload : dict) (custom_agents : pyval) : outcome dict :=
  if truthy custom_agents then
    obind (py_iter custom_agents) (fun agents =>
    obind (omap convert_custom_agent_to_wire_format agents) (fun wire =>
    Ok (dict_set payload "customAgents" (PList (map PDict wire)))))
  else Ok payload.

(** The [infinite_sessions] block. *)
Definition set_infinite_sessions (payload : dict) (infinite_sessions : pyval) : outcome dict :=
  if truthy infinite_sessions then
    obind (copy_if_contains infinite_sessions "enabled" "enabled" []) (fun w =>
    obind (copy_if_contains infinite_sessions "background_compaction_threshold"
                            "backgroundCompactionThreshold" w) (fun w =>
    obind (copy_if_contains infinite_sessions "buffer_exhaustion_threshold"
                            "bufferExhaustionThreshold" w) (fun wire_config =>
    Ok (dict_set payload "infiniteSessions" (PDict wire_config)))))
  else Ok payload.

(** [payload["provider"] = self._convert_provider_to_wire_format(provider)] *)
Definition set_provider (payload : dict) (provider : pyval) : outcome dict :=
  if truthy provider then
    obind (convert_provider_to_wire_format provider) (fun w =>
    Ok (dict_set payload "provider" (PDict w)))
  else Ok payload.

Definition set_flag (payload : dict) (k : string) (b : bool) : dict :=
  if b then dict_set payload k (PBool true) else payload.

(** The payload [create_session] sends with session.create. *)
Definition create_session_payload (cfg : SessionConfig) : outcome dict :=
  let payload := [] in
  let payload := set_if_truthy payload "model" (cfg_model cfg) in
  let payload := set_if_truthy payload "sessionId" (cfg_session_id cfg) in
  let payload := set_if_truthy payload "reasoningEffort" (cfg_reasoning_effort cfg) in
  let payload := set_if_truthy payload "tools" (PList (tool_defs (cfg_tools cfg))) in
  let payload := set_if_truthy payload "systemMessage" (cfg_system_message cfg) in
  let payload := set_if_truthy payload "availableTools" (cfg_available_tools cfg) in
  let payload := set_if_truthy payload "excludedTools" (cfg_excluded_tools cfg) in
  let payload := set_flag payload "requestPermission" (is_not_None (cfg_on_permission_request cfg)) in
  let payload := set_flag payload "requestUserInput" (is_not_None (cfg_on_user_input_request cfg)) in
  let payload := set_flag payload "hooks" (hooks_enabled (cfg_hooks cfg)) in
  let payload := set_if_truthy payload "workingDirectory" (cfg_working_directory cfg) in
  let payload := if is_None (cfg_streaming cfg) then payload
                 else dict_set payload "streaming" (cfg_streaming cfg) in
  obind (set_provider payload (cfg_provider cfg)) (fun payload =>
  let payload := set_if_truthy payload "mcpServers" (cfg_mcp_servers cfg) in
  obind (set_custom_agents payload (cfg_custom_agents cfg)) (fun payload =>
  let payload := set_if_truthy payload "configDir" (cfg_config_dir cfg) in
  let payload := set_if_truthy payload "skillDirectories" (cfg_skill_directories cfg) in
  let payload := set_if_truthy payload "disabledSkills" (cfg_disabled_skills cfg) in
  set_infinite_sessions payload (cfg_infinite_sessions cfg))).

(** The payload [resume_session(session_id, cfg)] sends with session.resume. *)
Definition resume_session_payload (session_id : string) (cfg : SessionConfig) : outcome dict :=
  let payload := [("sessionId", PStr session_id)] in
  let payload := set_if_truthy payload "model" (cfg_model cfg) in
  let payload := set_if_truthy payload "reasoningEffort" (cfg_reasoning_effort cfg) in
  let payload := set_if_truthy payload "tools" (PList (tool_defs (cfg_tools cfg))) in
  let payload := set_if_truthy payload "systemMessage" (cfg_system_message cfg) in
  let payload := set_if_truthy payload "availableTools" (cfg_available_tools cfg) in
  let payload := set_if_truthy payload "excludedTools" (cfg_excluded_tools cfg) in
  obind (set_provider payload (cfg_provider cfg)) (fun payload =>
  let payload := if is_None (cfg_streaming cfg) then payload
                 else dict_set payload "streaming" (cfg_streaming cfg) in
  let payload := set_flag payload "requestPermission" (is_not_None (cfg_on_permission_request cfg)) in
  let payload := set_flag payload "requestUserInput" (is_not_None (cfg_on_user_input_request cfg)) in
  let payload := set_flag payload "hooks" (hooks_enabled (cfg_hooks cfg)) in
  let payload := set_if_truthy payload "workingDirectory" (cfg_working_directory cfg) in
  let payload := set_if_truthy payload "configDir" (cfg_config_dir cfg) in
  let payload := set_flag payload "disableResume" (truthy (cfg_disable_resume cfg)) in
  let payload := set_if_truthy payload "mcpServers" (cfg_mcp_servers cfg) in
  obind (set_custom_agents payload (cfg_custom_agents cfg)) (fun payload =>
  let payload := set_if_truthy payload "skillDirectories" (cfg_skill_directories cfg) in
  let payload := set_if_truthy payload "disabledSkills" (cfg_disabled_skills cfg) in
  set_infinite_sessions payload (cfg_infinite_sessions cfg))).

(* ===================================================================== *)
(** * create_session and resume_session                                  *)
(* ===================================================================== *)

(** The answer to session.create / session.resume: the value of its
    "sessionId" key, a str ([None] when the key is absent). *)
Record SessionResponse := { sr_sessionId : option string; sr_workspacePath : pyval }.

(** [CopilotSession(session_id, ...)], then [_register_tools(tools)] and,
    when a handler is given, [_register_permission_handler].  The session's
    [_user_input_handler] and [_hooks] are not attributes of [Session]. *)
Definition configured_session (session_id : string) (cfg : SessionConfig) : Session :=
  let session := {| session_id := session_id; event_handlers := ∅; tool_handlers := ∅;
                    permission_handler := None |} in
  let session := {| session_id := session_id; event_handlers := event_handlers session;
                    tool_handlers := register_tools (cfg_tools cfg);
                    permission_handler := permission_handler session |} in
  match cfg_on_permission_request cfg with
  | Some h => {| session_id := session_id; event_handlers := event_handlers session;
                 tool_handlers := tool_handlers session; permission_handler := Some h |}
  | None => session
  end.

(** A new session object. *)
Definition alloc_session (sess : Session) : M nat := fun s =>
  (Ok (heap_next s),
   set_heap_lists (heap_lists s) (S (heap_next s))
     (set_heap_sessions (<[heap_next s := sess]> (heap_sessions s)) s)).

(** The start of [create_session] / [resume_session]. *)
Definition ensure_started (conv : PyConv) (auto_start : bool) (expected_version : Z)
    (sio : StartIO) : M unit :=
  c ← gets client;
  if negb c then
    (if auto_start then start conv expected_version sio
     else raise (RuntimeError "Client not connected. Call start() first."))
  else mret tt.

(** The end of both: send [method], read ["sessionId"], register. *)
Definition open_session (method : string) (cfg : SessionConfig) (resp : outcome SessionResponse)
    : M nat :=
  require_client ;;
  response ← request method resp;
  match sr_sessionId response with
  | None => raise (KeyError "sessionId")
  | Some session_id =>
      l ← alloc_session (configured_session session_id cfg);
      modify (fun s => set_sessions (<[session_id := l]> (sessions s)) s) ;;
      mret l
  end.

(** [create_session(config)]; [auto_start] is [self.options["auto_start"]]. *)
Definition create_session (conv : PyConv) (auto_start : bool) (expected_version : Z) (sio : StartIO)
    (cfg : SessionConfig) (resp : outcome SessionResponse) : M nat :=
  ensure_started conv auto_start expected_version sio ;;
  lift (create_session_payload cfg) ;;
  open_session "session.create" cfg resp.

(** [resume_session(session_id, config)] *)
Definition resume_session (conv : PyConv) (auto_start : bool) (expected_version : Z) (sio : StartIO)
    (session_id : string) (cfg : SessionConfig) (resp : outcome SessionResponse) : M nat :=
  ensure_started conv auto_start expected_version sio ;;
  lift (resume_session_payload session_id cfg) ;;
  open_session "session.resume" cfg resp.

(* ===================================================================== *)
(** * Notifications and inbound requests: lifecycle, hooks, user input   *)
(* ===================================================================== *)

(** [session.session_id] *)
Definition sid_of (sess : Session) : string := session_id sess.

(** [self._sessions.get(session_id)] for a session id of any type. *)
Definition registry_get (session_id : pyval) : M (option nat) :=
  match session_id with
  | PStr sid => gets (fun s => sessions s !! sid)
  | PList _ | PDict _ =>
      raise (OtherError ("unhashable type: '" +:+ py_type_name session_id +:+ "'"))
  | _ => mret None
  end.

(** [self._typed_lifecycle_handlers.get(event.type, [])] *)
Definition typed_handlers_get (t : pyval) : M (list nat) :=
  match t with
  | PStr ty => gets (fun s => default [] (typed_lifecycle_handlers s !! ty))
  | PList _ | PDict _ => raise (OtherError ("unhashable type: '" +:+ py_type_name t +:+ "'"))
  | _ => mret []
  end.

(** [_dispatch_lifecycle_event(event)]: the handler calls, in order; an
    exception of a handler is ignored, so every call is made. *)
Definition dispatch_lifecycle_event (event : Types.SessionLifecycleEvent)
    : M (list (nat * Types.SessionLifecycleEvent)) :=
  typed_handlers ← typed_handlers_get (Types.le_type event);
  wildcard_handlers ← gets lifecycle_handlers;
  mret (map (fun h => (h, event)) (typed_handlers ++ wildcard_handlers)).

(** The session.lifecycle branch of [handle_notification]. *)
Definition handle_lifecycle_notification (params : dict)
    : M (list (nat * Types.SessionLifecycleEvent)) :=
  lifecycle_event ← lift (Types.SessionLifecycleEvent_from_dict params);
  dispatch_lifecycle_event lifecycle_event.

(** [CopilotSession._handle_hooks_invoke(hook_type, input_data)];
    [hooks] is the session's [_hooks]. *)
Definition session_handle_hooks_invoke (session_id : string) (hooks : option SessionHooks)
    (hook_type : pyval) (input_data : pyval) : outcome pyval :=
  match hooks with
  | None | Some [] => Ok PNone
  | Some hs =>
      let get k := match str_assoc hs k with Some (Some h) => Some h | _ => None end in
      let handler_map :=
        [("preToolUse", get "on_pre_tool_use");
         ("postToolUse", get "on_post_tool_use");
         ("userPromptSubmitted", get "on_user_prompt_submitted");
         ("sessionStart", get "on_session_start");
         ("sessionEnd", get "on_session_end");
         ("errorOccurred", get "on_error_occurred")] in
      obind (match hook_type with
             | PStr t => Ok (match str_assoc handler_map t with Some h => h | None => None end)
             | PList _ | PDict _ =>
                 Raise (OtherError ("unhashable type: '" +:+ py_type_name hook_type +:+ "'"))
             | _ => Ok None
             end) (fun handler =>
      match handler with
      | None => Ok PNone
      | Some h =>
          match h input_data session_id with
          | Ok result => Ok result
          | Raise _ => Ok PNone
          end
      end)
  end.

(** [CopilotClient._handle_hooks_invoke(params)]; [hooks_of l] is the
    [_hooks] of the session object at [l]. *)
Definition handle_hooks_invoke (c : PyConv) (hooks_of : nat -> option SessionHooks) (params : dict)
    : M dict :=
  let session_id := py_get params "sessionId" in
  let hook_type := py_get params "hookType" in
  let input_data := py_get params "input" in
  if negb (truthy session_id) || negb (truthy hook_type) then
    raise (ValueError "invalid hooks invoke payload")
  else
    session ← registry_get session_id;
    sess ← gets (fun s => session ≫= fun l => heap_sessions s !! l);
    match session, sess with
    | Some l, Some obj =>
        output ← lift (session_handle_hooks_invoke (sid_of obj) (hooks_of l) hook_type input_data);
        mret [("output", output)]
    | _, _ => raise (ValueError ("unknown session " +:+ py_str c session_id))
    end.

(** [CopilotSession._handle_user_input_request(request)]; [handler] is the
    session's [_user_input_handler]. *)
Definition session_handle_user_input_request (session_id : string)
    (handler : option UserInputHandler) (request : dict) : outcome pyval :=
  match handler with
  | None => Raise (RuntimeError "User input requested but no handler registered")
  | Some h =>
      let choices := py_get request "choices" in
      h {| uir_question := py_get_or request "question" (PStr "");
           uir_choices := if truthy choices then choices else PList [];
           uir_allowFreeform := py_get_or request "allowFreeform" (PBool true) |} session_id
  end.

(** [CopilotClient._handle_user_input_request(params)]; [input_handler_of l]
    is the [_user_input_handler] of the session object at [l]. *)
Definition handle_user_input_request (c : PyConv)
    (input_handler_of : nat -> option UserInputHandler) (params : dict) : M dict :=
  let session_id := py_get params "sessionId" in
  let question := py_get params "question" in
  if negb (truthy session_id) || negb (truthy question) then
    raise (ValueError "invalid user input request payload")
  else
    session ← registry_get session_id;
    sess ← gets (fun s => session ≫= fun l => heap_sessions s !! l);
    match session, sess with
    | Some l, Some obj =>
        result ← lift (session_handle_user_input_request (sid_of obj) (input_handler_of l) params);
        answer ← lift (py_getitem result "answer");
        wasFreeform ← lift (py_getitem result "wasFreeform");
        mret [("answer", answer); ("wasFreeform", wasFreeform)]
    | _, _ => raise (ValueError ("unknown session " +:+ py_str c session_id))
    end.

(* ===================================================================== *)
(** * CopilotSession.send and send_and_wait                              *)
(* ===================================================================== *)

(** [CopilotSession.send(options)] on a session; [resp] is the answer to
    session.send. *)
Definition send (options : dict) (resp : outcome pyval) : M pyval :=
  lift (py_getitem (PDict options) "prompt") ;;
  response ← request "session.send" resp;
  lift (py_getitem response "messageId").

(** A session event as the [send_and_wait] handler reads it: its type, and
    the [message] attribute of its data ([None] when it has none) or else
    [str(event.data)]. *)
Record SessionEvent := { ev_type : string; ev_data_message : option string; ev_data_str : string }.

(** The state of the [send_and_wait] handler: [last_assistant_message],
    [error_event], and whether [idle_event] is set. *)
Record WaitState := { last_assistant_message : option SessionEvent; error_event : option exn;
                      idle : bool }.

(** The handler defined in [send_and_wait], on one event. *)
Definition wait_handler (w : WaitState) (event : SessionEvent) : WaitState :=
  if String.eqb (ev_type event) "assistant.message" then
    {| last_assistant_message := Some event; error_event := error_event w; idle := idle w |}
  else if String.eqb (ev_type event) "session.idle" then
    {| last_assistant_message := last_assistant_message w; error_event := error_event w;
       idle := true |}
  else if String.eqb (ev_type event) "session.error" then
    {| last_assistant_message := last_assistant_message w;
       error_event := Some (OtherError ("Session error: " +:+
                               default (ev_data_str event) (ev_data_message event)));
       idle := true |}
  else w.

(** [send_and_wait(options, timeout)] on the session object at [l]; [h] is
    the new handler closure, [events] what the session dispatches to it
    before the waiter resumes (which it does once [idle_event] is set, or at
    the timeout). *)
Definition send_and_wait (c : PyConv) (l h : nat) (options : dict) (timeout : option PrimFloat.float)
    (resp : outcome pyval) (events : list SessionEvent) : M (option SessionEvent) :=
  let effective_timeout := default 60.0%float timeout in
  unsubscribe_h ← session_on l h;
  try_finally
    (send options resp ;;
     let w := fold_left wait_handler events
                {| last_assistant_message := None; error_event := None; idle := false |} in
     if negb (idle w) then
       raise (OtherError ("Timeout after " +:+ py_str c (PFloat effective_timeout)
                          +:+ "s waiting for session.idle"))
     else match error_event w with
          | Some e => raise e
          | None => mret (last_assistant_message w)
          end)
    (modify (unsubscribe unsubscribe_h)).

(* ===================================================================== *)
(** * Concrete states used by the tests and witnesses                    *)
(* ===================================================================== *)

(** A fresh, never started client ([self._state = "disconnected"]). *)
Definition new_client : St :=
  {| state := Disconnected; client := false; process := false;
     is_external_server := false; actual_port := None;
     sessions := ∅; models_cache := None;
     lifecycle_handlers := []; typed_lifecycle_handlers := ∅;
     heap_sessions := ∅; heap_lists := ∅; heap_next := 0%nat; io_log := [] |}.

(** A session "s1" with no handler of any kind. *)
Definition bare_session : Session :=
  {| session_id := "s1"; event_handlers := ∅; tool_handlers := ∅;
     permission_handler := None |}.

(** A connected client whose registry holds [bare_session] as object 0
    (and whose spawned CLI process is running). *)
Definition connected_client : St :=
  {| state := Connected; client := true; process := true;
     is_external_server := false; actual_port := None;
     sessions := {[ "s1" := 0%nat ]}; models_cache := None;
     lifecycle_handlers := []; typed_lifecycle_handlers := ∅;
     heap_sessions := {[ 0%nat := bare_session ]}; heap_lists := ∅;
     heap_next := 0%nat; io_log := [] |}.

(** Every session.destroy fails; closing the transport succeeds and the
    CLI process exits when asked. *)
Definition stop_io_failing_destroy : StopIO :=
  {| destroy_response := fun _ => Raise (RuntimeError "Session not found");
     transport_stop := Ok tt; wait_times_out := false |}.

(** A [PyConv] whose [str] agrees with Python's on None, bools, ints and
    strs (it gives "" for the other values), whose [int] agrees with
    Python's on bools, ints and floats and raises on the other values
    (Python would parse a str), and whose [float] is the identity on
    floats and raises on the other values. *)
Definition sample_conv : PyConv :=
  {| py_str := fun v => match v with
                        | PNone => "None"%string
                        | PBool true => "True"%string
                        | PBool false => "False"%string
                        | PInt z => NilZero.string_of_int (Z.to_int z)
                        | PStr s => s
                        | _ => ""%string
                        end;
     py_int := fun v => match v with
                        | PInt z => Ok z
                        | PBool b => Ok (if b then 1 else 0)
                        | PFloat f => float_to_int f
                        | _ => Raise (OtherError "int() argument must be a string or a real number")
                        end;
     py_float := fun v => match v with
                          | PFloat f => Ok f
                          | _ => Raise (OtherError "float() argument must be a string or a real number")
                          end |}.

(** A model with a policy, a billing multiplier and vision limits. *)
Definition sample_model : Types.ModelInfo :=
  {| Types.mi_id := "gpt-5"; Types.mi_name := "GPT-5";
     Types.capabilities :=
       {| Types.supports := {| Types.supports_vision := true; Types.reasoning_effort := false |};
          Types.limits := {| Types.max_prompt_tokens := PInt 128000;
                             Types.max_context_window_tokens := PNone;
                             Types.vision := Some {| Types.supported_media_types := PList [PStr "image/png"];
                                                     Types.max_prompt_images := PInt 1;
                                                     Types.max_prompt_image_size := PNone |} |} |};
     Types.policy := Some {| Types.policy_state := "enabled"; Types.terms := "" |};
     Types.billing := Some {| Types.multiplier := 1.0%float |};
     Types.supported_reasoning_efforts := PNone; Types.default_reasoning_effort := PNone |}.

(** The metadata of a session listed by the server. *)
Definition sample_metadata : Types.SessionMetadata :=
  {| Types.sm_sessionId := "s1"; Types.startTime := "2026-01-01T00:00:00Z";
     Types.modifiedTime := "2026-01-02T00:00:00Z"; Types.isRemote := false;
     Types.summary := PStr "refactoring";
     Types.context := Some {| Types.cwd := "/repo"; Types.gitRoot := PStr "/repo";
                              Types.repository := PNone; Types.branch := PStr "main" |} |}.

(** A connected client whose registry holds [bare_session] as object 0,
    with the next object at 1. *)
Definition connected_client1 : St :=
  {| state := Connected; client := true; process := true;
     is_external_server := false; actual_port := None;
     sessions := {[ "s1" := 0%nat ]}; models_cache := None;
     lifecycle_handlers := []; typed_lifecycle_handlers := ∅;
     heap_sessions := {[ 0%nat := bare_session ]}; heap_lists := ∅;
     heap_next := 1%nat; io_log := [] |}.

(** A config with no key set ([create_session()] without a config). *)
Definition empty_config : SessionConfig :=
  {| cfg_session_id := PNone; cfg_model := PNone; cfg_reasoning_effort := PNone; cfg_tools := None;
     cfg_system_message := PNone; cfg_available_tools := PNone; cfg_excluded_tools := PNone;
     cfg_on_permission_request := None; cfg_on_user_input_request := None; cfg_hooks := None;
     cfg_working_directory := PNone; cfg_streaming := PNone; cfg_provider := PNone;
     cfg_mcp_servers := PNone; cfg_custom_agents := PNone; cfg_config_dir := PNone;
     cfg_skill_directories := PNone; cfg_disabled_skills := PNone;
     cfg_infinite_sessions := PNone; cfg_disable_resume := PNone |}.

(** The vision limits whose [to_dict] is the empty dict. *)
Definition empty_vision : Types.ModelVisionLimits :=
  {| Types.supported_media_types := PNone; Types.max_prompt_images := PNone;
     Types.max_prompt_image_size := PNone |}.

(** The code points from U+0080 on for which [str.isspace()] holds. *)
Definition unicode_14_space : list (Z * Z) :=
  [(133, 133); (160, 160); (5760, 5760); (8192, 8202); (8232, 8233); (8239, 8239);
   (8287, 8287); (12288, 12288)].

(** The code points from U+0080 on for which [str.isdigit()] holds. *)
Definition unicode_14_digit : list (Z * Z) :=
  [(178, 179); (185, 185); (1632, 1641); (1776, 1785); (1984, 1993); (2406, 2415);
   (2534, 2543); (2662, 2671); (2790, 2799); (2918, 2927); (3046, 3055); (3174, 3183);
   (3302, 3311); (3430, 3439); (3558, 3567); (3664, 3673); (3792, 3801); (3872, 3881);
   (4160, 4169); (4240, 4249); (4969, 4977); (6112, 6121); (6160, 6169); (6470, 6479);
   (6608, 6618); (6784, 6793); (6800, 6809); (6992, 7001); (7088, 7097); (7232, 7241);
   (7248, 7257); (8304, 8304); (8308, 8313); (8320, 8329); (9312, 9320); (9332, 9340);
   (9352, 9360); (9450, 9450); (9461, 9469); (9471, 9471); (10102, 10110); (10112, 10120);
   (10122, 10130); (42528, 42537); (43216, 43225); (43264, 43273); (43472, 43481);
   (43504, 43513); (43600, 43609); (44016, 44025); (65296, 65305); (66720, 66729);
   (68160, 68163); (68912, 68921); (69216, 69224); (69714, 69722); (69734, 69743);
   (69872, 69881); (69942, 69951); (70096, 70105); (70384, 70393); (70736, 70745);
   (70864, 70873); (71248, 71257); (71360, 71369); (71472, 71481); (71904, 71913);
   (72016, 72025); (72784, 72793); (73040, 73049); (73120, 73129); (92768, 92777);
   (92864, 92873); (93008, 93017); (120782, 120831); (123200, 123209); (123632, 123641);
   (125264, 125273); (127232, 127242); (130032, 130041)].

(** The runs of decimal digits from U+0080 on; each run starts at a zero, so
    the value of [c] in the run [(lo, hi)] is [(c - lo) mod 10]. *)
Definition unicode_14_decimal : list (Z * Z) :=
  [(1632, 1641); (1776, 1785); (1984, 1993); (2406, 2415); (2534, 2543); (2662, 2671);
   (2790, 2799); (2918, 2927); (3046, 3055); (3174, 3183); (3302, 3311); (3430, 3439);
   (3558, 3567); (3664, 3673); (3792, 3801); (3872, 3881); (4160, 4169); (4240, 4249);
   (6112, 6121); (6160, 6169); (6470, 6479); (6608, 6617); (6784, 6793); (6800, 6809);
   (6992, 7001); (7088, 7097); (7232, 7241); (7248, 7257); (42528, 42537); (43216, 43225);
   (43264, 43273); (43472, 43481); (43504, 43513); (43600, 43609); (44016, 44025);
   (65296, 65305); (66720, 66729); (68912, 68921); (69734, 69743); (69872, 69881);
   (69942, 69951); (70096, 70105); (70384, 70393); (70736, 70745); (70864, 70873);
   (71248, 71257); (71360, 71369); (71472, 71481); (71904, 71913); (72016, 72025);
   (72784, 72793); (73040, 73049); (73120, 73129); (92768, 92777); (92864, 92873);
   (93008, 93017); (120782, 120831); (123200, 123209); (123632, 123641); (125264, 125273);
   (130032, 130041)].

(** The code points from U+0080 on for which [str.isprintable()] holds. *)
Definition unicode_14_printable : list (Z * Z) :=
  [(161, 172); (174, 887); (890, 895); (900, 906); (908, 908); (910, 929); (931, 1327);
   (1329, 1366); (1369, 1418); (1421, 1423); (1425, 1479); (1488, 1514); (1519, 1524);
   (1542, 1563); (1565, 1756); (1758, 1805); (1808, 1866); (1869, 1969); (1984, 2042);
   (2045, 2093); (2096, 2110); (2112, 2139); (2142, 2142); (2144, 2154); (2160, 2190);
   (2200, 2273); (2275, 2435); (2437, 2444); (2447, 2448); (2451, 2472); (2474, 2480);
   (2482, 2482); (2486, 2489); (2492, 2500); (2503, 2504); (2507, 2510); (2519, 2519);
   (2524, 2525); (2527, 2531); (2534, 2558); (2561, 2563); (2565, 2570); (2575, 2576);
   (2579, 2600); (2602, 2608); (2610, 2611); (2613, 2614); (2616, 2617); (2620, 2620);
   (2622, 2626); (2631, 2632); (2635, 2637); (2641, 2641); (2649, 2652); (2654, 2654);
   (2662, 2678); (2689, 2691); (2693, 2701); (2703, 2705); (2707, 2728); (2730, 2736);
   (2738, 2739); (2741, 2745); (2748, 2757); (2759, 2761); (2763, 2765); (2768, 2768);
   (2784, 2787); (2790, 2801); (2809, 2815); (2817, 2819); (2821, 2828); (2831, 2832);
   (2835, 2856); (2858, 2864); (2866, 2867); (2869, 2873); (2876, 2884); (2887, 2888);
   (2891, 2893); (2901, 2903); (2908, 2909); (2911, 2915); (2918, 2935); (2946, 2947);
   (2949, 2954); (2958, 2960); (2962, 2965); (2969, 2970); (2972, 2972); (2974, 2975);
   (2979, 2980); (2984, 2986); (2990, 3001); (3006, 3010); (3014, 3016); (3018, 3021);
   (3024, 3024); (3031, 3031); (3046, 3066); (3072, 3084); (3086, 3088); (3090, 3112);
   (3114, 3129); (3132, 3140); (3142, 3144); (3146, 3149); (3157, 3158); (3160, 3162);
   (3165, 3165); (3168, 3171); (3174, 3183); (3191, 3212); (3214, 3216); (3218, 3240);
   (3242, 3251); (3253, 3257); (3260, 3268); (3270, 3272); (3274, 3277); (3285, 3286);
   (3293, 3294); (3296, 3299); (3302, 3311); (3313, 3314); (3328, 3340); (3342, 3344);
   (3346, 3396); (3398, 3400); (3402, 3407); (3412, 3427); (3430, 3455); (3457, 3459);
   (3461, 3478); (3482, 3505); (3507, 3515); (3517, 3517); (3520, 3526); (3530, 3530);
   (3535, 3540); (3542, 3542); (3544, 3551); (3558, 3567); (3570, 3572); (3585, 3642);
   (3647, 3675); (3713, 3714); (3716, 3716); (3718, 3722); (3724, 3747); (3749, 3749);
   (3751, 3773); (3776, 3780); (3782, 3782); (3784, 3789); (3792, 3801); (3804, 3807);
   (3840, 3911); (3913, 3948); (3953, 3991); (3993, 4028); (4030, 4044); (4046, 4058);
   (4096, 4293); (4295, 4295); (4301, 4301); (4304, 4680); (4682, 4685); (4688, 4694);
   (4696, 4696); (4698, 4701); (4704, 4744); (4746, 4749); (4752, 4784); (4786, 4789);
   (4792, 4798); (4800, 4800); (4802, 4805); (4808, 4822); (4824, 4880); (4882, 4885);
   (4888, 4954); (4957, 4988); (4992, 5017); (5024, 5109); (5112, 5117); (5120, 5759);
   (5761, 5788); (5792, 5880); (5888, 5909); (5919, 5942); (5952, 5971); (5984, 5996);
   (5998, 6000); (6002, 6003); (6016, 6109); (6112, 6121); (6128, 6137); (6144, 6157);
   (6159, 6169); (6176, 6264); (6272, 6314); (6320, 6389); (6400, 6430); (6432, 6443);
   (6448, 6459); (6464, 6464); (6468, 6509); (6512, 6516); (6528, 6571); (6576, 6601);
   (6608, 6618); (6622, 6683); (6686, 6750); (6752, 6780); (6783, 6793); (6800, 6809);
   (6816, 6829); (6832, 6862); (6912, 6988); (6992, 7038); (7040, 7155); (7164, 7223);
   (7227, 7241); (7245, 7304); (7312, 7354); (7357, 7367); (7376, 7418); (7424, 7957);
   (7960, 7965); (7968, 8005); (8008, 8013); (8016, 8023); (8025, 8025); (8027, 8027);
   (8029, 8029); (8031, 8061); (8064, 8116); (8118, 8132); (8134, 8147); (8150, 8155);
   (8157, 8175); (8178, 8180); (8182, 8190); (8208, 8231); (8240, 8286); (8304, 8305);
   (8308, 8334); (8336, 8348); (8352, 8384); (8400, 8432); (8448, 8587); (8592, 9254);
   (9280, 9290); (9312, 11123); (11126, 11157); (11159, 11507); (11513, 11557); (11559, 11559);
   (11565, 11565); (11568, 11623); (11631, 11632); (11647, 11670); (11680, 11686);
   (11688, 11694); (11696, 11702); (11704, 11710); (11712, 11718); (11720, 11726);
   (11728, 11734); (11736, 11742); (11744, 11869); (11904, 11929); (11931, 12019);
   (12032, 12245); (12272, 12283); (12289, 12351); (12353, 12438); (12441, 12543);
   (12549, 12591); (12593, 12686); (12688, 12771); (12784, 12830); (12832, 42124);
   (42128, 42182); (42192, 42539); (42560, 42743); (42752, 42954); (42960, 42961);
   (42963, 42963); (42965, 42969); (42994, 43052); (43056, 43065); (43072, 43127);
   (43136, 43205); (43214, 43225); (43232, 43347); (43359, 43388); (43392, 43469);
   (43471, 43481); (43486, 43518); (43520, 43574); (43584, 43597); (43600, 43609);
   (43612, 43714); (43739, 43766); (43777, 43782); (43785, 43790); (43793, 43798);
   (43808, 43814); (43816, 43822); (43824, 43883); (43888, 44013); (44016, 44025);
   (44032, 55203); (55216, 55238); (55243, 55291); (63744, 64109); (64112, 64217);
   (64256, 64262); (64275, 64279); (64285, 64310); (64312, 64316); (64318, 64318);
   (64320, 64321); (64323, 64324); (64326, 64450); (64467, 64911); (64914, 64967);
   (64975, 64975); (65008, 65049); (65056, 65106); (65108, 65126); (65128, 65131);
   (65136, 65140); (65142, 65276); (65281, 65470); (65474, 65479); (65482, 65487);
   (65490, 65495); (65498, 65500); (65504, 65510); (65512, 65518); (65532, 65533);
   (65536, 65547); (65549, 65574); (65576, 65594); (65596, 65597); (65599, 65613);
   (65616, 65629); (65664, 65786); (65792, 65794); (65799, 65843); (65847, 65934);
   (65936, 65948); (65952, 65952); (66000, 66045); (66176, 66204); (66208, 66256);
   (66272, 66299); (66304, 66339); (66349, 66378); (66384, 66426); (66432, 66461);
   (66463, 66499); (66504, 66517); (66560, 66717); (66720, 66729); (66736, 66771);
   (66776, 66811); (66816, 66855); (66864, 66915); (66927, 66938); (66940, 66954);
   (66956, 66962); (66964, 66965); (66967, 66977); (66979, 66993); (66995, 67001);
   (67003, 67004); (67072, 67382); (67392, 67413); (67424, 67431); (67456, 67461);
   (67463, 67504); (67506, 67514); (67584, 67589); (67592, 67592); (67594, 67637);
   (67639, 67640); (67644, 67644); (67647, 67669); (67671, 67742); (67751, 67759);
   (67808, 67826); (67828, 67829); (67835, 67867); (67871, 67897); (67903, 67903);
   (67968, 68023); (68028, 68047); (68050, 68099); (68101, 68102); (68108, 68115);
   (68117, 68119); (68121, 68149); (68152, 68154); (68159, 68168); (68176, 68184);
   (68192, 68255); (68288, 68326); (68331, 68342); (68352, 68405); (68409, 68437);
   (68440, 68466); (68472, 68497); (68505, 68508); (68521, 68527); (68608, 68680);
   (68736, 68786); (68800, 68850); (68858, 68903); (68912, 68921); (69216, 69246);
   (69248, 69289); (69291, 69293); (69296, 69297); (69376, 69415); (69424, 69465);
   (69488, 69513); (69552, 69579); (69600, 69622); (69632, 69709); (69714, 69749);
   (69759, 69820); (69822, 69826); (69840, 69864); (69872, 69881); (69888, 69940);
   (69942, 69959); (69968, 70006); (70016, 70111); (70113, 70132); (70144, 70161);
   (70163, 70206); (70272, 70278); (70280, 70280); (70282, 70285); (70287, 70301);
   (70303, 70313); (70320, 70378); (70384, 70393); (70400, 70403); (70405, 70412);
   (70415, 70416); (70419, 70440); (70442, 70448); (70450, 70451); (70453, 70457);
   (70459, 70468); (70471, 70472); (70475, 70477); (70480, 70480); (70487, 70487);
   (70493, 70499); (70502, 70508); (70512, 70516); (70656, 70747); (70749, 70753);
   (70784, 70855); (70864, 70873); (71040, 71093); (71096, 71133); (71168, 71236);
   (71248, 71257); (71264, 71276); (71296, 71353); (71360, 71369); (71424, 71450);
   (71453, 71467); (71472, 71494); (71680, 71739); (71840, 71922); (71935, 71942);
   (71945, 71945); (71948, 71955); (71957, 71958); (71960, 71989); (71991, 71992);
   (71995, 72006); (72016, 72025); (72096, 72103); (72106, 72151); (72154, 72164);
   (72192, 72263); (72272, 72354); (72368, 72440); (72704, 72712); (72714, 72758);
   (72760, 72773); (72784, 72812); (72816, 72847); (72850, 72871); (72873, 72886);
   (72960, 72966); (72968, 72969); (72971, 73014); (73018, 73018); (73020, 73021);
   (73023, 73031); (73040, 73049); (73056, 73061); (73063, 73064); (73066, 73102);
   (73104, 73105); (73107, 73112); (73120, 73129); (73440, 73464); (73648, 73648);
   (73664, 73713); (73727, 74649); (74752, 74862); (74864, 74868); (74880, 75075);
   (77712, 77810); (77824, 78894); (82944, 83526); (92160, 92728); (92736, 92766);
   (92768, 92777); (92782, 92862); (92864, 92873); (92880, 92909); (92912, 92917);
   (92928, 92997); (93008, 93017); (93019, 93025); (93027, 93047); (93053, 93071);
   (93760, 93850); (93952, 94026); (94031, 94087); (94095, 94111); (94176, 94180);
   (94192, 94193); (94208, 100343); (100352, 101589); (101632, 101640); (110576, 110579);
   (110581, 110587); (110589, 110590); (110592, 110882); (110928, 110930); (110948, 110951);
   (110960, 111355); (113664, 113770); (113776, 113788); (113792, 113800); (113808, 113817);
   (113820, 113823); (118528, 118573); (118576, 118598); (118608, 118723); (118784, 119029);
   (119040, 119078); (119081, 119154); (119163, 119274); (119296, 119365); (119520, 119539);
   (119552, 119638); (119648, 119672); (119808, 119892); (119894, 119964); (119966, 119967);
   (119970, 119970); (119973, 119974); (119977, 119980); (119982, 119993); (119995, 119995);
   (119997, 120003); (120005, 120069); (120071, 120074); (120077, 120084); (120086, 120092);
   (120094, 120121); (120123, 120126); (120128, 120132); (120134, 120134); (120138, 120144);
   (120146, 120485); (120488, 120779); (120782, 121483); (121499, 121503); (121505, 121519);
   (122624, 122654); (122880, 122886); (122888, 122904); (122907, 122913); (122915, 122916);
   (122918, 122922); (123136, 123180); (123184, 123197); (123200, 123209); (123214, 123215);
   (123536, 123566); (123584, 123641); (123647, 123647); (124896, 124902); (124904, 124907);
   (124909, 124910); (124912, 124926); (124928, 125124); (125127, 125142); (125184, 125259);
   (125264, 125273); (125278, 125279); (126065, 126132); (126209, 126269); (126464, 126467);
   (126469, 126495); (126497, 126498); (126500, 126500); (126503, 126503); (126505, 126514);
   (126516, 126519); (126521, 126521); (126523, 126523); (126530, 126530); (126535, 126535);
   (126537, 126537); (126539, 126539); (126541, 126543); (126545, 126546); (126548, 126548);
   (126551, 126551); (126553, 126553); (126555, 126555); (126557, 126557); (126559, 126559);
   (126561, 126562); (126564, 126564); (126567, 126570); (126572, 126578); (126580, 126583);
   (126585, 126588); (126590, 126590); (126592, 126601); (126603, 126619); (126625, 126627);
   (126629, 126633); (126635, 126651); (126704, 126705); (126976, 127019); (127024, 127123);
   (127136, 127150); (127153, 127167); (127169, 127183); (127185, 127221); (127232, 127405);
   (127462, 127490); (127504, 127547); (127552, 127560); (127568, 127569); (127584, 127589);
   (127744, 128727); (128733, 128748); (128752, 128764); (128768, 128883); (128896, 128984);
   (128992, 129003); (129008, 129008); (129024, 129035); (129040, 129095); (129104, 129113);
   (129120, 129159); (129168, 129197); (129200, 129201); (129280, 129619); (129632, 129645);
   (129648, 129652); (129656, 129660); (129664, 129670); (129680, 129708); (129712, 129722);
   (129728, 129733); (129744, 129753); (129760, 129767); (129776, 129782); (129792, 129938);
   (129940, 129994); (130032, 130041); (131072, 173791); (173824, 177976); (177984, 178205);
   (178208, 183969); (183984, 191456); (194560, 195101); (196608, 201546); (917760, 917999)].

Definition in_ranges (rs : list (Z * Z)) (c : Z) : bool :=
  existsb (fun '(lo, hi) => (lo <=? c) && (c <=? hi)) rs.

Definition decimal_in_ranges (rs : list (Z * Z)) (c : Z) : option Z :=
  match List.find (fun '(lo, hi) => (lo <=? c) && (c <=? hi)) rs with
  | Some (lo, _) => Some ((c - lo) mod 10)
  | None => None
  end.

(** The Unicode database of CPython 3.11 (Unicode 14.0.0). *)
Definition cpython311_unicode : UnicodeDB :=
  {| u_isspace := in_ranges unicode_14_space;
     u_isdigit := in_ranges unicode_14_digit;
     u_decimal := decimal_in_ranges unicode_14_decimal;
     u_isprintable := in_ranges unicode_14_printable |}.

(** [_parse_cli_url] on CPython 3.11 with the default digit limit. *)
Definition parse_cli_url311 : pystr -> outcome (pystr * Z) :=
  parse_cli_url cpython311_unicode default_max_str_digits.

(** A model the server lists. *)
Definition gpt_model : ModelInfo := {| model_id := "gpt-5"; model_name := "GPT-5" |}.

(** A ping answer whose [protocolVersion] is [v] ([None]: key missing). *)
Definition ping_answer (v : option pyval) : pyval :=
  PDict (app [("message"%string, PStr "pong"); ("timestamp"%string, PInt 0)]
             match v with Some x => [("protocolVersion"%string, x)] | None => [] end).

(** Spawning (in stdio mode) and connecting succeed; ping answers
    [ping_answer v]. *)
Definition start_io_answer (v : option pyval) : StartIO :=
  {| spawn_result := Ok tt; port_result := Ok None; connect_result := Ok tt;
     ping_result := Ok (ping_answer v) |}.

(** The same, with an int protocol version [v]. *)
Definition start_io (v : option Z) : StartIO := start_io_answer (option_map PInt v).

(** The error [start()] raises when the SDK expects version 2 and the
    server reports version 3. *)
Definition version_2_3_mismatch : exn :=
  RuntimeError ("SDK protocol version mismatch: SDK expects version 2, but server reports version 3."
                +:+ " Please update your SDK or server to ensure compatibility.").

(** A fresh client with wildcard lifecycle handlers 1 and 2. *)
Definition two_lifecycle_handlers : St := set_lifecycle [1%nat; 2%nat] ∅ new_client.

(* ===================================================================== *)
(** * Tests of the embedding on concrete inputs                          *)
(* ===================================================================== *)

Example parse_cli_url_http :
  parse_cli_url311 (chars "http://example.com:8080") = Ok (chars "example.com", 8080).
Proof. reflexivity. Qed.
Example parse_cli_url_port_only : parse_cli_url311 (chars "3000") = Ok (localhost, 3000).
Proof. reflexivity. Qed.
Example parse_cli_url_empty_host : parse_cli_url311 (chars ":3000") = Ok (localhost, 3000).
Proof. reflexivity. Qed.
Example parse_cli_url_int_syntax : parse_cli_url311 (chars "h: +8_0 ") = Ok (chars "h", 80).
Proof. reflexivity. Qed.
Example parse_cli_url_zero : is_raise (parse_cli_url311 (chars "h:0")) = true.
Proof. reflexivity. Qed.
Example parse_cli_url_too_big : is_raise (parse_cli_url311 (chars "65536")) = true.
Proof. reflexivity. Qed.
Example parse_cli_url_two_colons : is_raise (parse_cli_url311 (chars "a:b:3")) = true.
Proof. reflexivity. Qed.
(** U+001C is whitespace for [str.isspace] but not for [int()]. *)
Example parse_cli_url_file_separator :
  parse_cli_url311 (chars "h:" ++ [28] ++ chars "80")
  = Raise (ValueError ("Invalid port in cli_url: h:" +:+ str [28] +:+ "80")).
Proof. reflexivity. Qed.
(** U+2003 (em space) is stripped by [int()]. *)
Example parse_cli_url_em_space :
  parse_cli_url311 (chars "h:" ++ [8195] ++ chars "80") = Ok (chars "h", 80).
Proof. reflexivity. Qed.
(** Arabic-Indic digits one and two. *)
Example parse_cli_url_arabic_indic : parse_cli_url311 [1633; 1634] = Ok (localhost, 12).
Proof. reflexivity. Qed.
(** "²" is a digit for [str.isdigit] but not a decimal digit for [int()],
    whose own error escapes. *)
Example parse_cli_url_superscript_two :
  parse_cli_url311 [178]
  = Raise (ValueError ("invalid literal for int() with base 10: '" +:+ str [178] +:+ "'")).
Proof. reflexivity. Qed.
Example parse_cli_url_digit_limit :
  parse_cli_url311 (repeat 48 4999 ++ [56])
  = Raise (ValueError ("Exceeds the limit (4300 digits) for integer string conversion: "
                       +:+ "value has 5000 digits; use sys.set_int_max_str_digits() to increase the limit")) /\
  parse_cli_url cpython311_unicode 0 (repeat 48 4999 ++ [56]) = Ok (localhost, 8) /\
  parse_cli_url311 (chars "h:" ++ repeat 48 4999 ++ [56])
  = Raise (ValueError ("Invalid port in cli_url: h:" +:+ str (repeat 48 4999 ++ [56]))).
Proof. split; [|split]; vm_compute; reflexivity. Qed.
Example python_int_repr :
  python_int cpython311_unicode default_max_str_digits
    [233; 8232; 133; 128512; 917505; 0; 127; 9]
  = Raise (ValueError ("invalid literal for int() with base 10: '" +:+ str [233]
                       +:+ "\u2028\x85" +:+ str [128512] +:+ "\U000e0001\x00\x7f\t'")) /\
  python_int cpython311_unicode default_max_str_digits (chars "it's")
  = Raise (ValueError ("invalid literal for int() with base 10: " +:+ str ([34] ++ chars "it's" ++ [34]))) /\
  python_int cpython311_unicode default_max_str_digits (chars "1__2" ) = Raise (ValueError "invalid literal for int() with base 10: '1__2'") /\
  python_int cpython311_unicode default_max_str_digits (chars "_1") = Raise (ValueError "invalid literal for int() with base 10: '_1'") /\
  python_int cpython311_unicode default_max_str_digits (chars " -1_0 ") = Ok (-10) /\
  python_int cpython311_unicode default_max_str_digits (chars "x" ++ repeat 49 300)
  = Raise (ValueError ("invalid literal for int() with base 10: '" +:+ str (chars "x" ++ repeat 49 198))).
Proof. repeat split; vm_compute; reflexivity. Qed.
Example start_matching_version :
  fst (start sample_conv 3 (start_io (Some 3)) new_client) = Ok tt /\
  state (snd (start sample_conv 3 (start_io (Some 3)) new_client)) = Connected.
Proof. split; reflexivity. Qed.
Example list_models_warm_cache :
  io_log (snd (list_models_calls [Ok [gpt_model]; Ok []] connected_client))
    = ["models.list"%string].
Proof. vm_compute. reflexivity. Qed.

(* ===================================================================== *)
(** * The cli_url parser: lemmas                                         *)
(* ===================================================================== *)

Section CliUrl.

Variable db : UnicodeDB.
Variable max_str_digits : Z.

Lemma digit10_lt c : is_digit10 c = true -> 48 <= c <= 57.
Proof. unfold is_digit10. rewrite andb_true_iff, !Z.leb_le. done. Qed.

Lemma transform_digits d :
  forallb is_digit10 d = true -> transform_decimal_and_space db d = d.
Proof.
  induction d as [|c d IH]; [done|]. simpl. rewrite andb_true_iff. intros [Hc Hd].
  apply digit10_lt in Hc. rewrite (proj2 (Z.ltb_lt c 127)) by lia. by rewrite IH.
Qed.

Lemma digit_not_space c : is_digit10 c = true -> Py_ISSPACE c = false.
Proof.
  intros Hc. apply digit10_lt in Hc. unfold Py_ISSPACE.
  apply orb_false_iff. split; [apply andb_false_iff; right|]; apply Z.leb_gt || apply Z.eqb_neq; lia.
Qed.

Lemma skip_space_digit c r : is_digit10 c = true -> skip_space (c :: r) = c :: r.
Proof. intros Hc. simpl. by rewrite digit_not_space. Qed.

Lemma last_default_irrel (x : Z) l a b : List.last (x :: l) a = List.last (x :: l) b.
Proof.
  revert x. induction l as [|y l IH]; intros x; [reflexivity|]. exact (IH y).
Qed.

Lemma scan_digits_digits d prev n acc :
  forallb is_digit10 d = true ->
  scan_digits prev n acc d
  = Some (List.last d prev, n + Z.of_nat (List.length d),
          fold_left (fun a c => a * 10 + (c - 48)) d acc, []).
Proof.
  revert prev n acc. induction d as [|c d IH]; intros prev n acc Hd.
  - simpl. by rewrite Z.add_0_r.
  - simpl in Hd. apply andb_true_iff in Hd as [Hc Hd]. simpl. rewrite Hc, IH by done.
    do 3 f_equal. f_equal; [|lia].
    destruct d as [|x d]; [done|]. apply last_default_irrel.
Qed.

Lemma last_digit d prev :
  forallb is_digit10 d = true -> prev <> 95 -> List.last d prev <> 95.
Proof.
  revert prev. induction d as [|c d IH]; intros prev Hd Hp; [done|].
  simpl in Hd. apply andb_true_iff in Hd as [Hc Hd].
  destruct d as [|c' d].
  - simpl. apply digit10_lt in Hc. lia.
  - change (List.last (c :: c' :: d) prev) with (List.last (c' :: d) prev).
    by apply IH.
Qed.

(** [int()] of a non-empty string of ASCII digits within the digit limit
    is its value. *)
Lemma python_int_digits d :
  d <> [] -> forallb is_digit10 d = true ->
  max_str_digits_exceeded max_str_digits (Z.of_nat (List.length d)) = false ->
  python_int db max_str_digits d = Ok (decimal_value d).
Proof.
  intros Hne Hd Hlim. unfold python_int, PyLong_FromString.
  rewrite transform_digits by done.
  destruct d as [|c r]; [done|].
  pose proof Hd as Hd'. simpl in Hd'. apply andb_true_iff in Hd' as [Hc _].
  rewrite skip_space_digit by done.
  pose proof (digit10_lt c Hc) as Hc'.
  rewrite (proj2 (Z.eqb_neq c 43)), (proj2 (Z.eqb_neq c 45)), (proj2 (Z.eqb_neq c 95)) by lia.
  rewrite scan_digits_digits by done.
  rewrite (proj2 (Z.eqb_neq (List.last (c :: r) 0) 95)) by (apply last_digit; [done|lia]).
  rewrite Z.add_0_l, Hlim. simpl List.length.
  rewrite (proj2 (Z.eqb_neq _ 0)) by lia. simpl. f_equal.
  unfold decimal_value. simpl. destruct (fold_left _ r _); reflexivity.
Qed.

(** Past the digit limit, [int()] raises ValueError. *)
Lemma python_int_too_many_digits d :
  forallb is_digit10 d = true ->
  max_str_digits_exceeded max_str_digits (Z.of_nat (List.length d)) = true ->
  exists msg, python_int db max_str_digits d = Raise (ValueError msg).
Proof.
  intros Hd Hlim. unfold python_int, PyLong_FromString.
  rewrite transform_digits by done.
  destruct d as [|c r].
  { unfold max_str_digits_exceeded, max_str_digits_threshold in Hlim. simpl in Hlim.
    discriminate. }
  pose proof Hd as Hd'. simpl in Hd'. apply andb_true_iff in Hd' as [Hc _].
  rewrite skip_space_digit by done.
  pose proof (digit10_lt c Hc) as Hc'.
  rewrite (proj2 (Z.eqb_neq c 43)), (proj2 (Z.eqb_neq c 45)), (proj2 (Z.eqb_neq c 95)) by lia.
  rewrite scan_digits_digits by done.
  rewrite (proj2 (Z.eqb_neq (List.last (c :: r) 0) 95)) by (apply last_digit; [done|lia]).
  rewrite Z.add_0_l, Hlim. eexists. reflexivity.
Qed.

(** [int()] of a str raises nothing but ValueError. *)
Lemma python_int_ValueError s e :
  python_int db max_str_digits s = Raise e -> exists msg, e = ValueError msg.
Proof.
  unfold python_int. destruct (PyLong_FromString _ _); intros H; try discriminate H;
    injection H as <-; eauto.
Qed.

Lemma isdigit_digits d : d <> [] -> forallb is_digit10 d = true -> isdigit db d = true.
Proof.
  intros Hne Hd. destruct d as [|c r]; [done|]. unfold isdigit.
  apply forallb_forall. intros x Hx. rewrite forallb_forall in Hd. specialize (Hd x Hx).
  unfold py_isdigit_char. apply digit10_lt in Hd as Hd'.
  rewrite (proj2 (Z.ltb_lt x 128)) by lia. exact Hd.
Qed.

Lemma drop_prefix_Some p s r : drop_prefix p s = Some r -> s = p ++ r.
Proof.
  revert s. induction p as [|c p IH]; intros s H.
  - simpl in H. by injection H as ->.
  - destruct s as [|d s]; [discriminate|]. simpl in H.
    destruct (Z.eq_dec c d) as [->|]; [|discriminate].
    simpl. f_equal. by apply IH.
Qed.

Lemma colon_split_unique (h1 h2 t1 t2 : pystr) :
  58 ∉ h1 -> 58 ∉ h2 -> h1 ++ 58 :: t1 = h2 ++ 58 :: t2 -> h1 = h2 /\ t1 = t2.
Proof.
  revert h2. induction h1 as [|c h1 IH]; intros h2 N1 N2 E.
  - destruct h2 as [|c h2]; simpl in E; [by injection E|].
    injection E as <- _. destruct N2. left.
  - destruct h2 as [|c' h2]; simpl in E.
    + injection E as -> _. destruct N1. left.
    + injection E as -> E.
      apply not_elem_of_cons in N1 as [_ N1]. apply not_elem_of_cons in N2 as [_ N2].
      destruct (IH h2 N1 N2 E) as [-> ->]. done.
Qed.

Lemma digits_no_colon d : forallb is_digit10 d = true -> 58 ∉ d.
Proof.
  induction d as [|c d IH]; intros H; [apply not_elem_of_nil|].
  simpl in H. apply andb_true_iff in H as [Hc Hd].
  apply not_elem_of_cons. split; [|by apply IH].
  intros <-. discriminate.
Qed.

Lemma split_on_no_sep (l : pystr) : 58 ∉ l -> split_on 58 l = [l].
Proof.
  induction l as [|c l IH]; intros N; [done|].
  apply not_elem_of_cons in N as [Nc N]. simpl. rewrite (IH N).
  destruct (Z.eq_dec c 58); [congruence|done].
Qed.

Lemma split_on_one_colon (h d : pystr) :
  58 ∉ h -> 58 ∉ d -> split_on 58 (h ++ 58 :: d) = [h; d].
Proof.
  intros Nh Nd. induction h as [|c h IH].
  - simpl. by rewrite split_on_no_sep.
  - apply not_elem_of_cons in Nh as [Nc Nh]. simpl. rewrite (IH Nh).
    destruct (Z.eq_dec c 58); [congruence|done].
Qed.

Lemma strip_scheme_host_port (h d : pystr) :
  58 ∉ h -> d <> [] -> forallb is_digit10 d = true ->
  strip_scheme (h ++ 58 :: d) = h ++ 58 :: d.
Proof.
  intros Nh Hne Hd. unfold strip_scheme.
  destruct (drop_prefix (chars "http://") _) as [r|] eqn:E1.
  { apply drop_prefix_Some in E1. exfalso.
    change (chars "http://" ++ r) with (chars "http" ++ 58 :: (47 :: 47 :: r)) in E1.
    apply colon_split_unique in E1 as [_ ->]; [|done|].
    - simpl in Hd. discriminate.
    - rewrite list_elem_of_In; simpl; intuition discriminate. }
  destruct (drop_prefix (chars "https://") _) as [r|] eqn:E2; [|done].
  apply drop_prefix_Some in E2. exfalso.
  change (chars "https://" ++ r) with (chars "https" ++ 58 :: (47 :: 47 :: r)) in E2.
  apply colon_split_unique in E2 as [_ ->]; [|done|].
  - simpl in Hd. discriminate.
  - rewrite list_elem_of_In; simpl; intuition discriminate.
Qed.

Lemma strip_scheme_digits d : forallb is_digit10 d = true -> strip_scheme d = d.
Proof.
  intros Hd. unfold strip_scheme.
  destruct (drop_prefix (chars "http://") d) as [r|] eqn:E1.
  { apply drop_prefix_Some in E1. subst d. simpl in Hd. discriminate. }
  destruct (drop_prefix (chars "https://") d) as [r|] eqn:E2; [|done].
  apply drop_prefix_Some in E2. subst d. simpl in Hd. discriminate.
Qed.

Lemma isdigit_host_port (h d : pystr) : isdigit db (h ++ 58 :: d) = false.
Proof.
  unfold isdigit. destruct (h ++ _) as [|c r] eqn:E; [by destruct h|].
  rewrite <- E, forallb_app. simpl. by rewrite andb_false_r.
Qed.

Lemma port_in_range p : port_out_of_range p = false <-> 1 <= p <= 65535.
Proof.
  unfold port_out_of_range. rewrite orb_false_iff, Z.leb_gt, Z.ltb_ge. lia.
Qed.

End CliUrl.

(* ===================================================================== *)
(** * C5: parsing the cli_url                                            *)
(* ===================================================================== *)

(** C5 (counterexample): only the schemes http and https are stripped.
    "ws://localhost:3000" is rejected although "localhost:3000" parses to
    ("localhost", 3000). *)
Lemma parse_cli_url_other_scheme_rejected :
  parse_cli_url311 (chars "ws://localhost:3000")
  = Raise (ValueError "Invalid cli_url format: ws://localhost:3000") /\
  parse_cli_url311 (chars "localhost:3000") = Ok (localhost, 3000).
Proof. split; reflexivity. Qed.

(** C5 (amended), for any Unicode database and any digit limit of the
    interpreter.  For a non-empty string [d] of ASCII digits whose value N
    is in [1, 65535], within the digit limit, and a host [h] without a
    colon, "N" parses to ("localhost", N), "h:N" to (h, N) (with
    "localhost" for an empty h), and "http://h:N" and "https://h:N" parse
    exactly as "h:N"; past the digit limit "N" and "h:N" raise.  Every
    accepted string has a port in [1, 65535] and every failure is a
    ValueError: "Invalid cli_url format" when the string, after removing
    http(s)://, is not all digits and does not split at ':' into exactly
    two parts; "Invalid port in cli_url" when it does and [int()] refuses
    the port part; and [int()]'s own error when the string is all digits
    ([str.isdigit]) and [int()] refuses it. *)
Theorem parse_cli_url_forms (db : UnicodeDB) (max_str_digits : Z) :
  let parse := parse_cli_url db max_str_digits in
  (forall (h d : pystr) (scheme : string),
     scheme = "http" \/ scheme = "https" ->
     58 ∉ h -> d <> [] -> forallb is_digit10 d = true -> 1 <= decimal_value d <= 65535 ->
     max_str_digits_exceeded max_str_digits (Z.of_nat (List.length d)) = false ->
     parse d = Ok (localhost, decimal_value d) /\
     parse (h ++ 58 :: d) = Ok (host_or_localhost h, decimal_value d) /\
     parse (chars scheme ++ chars "://" ++ h ++ 58 :: d) = parse (h ++ 58 :: d)) /\
  (forall (h d : pystr),
     58 ∉ h -> forallb is_digit10 d = true ->
     max_str_digits_exceeded max_str_digits (Z.of_nat (List.length d)) = true ->
     is_raise (parse d) = true /\
     parse (h ++ 58 :: d) = Raise (parse_cli_url_error "Invalid port in cli_url: " (h ++ 58 :: d))) /\
  (forall url host port, parse url = Ok (host, port) -> 1 <= port <= 65535) /\
  (forall url e, parse url = Raise e -> exists msg, e = ValueError msg) /\
  (forall url, isdigit db (strip_scheme url) = false ->
     List.length (split_on 58 (strip_scheme url)) <> 2%nat ->
     parse url = Raise (parse_cli_url_error "Invalid cli_url format: " url)) /\
  (forall url a b, isdigit db (strip_scheme url) = false ->
     split_on 58 (strip_scheme url) = [a; b] ->
     is_raise (python_int db max_str_digits b) = true ->
     parse url = Raise (parse_cli_url_error "Invalid port in cli_url: " url)) /\
  (forall url e, isdigit db (strip_scheme url) = true ->
     python_int db max_str_digits (strip_scheme url) = Raise e -> parse url = Raise e).
Proof.
  cbv zeta.
  split; [|split; [|split; [|split; [|split; [|split]]]]].
  - intros h d scheme Hs Nh Hne Hd Hr Hlim.
    assert (Hp : port_out_of_range (decimal_value d) = false) by (by apply port_in_range).
    assert (Hhd : parse_cli_url db max_str_digits (h ++ 58 :: d)
                  = Ok (host_or_localhost h, decimal_value d)).
    { unfold parse_cli_url. rewrite strip_scheme_host_port by done.
      rewrite isdigit_host_port, split_on_one_colon by (done || by apply digits_no_colon).
      rewrite python_int_digits by done. by rewrite Hp. }
    split; [|split].
    + unfold parse_cli_url.
      rewrite (strip_scheme_digits d Hd), isdigit_digits, python_int_digits by done.
      by rewrite Hp.
    + exact Hhd.
    + rewrite Hhd. unfold parse_cli_url.
      replace (strip_scheme (chars scheme ++ chars "://" ++ h ++ 58 :: d))
        with (h ++ 58 :: d) by (destruct Hs as [-> | ->]; reflexivity).
      rewrite isdigit_host_port, split_on_one_colon by (done || by apply digits_no_colon).
      rewrite python_int_digits by done. by rewrite Hp.
  - intros h d Nh Hd Hlim.
    destruct (python_int_too_many_digits db max_str_digits d Hd Hlim) as [msg Hm].
    assert (Hne : d <> []).
    { intros ->. unfold max_str_digits_exceeded, max_str_digits_threshold in Hlim.
      simpl in Hlim. discriminate. }
    split.
    + unfold parse_cli_url.
      rewrite (strip_scheme_digits d Hd), isdigit_digits, Hm by done. reflexivity.
    + destruct d as [|c r]; [done|].
      unfold parse_cli_url. rewrite strip_scheme_host_port by done.
      rewrite isdigit_host_port, split_on_one_colon by (done || by apply digits_no_colon).
      by rewrite Hm.
  - intros url host port. unfold parse_cli_url.
    destruct (isdigit _ _).
    + destruct (python_int _ _ _) as [p|]; [|discriminate].
      destruct (port_out_of_range p) eqn:E; [discriminate|].
      intros H. injection H as _ <-. by apply port_in_range.
    + destruct (split_on _ _) as [|a [|b [|c r]]]; try discriminate.
      destruct (python_int _ _ b) as [p|[]]; try discriminate.
      destruct (port_out_of_range p) eqn:E; [discriminate|].
      intros H. injection H as _ <-. by apply port_in_range.
  - intros url e. unfold parse_cli_url.
    destruct (isdigit _ _).
    + destruct (python_int _ _ _) as [p|e'] eqn:Ei.
      * destruct (port_out_of_range p); intros H; try discriminate H; injection H as <-; eauto.
      * intros H. injection H as <-. by apply (python_int_ValueError db max_str_digits _ _ Ei).
    + destruct (split_on _ _) as [|a [|b [|c r]]];
        try (intros H; try discriminate H; injection H as <-; eauto).
      destruct (python_int _ _ b) as [p|e'] eqn:Ei.
      * destruct (port_out_of_range p); intros H; try discriminate H; injection H as <-; eauto.
      * destruct (python_int_ValueError db max_str_digits _ _ Ei) as [msg ->].
        intros H. injection H as <-. eauto.
  - intros url Hd Hl. unfold parse_cli_url. rewrite Hd.
    destruct (split_on _ _) as [|a [|b [|c r]]]; done.
  - intros url a b Hd Hs Hb. unfold parse_cli_url. rewrite Hd, Hs.
    destruct (python_int _ _ b) as [p|e] eqn:Ei; [discriminate|].
    destruct (python_int_ValueError db max_str_digits _ _ Ei) as [msg ->]. reflexivity.
  - intros url e Hd Hi. unfold parse_cli_url. by rewrite Hd, Hi.
Qed.

(** Witness: "https://example.com:443", "example.com:443" and "443" on
    CPython 3.11, and a port of 4301 digits. *)
Lemma parse_cli_url_forms_witness :
  parse_cli_url311 (chars "443") = Ok (localhost, 443) /\
  parse_cli_url311 (chars "https" ++ chars "://" ++ chars "example.com" ++ 58 :: chars "443")
    = parse_cli_url311 (chars "example.com" ++ 58 :: chars "443") /\
  is_raise (parse_cli_url311 (repeat 49 4301)) = true.
Proof.
  destruct (parse_cli_url_forms cpython311_unicode default_max_str_digits)
    as (H & Hlim & _).
  destruct (H (chars "example.com") (chars "443") "https") as [H1 [_ H3]].
  - right. reflexivity.
  - rewrite list_elem_of_In. simpl. intuition discriminate.
  - discriminate.
  - reflexivity.
  - vm_compute. split; discriminate.
  - reflexivity.
  - refine (conj H1 (conj H3 _)).
    apply (Hlim [] (repeat 49 4301)).
    + apply not_elem_of_nil.
    + vm_compute. reflexivity.
    + vm_compute. reflexivity.
Defined.

(* ===================================================================== *)
(** * C6: option conflicts in the constructor                            *)
(* ===================================================================== *)

Definition external_with_stdio_false : CopilotClientOptions :=
  {| o_cli_url := Some (chars "localhost:3000"); o_use_stdio := Some false;
     o_cli_path := None; o_github_token := None; o_use_logged_in_user := None |}.

Example init_external_default :
  fst (CopilotClient_init cpython311_unicode default_max_str_digits None
         {| o_cli_url := Some (chars "localhost:3000"); o_use_stdio := None;
            o_cli_path := None; o_github_token := None; o_use_logged_in_user := None |})
  = Ok {| cfg_cli_path := []; cfg_use_stdio := false; cfg_use_logged_in_user := true;
          cfg_cli_url := Some (chars "localhost:3000"); cfg_github_token := None;
          cfg_actual_host := localhost; cfg_actual_port := Some 3000;
          cfg_is_external_server := true |}.
Proof. reflexivity. Qed.

(** C6 (counterexample): the checks test truthiness, so passing
    [use_stdio=False] (or an empty cli_path or github_token) together with
    cli_url is accepted: the constructor returns a client. *)
Lemma CopilotClient_init_cli_url_use_stdio_false :
  o_use_stdio external_with_stdio_false = Some false /\
  is_raise (fst (CopilotClient_init cpython311_unicode default_max_str_digits None
                   external_with_stdio_false)) = false.
Proof. split; reflexivity. Qed.

(** C6 (amended): when cli_url is a non-empty string and use_stdio is True,
    or cli_path is a non-empty string, or github_token is a non-empty
    string, or use_logged_in_user is given (True or False), the constructor
    raises ValueError and does nothing else first: no lookup of the CLI
    binary, no read of the working directory (and the constructor never
    spawns a process or opens a transport in any case).  Otherwise, with a
    non-empty cli_url, it raises exactly the error [_parse_cli_url] raises
    for it, and else builds an external-server client (no CLI lookup,
    use_stdio False, use_logged_in_user True, no token).  Without a
    non-empty cli_url these checks do not apply; the constructor then
    raises RuntimeError exactly when no non-empty cli_path is given and no
    bundled CLI is found. *)
Theorem CopilotClient_init_cli_url_checks (db : UnicodeDB) (max_str_digits : Z)
    (bundled : option pystr) (opts : CopilotClientOptions) :
  let init := CopilotClient_init db max_str_digits bundled opts in
  let conflict :=
    truthy_chars (o_cli_url opts) &&
    (truthy_bool (o_use_stdio opts) || truthy_chars (o_cli_path opts) ||
     truthy_chars (o_github_token opts) || is_not_None (o_use_logged_in_user opts)) in
  (conflict = true -> exists msg, init = (Raise (ValueError msg), [])) /\
  (forall url, o_cli_url opts = Some url -> url <> [] -> conflict = false ->
     init = match parse_cli_url db max_str_digits url with
            | Raise e => (Raise e, [])
            | Ok (host, port) =>
                (Ok {| cfg_cli_path := []; cfg_use_stdio := false; cfg_use_logged_in_user := true;
                       cfg_cli_url := Some url; cfg_github_token := None;
                       cfg_actual_host := host; cfg_actual_port := Some port;
                       cfg_is_external_server := true |}, [GetCwd])
            end) /\
  (truthy_chars (o_cli_url opts) = false ->
     (is_raise (fst init) = true <->
      truthy_chars (o_cli_path opts) = false /\ truthy_chars bundled = false) /\
     (truthy_chars (o_cli_path opts) = false -> truthy_chars bundled = false ->
      init = (Raise cli_not_found_error, [LookupBundledCli]))).
Proof.
  cbv zeta. split; [|split].
  - intros Hc. apply andb_true_iff in Hc as [Hu Hc]. unfold CopilotClient_init. rewrite Hu.
    destruct (truthy_bool (o_use_stdio opts)) eqn:E1; [eexists; reflexivity|].
    destruct (truthy_chars (o_cli_path opts)) eqn:E2; [eexists; reflexivity|]. simpl.
    destruct (truthy_chars (o_github_token opts)) eqn:E3; [eexists; reflexivity|].
    destruct (is_not_None (o_use_logged_in_user opts)) eqn:E4; [eexists; reflexivity|].
    discriminate.
  - intros url Hu Hne Hc. unfold CopilotClient_init.
    assert (Ht : truthy_chars (o_cli_url opts) = true) by (rewrite Hu; by destruct url).
    rewrite Ht in Hc |- *. simpl in Hc.
    apply orb_false_iff in Hc as [Hc E4]. apply orb_false_iff in Hc as [Hc E3].
    apply orb_false_iff in Hc as [E1 E2].
    rewrite E1, E2, E3, E4. simpl. rewrite Hu.
    destruct url as [|c r]; [done|].
    destruct (parse_cli_url db max_str_digits (c :: r)) as [[h p]|e]; [|reflexivity].
    destruct (o_use_logged_in_user opts); [discriminate|]. reflexivity.
  - intros Hu. unfold CopilotClient_init. rewrite Hu. simpl.
    destruct (o_cli_url opts) as [[|c r]|]; [| discriminate |];
      (destruct (o_cli_path opts) as [[|c' r']|]; simpl;
       [| split; [split; [discriminate | intros [H _]; discriminate] | intros H; discriminate] |];
       (destruct bundled as [[|b r'']|]; simpl;
        [ split; [tauto | reflexivity]
        | split; [split; [discriminate | intros [_ H]; discriminate] | intros _ H; discriminate]
        | split; [tauto | reflexivity] ])).
Qed.

(** Witness: cli_url "ws://h:1" with [use_stdio=False] raises the parser's
    error; cli_url together with use_logged_in_user raises ValueError. *)
Lemma CopilotClient_init_cli_url_checks_witness :
  CopilotClient_init cpython311_unicode default_max_str_digits None
    {| o_cli_url := Some (chars "ws://h:1"); o_use_stdio := Some false;
       o_cli_path := None; o_github_token := None; o_use_logged_in_user := None |}
  = (Raise (ValueError "Invalid cli_url format: ws://h:1"), []) /\
  exists msg, CopilotClient_init cpython311_unicode default_max_str_digits None
    {| o_cli_url := Some (chars "localhost:3000"); o_use_stdio := None;
       o_cli_path := None; o_github_token := None; o_use_logged_in_user := Some false |}
    = (Raise (ValueError msg), []).
Proof.
  split.
  - destruct (CopilotClient_init_cli_url_checks cpython311_unicode default_max_str_digits None
                {| o_cli_url := Some (chars "ws://h:1"); o_use_stdio := Some false;
                   o_cli_path := None; o_github_token := None; o_use_logged_in_user := None |})
      as (_ & H & _).
    rewrite (H (chars "ws://h:1") eq_refl ltac:(discriminate) eq_refl). reflexivity.
  - destruct (CopilotClient_init_cli_url_checks cpython311_unicode default_max_str_digits None
                {| o_cli_url := Some (chars "localhost:3000"); o_use_stdio := None;
                   o_cli_path := None; o_github_token := None; o_use_logged_in_user := Some false |})
      as (H & _).
    apply H. reflexivity.
Defined.

(* ===================================================================== *)
(** * C1: permission.request fails closed                                *)
(* ===================================================================== *)

(** The session has no permission handler, or its handler raises on the
    request. *)
Definition permission_handler_fails (sess : Session) (req : PermissionRequest) : Prop :=
  permission_handler sess = None \/
  exists h e, permission_handler sess = Some h /\ h req (session_id sess) = PRaise e.

(** C1: when the session a permission.request targets has no permission
    handler, or its handler raises, the router never answers with anything
    but the fixed "denied-no-approval-rule-and-could-not-request-from-user"
    result (it may raise on a malformed payload or an unknown session), and
    for a well-formed request to a registered session it answers exactly
    that result. *)
Theorem permission_request_fails_closed (params : PermissionParams) (s : St) :
  (forall sid req sess, pp_sessionId params = Some sid -> pp_permissionRequest params = Some req ->
     session_of s sid = Some sess -> permission_handler_fails sess req) ->
  (forall r, fst (handle_permission_request params s) = Ok r -> r = denied_no_rule) /\
  (forall sid req sess, pp_sessionId params = Some sid -> sid <> ""%string ->
     pp_permissionRequest params = Some req -> req <> [] ->
     session_of s sid = Some sess ->
     fst (handle_permission_request params s) = Ok denied_no_rule).
Proof.
  intros Hfail. unfold handle_permission_request.
  destruct (pp_sessionId params) as [sid|] eqn:Es;
    [|split; [discriminate | intros; discriminate]].
  destruct (pp_permissionRequest params) as [[|p req]|] eqn:Er;
    [split; [discriminate | intros ? ? ? _ _ [= <-] Hne; by destruct Hne]
    | |split; [discriminate | intros; discriminate]].
  destruct sid as [|c sid']; simpl.
  { split; [discriminate | intros ? ? ? [= <-] Hne; by destruct Hne]. }
  unfold mbind, M_bind, lookup_session, gets.
  destruct (session_of s (String c sid')) as [sess|] eqn:Esess;
    [|split; [discriminate | intros ? ? ? [= <-] _ _ _ Hs; congruence]].
  specialize (Hfail _ _ _ eq_refl eq_refl Esess).
  assert (Hd : session_handle_permission_request sess (p :: req) = Ok denied_no_rule).
  { unfold session_handle_permission_request.
    destruct Hfail as [-> | (h & e & -> & He)]; [done|]. by rewrite He. }
  unfold try_except, lift. rewrite Hd. simpl.
  split; [by intros r [= <-] | done].
Qed.

Lemma permission_request_fails_closed_witness :
  fst (handle_permission_request
         {| pp_sessionId := Some "s1"; pp_permissionRequest := Some [("kind", "shell")] |}
         connected_client) = Ok denied_no_rule.
Proof.
  destruct (permission_request_fails_closed
              {| pp_sessionId := Some "s1"; pp_permissionRequest := Some [("kind", "shell")] |}
              connected_client) as [_ H].
  - intros sid req sess [= <-] [= <-] Hs. vm_compute in Hs. injection Hs as <-. left. reflexivity.
  - apply (H "s1" [("kind", "shell")] bare_session); try reflexivity; discriminate.
Defined.

(* ===================================================================== *)
(** * C2: a failing tool handler does not leak its exception             *)
(* ===================================================================== *)

(** C2: when the tool handler raises an exception [e] (whatever its
    message), the result is a failure whose model-facing text is the fixed
    generic message, the same for every exception, and [str(e)] is only in
    the diagnostic [error] field; when the handler returns None the result
    is a failure with the fixed text "Tool returned no result.". *)
Theorem execute_tool_call_hides_errors (session_id tool_call_id tool_name arguments : string)
    (handler : ToolHandler) :
  let invocation := {| inv_session_id := session_id; inv_tool_call_id := tool_call_id;
                       inv_tool_name := tool_name; inv_arguments := arguments |} in
  (forall e, handler invocation = TRaise e ->
     execute_tool_call session_id tool_call_id tool_name arguments handler
     = {| textResultForLlm := generic_tool_error_text; resultType := "failure";
          error := Some (exn_str e); toolTelemetry := [] |}) /\
  (handler invocation = TReturn None ->
     execute_tool_call session_id tool_call_id tool_name arguments handler
     = {| textResultForLlm := "Tool returned no result."; resultType := "failure";
          error := Some "tool returned no result"; toolTelemetry := [] |}).
Proof.
  intros invocation. unfold execute_tool_call. fold invocation.
  split; [intros e H | intros H]; by rewrite H.
Qed.

Lemma execute_tool_call_hides_errors_witness :
  execute_tool_call "s1" "call-1" "get_weather" "{}"
    (fun _ => TRaise (RuntimeError "secret: db password is hunter2"))
  = {| textResultForLlm := generic_tool_error_text; resultType := "failure";
       error := Some "secret: db password is hunter2"; toolTelemetry := [] |}.
Proof.
  destruct (execute_tool_call_hides_errors "s1" "call-1" "get_weather" "{}"
              (fun _ => TRaise (RuntimeError "secret: db password is hunter2"))) as [H _].
  apply (H (RuntimeError "secret: db password is hunter2")). reflexivity.
Defined.

(* ===================================================================== *)
(** * C8: tool.call for a tool without a handler                         *)
(* ===================================================================== *)

(** C8: a well-formed tool.call (non-empty sessionId, toolCallId and
    toolName) to a registered session that has no handler for the tool is
    answered, without raising and without changing the client, with
    [_build_unsupported_tool_result(tool_name)]: a failure whose text is
    "Tool '<name>' is not supported.", so it contains the tool name and is
    built from the name alone. *)
Theorem tool_call_unknown_tool (params : ToolCallParams) (s : St)
    (sid tcid name : string) (sess : Session) :
  tc_sessionId params = Some sid -> tc_toolCallId params = Some tcid ->
  tc_toolName params = Some name ->
  sid <> ""%string -> tcid <> ""%string -> name <> ""%string ->
  session_of s sid = Some sess -> tool_handlers sess !! name = None ->
  handle_tool_call_request params s = (Ok (build_unsupported_tool_result name), s) /\
  resultType (build_unsupported_tool_result name) = "failure"%string /\
  textResultForLlm (build_unsupported_tool_result name)
    = ("Tool '" +:+ name +:+ "' is not supported.")%string /\
  (exists pre post, textResultForLlm (build_unsupported_tool_result name)
                    = (pre +:+ name +:+ post)%string).
Proof.
  intros Hs Ht Hn Ns Nt Nn Hsess Hh.
  split; [|split; [done | split; [done | by exists "Tool '"%string, "' is not supported."%string]]].
  unfold handle_tool_call_request. rewrite Hs, Ht, Hn.
  assert (Htr : forall x : string, x <> ""%string -> truthy_str (Some x) = true)
    by (intros [|? ?] ?; done).
  rewrite (Htr sid Ns), (Htr tcid Nt), (Htr name Nn). simpl.
  unfold mbind, M_bind, lookup_session, gets. rewrite Hsess. by rewrite Hh.
Qed.

Lemma tool_call_unknown_tool_witness :
  handle_tool_call_request
    {| tc_sessionId := Some "s1"; tc_toolCallId := Some "call-1";
       tc_toolName := Some "get_weather"; tc_arguments := "{}" |} connected_client
  = (Ok (build_unsupported_tool_result "get_weather"), connected_client).
Proof.
  apply (tool_call_unknown_tool
           {| tc_sessionId := Some "s1"; tc_toolCallId := Some "call-1";
              tc_toolName := Some "get_weather"; tc_arguments := "{}" |} connected_client
           "s1" "call-1" "get_weather" bare_session);
    try reflexivity; discriminate.
Defined.

(* ===================================================================== *)
(** * C3: destroy() and the session registry                             *)
(* ===================================================================== *)

(** C3 (counterexample): after [destroy()] succeeds on the registered
    session "s1", the client's registry still maps "s1" to the same session
    object (whose handlers are now cleared). *)
Lemma session_destroy_keeps_registry_entry :
  let s' := snd (session_destroy 0%nat (Ok tt) connected_client) in
  fst (session_destroy 0%nat (Ok tt) connected_client) = Ok tt /\
  sessions s' !! "s1"%string = Some 0%nat /\
  session_of s' "s1" = Some (cleared bare_session).
Proof. vm_compute. auto. Qed.

(** C3 (amended): [destroy()] never changes the client's registry: it
    sends session.destroy and, when that succeeds, clears the session
    object's event, tool and permission handlers, the object staying
    registered under its id.  The entry is removed by
    [delete_session(session_id)] when the server reports success (and by
    [stop()], which empties the registry). *)
Theorem session_destroy_registry (l : nat) (resp : outcome unit) (s : St) :
  sessions (snd (session_destroy l resp s)) = sessions s /\
  (resp = Ok tt ->
     heap_sessions (snd (session_destroy l resp s)) = alter cleared l (heap_sessions s)) /\
  (forall sid err, client s = true ->
     sessions (snd (delete_session sid (Ok {| dr_success := Some true; dr_error := err |}) s))
     = delete sid (sessions s)).
Proof.
  split; [|split].
  - unfold session_destroy, mbind, M_bind, request, modify.
    by destruct resp.
  - intros ->. reflexivity.
  - intros sid err Hc. unfold delete_session, mbind, M_bind, gets. rewrite Hc. reflexivity.
Qed.

Lemma session_destroy_registry_witness :
  heap_sessions (snd (session_destroy 0%nat (Ok tt) connected_client))
    = alter cleared 0%nat (heap_sessions connected_client) /\
  sessions (snd (delete_session "s1" (Ok {| dr_success := Some true; dr_error := None |})
                   connected_client)) !! "s1"%string = None.
Proof.
  destruct (session_destroy_registry 0%nat (Ok tt) connected_client) as [_ [H1 H2]].
  split.
  - by apply H1.
  - rewrite (H2 "s1"%string None eq_refl). apply lookup_delete_eq.
Defined.

(* ===================================================================== *)
(** * C4: stop()                                                         *)
(* ===================================================================== *)

Section Stop.

Variable io : StopIO.

(** The attributes the destroy loop does not touch. *)
Definition same_conn (s s' : St) : Prop :=
  state s' = state s /\ client s' = client s /\ process s' = process s /\
  is_external_server s' = is_external_server s /\ actual_port s' = actual_port s /\
  sessions s' = sessions s /\ models_cache s' = models_cache s.

Lemma destroy_sessions_run (l : list (string * nat)) (s : St) :
  fst (destroy_sessions io l s) = Ok (stop_errors io l) /\
  same_conn s (snd (destroy_sessions io l s)) /\
  io_log (snd (destroy_sessions io l s))
    = io_log s ++ map (fun _ => "session.destroy"%string) l.
Proof.
  revert s. induction l as [|[sid l0] r IH]; intros s.
  - simpl. rewrite app_nil_r. repeat split.
  - cbn [destroy_sessions]. unfold session_destroy, request, modify, try_except.
    unfold mbind, M_bind, mret, M_ret.
    destruct (destroy_response io sid) as [[]|e] eqn:Ed.
    + destruct (IH (update_session l0 cleared (log_request "session.destroy" s)))
        as (H1 & H2 & H3).
      destruct (destroy_sessions io r _) as [o s'] eqn:Er. simpl in H1, H2, H3 |- *.
      rewrite H1. simpl. rewrite Ed. simpl. split; [done|].
      destruct H2 as (? & ? & ? & ? & ? & ? & ?).
      split; [repeat split; assumption|].
      rewrite H3. simpl. by rewrite <- app_assoc.
    + destruct (IH (log_request "session.destroy" s)) as (H1 & H2 & H3).
      destruct (destroy_sessions io r _) as [o s'] eqn:Er. simpl in H1, H2, H3 |- *.
      rewrite H1. simpl. rewrite Ed. simpl. split; [done|].
      destruct H2 as (? & ? & ? & ? & ? & ? & ?).
      split; [repeat split; assumption|].
      rewrite H3. simpl. by rewrite <- app_assoc.
Qed.

Lemma stop_run (s : St) :
  (transport_stop io = Ok tt \/ client s = false) ->
  fst (stop io s) = Ok (stop_errors io (map_to_list (sessions s))) /\
  io_log (snd (stop io s))
    = io_log s ++ map (fun _ => "session.destroy"%string) (map_to_list (sessions s))
      ++ stop_ops io s /\
  sessions (snd (stop io s)) = ∅ /\ client (snd (stop io s)) = false /\
  models_cache (snd (stop io s)) = None /\ state (snd (stop io s)) = Disconnected /\
  (is_external_server s = false -> process (snd (stop io s)) = false).
Proof.
  intros Ht.
  unfold stop, stop_client, stop_process, close_transport, log_op, gets, modify.
  unfold mbind, M_bind, mret, M_ret.
  destruct (destroy_sessions_run (map_to_list (sessions s)) (set_sessions ∅ s))
    as (H1 & H2 & H3).
  destruct (destroy_sessions io _ (set_sessions ∅ s)) as [o s2] eqn:E.
  simpl in H1, H2, H3. subst o.
  destruct H2 as (Hst & Hc & Hp & Hx & Ha & Hs & Hm).
  simpl in Hst, Ha, Hm.
  simpl in Hc, Hp, Hx, Hs. rewrite Hc. unfold stop_ops.
  destruct (client s) eqn:Ec.
  - destruct Ht as [Ht|Ht]; [|congruence]. rewrite Ht. simpl.
    rewrite Hp, Hx.
    destruct (process s && negb (is_external_server s)) eqn:Epx;
      [destruct (wait_times_out io)|]; simpl; rewrite ?Hx;
      (destruct (is_external_server s) eqn:Ex; simpl);
      rewrite ?H3, ?Hs, ?Hp, <- ?app_assoc, ?app_nil_r; repeat split; try done;
      intros; rewrite ?Hp; try done; destruct (process s); done.
  - simpl.
    rewrite Hp, Hx.
    destruct (process s && negb (is_external_server s)) eqn:Epx;
      [destruct (wait_times_out io)|]; simpl; rewrite ?Hx;
      (destruct (is_external_server s) eqn:Ex; simpl);
      rewrite ?H3, ?Hs, ?Hp, ?Hc, <- ?app_assoc, ?Ec, ?app_nil_r; repeat split; try done;
      intros; rewrite ?Hp; try done; destruct (process s); done.
Qed.
End Stop.

(** C4: [stop()] catches every failure of a session's destroy and returns
    one StopError per failed session instead of raising; whatever the
    sessions answer, it sends session.destroy for every registered session,
    then closes the transport (if there is one), clears the models cache
    and terminates (and on timeout kills) the CLI process it spawned, and
    leaves the client disconnected with an empty registry.  It raises only
    if closing the JSON-RPC connection itself raises, so on a client with
    no transport (never started, or already stopped) it never raises, and a
    second [stop()] right after one that returned returns [] . *)
Theorem stop_collects_errors (io : StopIO) (s : St) :
  (transport_stop io = Ok tt \/ client s = false) ->
  fst (stop io s) = Ok (stop_errors io (map_to_list (sessions s))) /\
  io_log (snd (stop io s))
    = io_log s ++ map (fun _ => "session.destroy"%string) (map_to_list (sessions s))
      ++ stop_ops io s /\
  sessions (snd (stop io s)) = ∅ /\ client (snd (stop io s)) = false /\
  models_cache (snd (stop io s)) = None /\ state (snd (stop io s)) = Disconnected /\
  (is_external_server s = false -> process (snd (stop io s)) = false) /\
  (forall io', fst (stop io' (snd (stop io s))) = Ok []).
Proof.
  intros Ht.
  destruct (stop_run io s Ht) as (H1 & H2 & H3 & H4 & H5 & H6 & H7).
  do 7 (split; [assumption|]).
  intros io'. destruct (stop_run io' (snd (stop io s)) (or_intror H4)) as (H1' & _).
  rewrite H1', H3. reflexivity.
Qed.

Lemma stop_collects_errors_witness :
  fst (stop stop_io_failing_destroy connected_client)
    = Ok [{| stop_message := "Failed to destroy session s1: Session not found" |}] /\
  io_log (snd (stop stop_io_failing_destroy connected_client))
    = ["session.destroy"; "transport.stop"; "process.terminate"]%string /\
  fst (stop stop_io_failing_destroy new_client) = Ok [].
Proof.
  destruct (stop_collects_errors stop_io_failing_destroy connected_client (or_introl eq_refl))
    as (H1 & H2 & _).
  destruct (stop_collects_errors stop_io_failing_destroy new_client (or_intror eq_refl))
    as (H1' & _).
  split; [|split].
  - rewrite H1. reflexivity.
  - rewrite H2. reflexivity.
  - rewrite H1'. reflexivity.
Defined.

(* ===================================================================== *)
(** * C7: list_models() and its cache                                   *)
(* ===================================================================== *)

Ltac conj10 :=
  refine (conj _ (conj _ (conj _ (conj _ (conj _ (conj _ (conj _ (conj _ (conj _ _))))))))).

Lemma list_models_warm r s c :
  client s = true -> models_cache s = Some c ->
  list_models r s
  = (Ok (heap_next s),
     set_heap_lists (<[heap_next s := default [] (heap_lists s !! c)]> (heap_lists s))
                    (S (heap_next s)) s).
Proof.
  intros Hc Hm. unfold list_models, copy_list, alloc, gets, raise.
  unfold mbind, M_bind, mret, M_ret. rewrite Hc. simpl. rewrite Hm. reflexivity.
Qed.

Lemma list_models_cold_ok ms s :
  client s = true -> models_cache s = None ->
  fst (list_models (Ok ms) s) = Ok (S (heap_next s)) /\
  client (snd (list_models (Ok ms) s)) = true /\
  models_cache (snd (list_models (Ok ms) s)) = Some (heap_next s) /\
  heap_next (snd (list_models (Ok ms) s)) = S (S (heap_next s)) /\
  heap_lists (snd (list_models (Ok ms) s))
    = <[S (heap_next s) := ms]> (<[heap_next s := ms]> (heap_lists s)) /\
  io_log (snd (list_models (Ok ms) s)) = io_log s ++ ["models.list"%string].
Proof.
  intros Hc Hm. unfold list_models, copy_list, alloc, gets, raise, request, modify.
  unfold mbind, M_bind, mret, M_ret. rewrite Hc. simpl. rewrite Hm. simpl.
  rewrite lookup_insert_eq. simpl. repeat split; try done.
Qed.

Lemma list_models_cold_raise e s :
  client s = true -> models_cache s = None ->
  list_models (Raise e) s = (Raise e, log_request "models.list" s).
Proof.
  intros Hc Hm. unfold list_models, copy_list, alloc, gets, raise, request, modify.
  unfold mbind, M_bind, mret, M_ret. rewrite Hc. simpl. rewrite Hm. reflexivity.
Qed.

Lemma list_models_calls_cons r rest s o s1 :
  list_models r s = (o, s1) ->
  list_models_calls (r :: rest) s
  = match list_models_calls rest s1 with
    | (Ok os, s2) => (Ok (o :: os), s2)
    | (Raise e, s2) => (Raise e, s2)
    end.
Proof.
  intros E. cbn [list_models_calls]. unfold try_except, mbind, M_bind, mret, M_ret.
  rewrite E. destruct o; destruct (list_models_calls rest s1) as [[] ?]; reflexivity.
Qed.

Lemma list_models_calls_inv rs : forall s,
  client s = true -> heap_wf s ->
  exists os, fst (list_models_calls rs s) = Ok os /\ List.length os = List.length rs /\
  client (snd (list_models_calls rs s)) = true /\ heap_wf (snd (list_models_calls rs s)) /\
  io_log (snd (list_models_calls rs s))
    = io_log s ++ repeat "models.list"%string
                         (requests_sent (bool_decide (models_cache s = None)) rs) /\
  (heap_next s <= heap_next (snd (list_models_calls rs s)))%nat /\
  (forall l, (l < heap_next s)%nat ->
     heap_lists (snd (list_models_calls rs s)) !! l = heap_lists s !! l) /\
  (models_cache s <> None ->
     models_cache (snd (list_models_calls rs s)) = models_cache s) /\
  (forall i l, os !! i = Some (Ok l) ->
     (heap_next s <= l < heap_next (snd (list_models_calls rs s)))%nat /\
     models_cache (snd (list_models_calls rs s)) <> Some l /\
     heap_lists (snd (list_models_calls rs s)) !! l
       = (models_cache (snd (list_models_calls rs s))
            ≫= fun c => heap_lists (snd (list_models_calls rs s)) !! c)) /\
  (forall i j l, os !! i = Some (Ok l) -> os !! j = Some (Ok l) -> i = j).
Proof.
  induction rs as [|r rest IH]; intros s Hc Hwf.
  - exists []. simpl. rewrite ?app_nil_r. conj10.
    + done.
    + done.
    + done.
    + exact Hwf.
    + destruct (bool_decide _); simpl; rewrite app_nil_r; reflexivity.
    + lia.
    + done.
    + done.
    + intros i l H. rewrite lookup_nil in H. done.
    + intros i j l H. rewrite lookup_nil in H. done.
  - destruct (models_cache s) as [c|] eqn:Hm.
    + (* warm cache: a copy, no request *)
      pose proof (list_models_warm r s c Hc Hm) as E.
      rewrite (list_models_calls_cons r rest s _ _ E).
      set (s1 := set_heap_lists _ _ s).
      assert (Hc1 : client s1 = true) by exact Hc.
      assert (Hwf1 : heap_wf s1).
      { destruct Hwf as [W1 W2]. split; simpl.
        - intros l Hl. destruct (decide (l = heap_next s)) as [->|Hne]; [lia|].
          rewrite lookup_insert_ne in Hl by congruence. specialize (W1 l Hl). lia.
        - intros c' Hc'. rewrite Hm in Hc'. injection Hc' as <-.
          destruct (decide (c = heap_next s)) as [->|Hne].
          + rewrite lookup_insert_eq. eauto.
          + rewrite lookup_insert_ne by congruence. apply W2. exact Hm. }
      destruct (IH s1 Hc1 Hwf1) as (os & Hos & Hlen & Hc' & Hwf' & Hlog & Hnext & Hkeep
                                    & Hcache & Hlocs & Hdist).
      destruct (list_models_calls rest s1) as [o2 s2]. simpl in *. subst o2.
      assert (Hcs1 : models_cache s1 = Some c) by exact Hm.
      assert (Hc2 : models_cache s2 = Some c) by (rewrite Hcache; congruence).
      assert (Hclt : (c < heap_next s)%nat) by (apply (proj1 Hwf), (proj2 Hwf), Hm).
      exists (Ok (heap_next s) :: os). simpl. conj10.
      * done.
      * rewrite Hlen. reflexivity.
      * exact Hc'.
      * exact Hwf'.
      * rewrite Hlog, Hm, bool_decide_false by done.
        destruct rest; reflexivity.
      * lia.
      * intros l Hl. rewrite Hkeep by (simpl; lia). simpl.
        rewrite lookup_insert_ne by lia. reflexivity.
      * intros _. exact Hc2.
      * intros [|i] l Hi; simpl in Hi.
        -- injection Hi as <-. split; [lia|split].
           ++ rewrite Hc2. intros H. injection H as H. lia.
           ++ rewrite Hc2. simpl. rewrite !Hkeep by (simpl; lia). simpl.
              rewrite lookup_insert_eq, lookup_insert_ne by lia.
              destruct (proj2 Hwf c Hm) as [v ->]. reflexivity.
        -- destruct (Hlocs i l Hi) as ((Hl1 & Hl2) & Hl3 & Hl4). simpl in Hl1.
           split; [lia|split; assumption].
      * intros [|i] [|j] l Hi Hj; simpl in Hi, Hj; try done.
        -- injection Hi as <-. destruct (Hlocs j _ Hj) as ((Hl1 & _) & _). simpl in Hl1. lia.
        -- injection Hj as <-. destruct (Hlocs i _ Hi) as ((Hl1 & _) & _). simpl in Hl1. lia.
        -- f_equal. eapply Hdist; eauto.
    + destruct r as [ms|e].
      * (* cold cache, the request succeeds: the cache is filled *)
        destruct (list_models_cold_ok ms s Hc Hm) as (Ho & Hc1 & Hm1 & Hn1 & Hh1 & Hlog1).
        destruct (list_models (Ok ms) s) as [o1 s1] eqn:E.
        simpl in Ho, Hc1, Hm1, Hn1, Hh1, Hlog1. subst o1.
        rewrite (list_models_calls_cons _ rest s _ _ E).
        assert (Hwf1 : heap_wf s1).
        { destruct Hwf as [W1 W2]. split.
          - intros l Hl. rewrite Hn1. rewrite Hh1 in Hl.
            destruct (decide (l = S (heap_next s))) as [->|Hne]; [lia|].
            rewrite lookup_insert_ne in Hl by congruence.
            destruct (decide (l = heap_next s)) as [->|Hne']; [lia|].
            rewrite lookup_insert_ne in Hl by congruence. specialize (W1 l Hl). lia.
          - intros c' Hc'. rewrite Hm1 in Hc'. injection Hc' as <-. rewrite Hh1.
            rewrite lookup_insert_ne by lia. rewrite lookup_insert_eq. eauto. }
        destruct (IH s1 Hc1 Hwf1) as (os & Hos & Hlen & Hc' & Hwf' & Hlog & Hnext & Hkeep
                                      & Hcache & Hlocs & Hdist).
        destruct (list_models_calls rest s1) as [o2 s2]. simpl in *. subst o2.
        assert (Hc2 : models_cache s2 = Some (heap_next s)) by (rewrite Hcache; congruence).
        exists (Ok (S (heap_next s)) :: os). simpl. conj10.
        -- done.
        -- rewrite Hlen. reflexivity.
        -- exact Hc'.
        -- exact Hwf'.
        -- rewrite Hlog, Hlog1, Hm1, bool_decide_false by done.
           destruct rest; simpl; rewrite app_nil_r; reflexivity.
        -- lia.
        -- intros l Hl. rewrite Hkeep by lia. rewrite Hh1.
           rewrite !lookup_insert_ne by lia. reflexivity.
        -- done.
        -- intros [|i] l Hi; simpl in Hi.
           ++ injection Hi as <-. split; [lia|split].
              ** rewrite Hc2. intros H. injection H as H. lia.
              ** rewrite Hc2. simpl. rewrite !Hkeep by lia. rewrite Hh1.
                 rewrite lookup_insert_eq, lookup_insert_ne, lookup_insert_eq by lia.
                 reflexivity.
           ++ destruct (Hlocs i l Hi) as ((Hl1 & Hl2) & Hl3 & Hl4).
              split; [lia|split; assumption].
        -- intros [|i] [|j] l Hi Hj; simpl in Hi, Hj; try done.
           ++ injection Hi as <-. destruct (Hlocs j _ Hj) as ((Hl1 & _) & _). lia.
           ++ injection Hj as <-. destruct (Hlocs i _ Hi) as ((Hl1 & _) & _). lia.
           ++ f_equal. eapply Hdist; eauto.
      * (* cold cache, the request fails: the cache stays cold *)
        pose proof (list_models_cold_raise e s Hc Hm) as E.
        rewrite (list_models_calls_cons _ rest s _ _ E).
        set (s1 := log_request "models.list" s).
        assert (Hc1 : client s1 = true) by exact Hc.
        assert (Hwf1 : heap_wf s1) by exact Hwf.
        destruct (IH s1 Hc1 Hwf1) as (os & Hos & Hlen & Hc' & Hwf' & Hlog & Hnext & Hkeep
                                      & Hcache & Hlocs & Hdist).
        destruct (list_models_calls rest s1) as [o2 s2]. simpl in *. subst o2.
        exists (Raise e :: os). simpl. conj10.
        -- done.
        -- rewrite Hlen. reflexivity.
        -- exact Hc'.
        -- exact Hwf'.
        -- rewrite Hlog, Hm, bool_decide_true by done. simpl.
           rewrite <- app_assoc. reflexivity.
        -- exact Hnext.
        -- exact Hkeep.
        -- intros H. congruence.
        -- intros [|i] l Hi; simpl in Hi; [done|]. exact (Hlocs i l Hi).
        -- intros [|i] [|j] l Hi Hj; simpl in Hi, Hj; try done.
           f_equal. eapply Hdist; eauto.
Qed.

(** A failed models.list request is not cached: the cache stays cold and
    the next caller sends the request again, so two serialized callers on a
    cold cache send two requests. *)
Lemma list_models_failed_request_not_cached :
  models_cache (snd (list_models (Raise (RuntimeError "timeout")) connected_client)) = None /\
  io_log (snd (list_models_calls [Raise (RuntimeError "timeout"); Ok [gpt_model]]
                                 connected_client))
    = ["models.list"; "models.list"]%string.
Proof. vm_compute. split; reflexivity. Qed.

(** C7: [list_models()] sends a models.list request only while the cache
    is cold: on a warm cache no call sends one; among serialized callers on
    a cold cache, each call sends one until a request succeeds (a failed
    request leaves the cache cold), so exactly one is sent when the first
    succeeds.  Every call that returns gives a new list object, distinct
    from every list existing before, from the cache and from every other
    caller's list, holding the cache's elements; mutating it changes no
    other list object and not the cache. *)
Theorem list_models_cached_copies (rs : list (outcome (list ModelInfo))) (s : St) :
  client s = true -> heap_wf s ->
  exists os, fst (list_models_calls rs s) = Ok os /\ List.length os = List.length rs /\
  (* requests: one per call on a cold cache up to the first success, none after *)
  io_log (snd (list_models_calls rs s))
    = io_log s ++ repeat "models.list"%string
                         (requests_sent (bool_decide (models_cache s = None)) rs) /\
  (models_cache s <> None -> io_log (snd (list_models_calls rs s)) = io_log s) /\
  (forall ms rest, rs = Ok ms :: rest ->
     io_log (snd (list_models_calls rs s))
       = io_log s ++ (if bool_decide (models_cache s = None)
                      then ["models.list"%string] else [])) /\
  (* copies: every returned list is a new object holding the cache's elements *)
  (forall i l, os !! i = Some (Ok l) ->
     heap_lists s !! l = None /\
     models_cache (snd (list_models_calls rs s)) <> Some l /\
     heap_lists (snd (list_models_calls rs s)) !! l
       = (models_cache (snd (list_models_calls rs s))
            ≫= fun c => heap_lists (snd (list_models_calls rs s)) !! c)) /\
  (forall i j l, os !! i = Some (Ok l) -> os !! j = Some (Ok l) -> i = j) /\
  (* mutating a returned list touches no other list object nor the cache *)
  (forall i l f l', os !! i = Some (Ok l) -> l' <> l ->
     heap_lists (mutate_list l f (snd (list_models_calls rs s))) !! l'
       = heap_lists (snd (list_models_calls rs s)) !! l' /\
     models_cache (mutate_list l f (snd (list_models_calls rs s)))
       = models_cache (snd (list_models_calls rs s))).
Proof.
  intros Hc Hwf.
  destruct (list_models_calls_inv rs s Hc Hwf)
    as (os & Hos & Hlen & _ & _ & Hlog & _ & _ & _ & Hlocs & Hdist).
  exists os. split; [exact Hos|]. split; [exact Hlen|]. split; [exact Hlog|].
  split; [|split; [|split; [|split]]].
  - intros Hm. rewrite Hlog, bool_decide_false by done. destruct rs; apply app_nil_r.
  - intros ms rest ->. rewrite Hlog.
    destruct (bool_decide _); simpl; rewrite ?app_nil_r; reflexivity.
  - intros i l Hi. destruct (Hlocs i l Hi) as ((Hl1 & _) & Hl2 & Hl3).
    split; [|split; assumption].
    destruct (heap_lists s !! l) eqn:E; [|reflexivity].
    assert (H : is_Some (heap_lists s !! l)) by (rewrite E; eauto).
    apply (proj1 Hwf) in H. lia.
  - exact Hdist.
  - intros i l f l' _ Hne. unfold mutate_list. simpl.
    rewrite lookup_alter_ne by congruence. split; reflexivity.
Qed.

Lemma list_models_cached_copies_witness :
  io_log (snd (list_models_calls [Ok [gpt_model]; Ok [gpt_model]; Ok [gpt_model]]
                                 connected_client))
    = ["models.list"%string].
Proof.
  assert (Hwf : heap_wf connected_client).
  { split; simpl.
    - intros l [v Hv]. rewrite lookup_empty in Hv. discriminate.
    - intros c Hc. discriminate. }
  destruct (list_models_cached_copies [Ok [gpt_model]; Ok [gpt_model]; Ok [gpt_model]]
              connected_client eq_refl Hwf) as (os & _ & _ & Hlog & _).
  rewrite Hlog. reflexivity.
Defined.

(* ===================================================================== *)
(** * C9: the protocol-version handshake                                *)
(* ===================================================================== *)

(** [PingResponse.from_dict] fails on a dict without "protocolVersion". *)
Lemma PingResponse_from_dict_no_version (conv : PyConv) (d : dict) :
  is_None (py_get d "protocolVersion") = true ->
  is_raise (Types.PingResponse_from_dict conv (PDict d)) = true.
Proof.
  intros H. unfold Types.PingResponse_from_dict, Types.with_dict. cbv zeta.
  rewrite H, !orb_true_r. reflexivity.
Qed.

(** The outcome of [start()] on a client that is not connected. *)
Lemma start_cases (conv : PyConv) (expected : Z) (io : StartIO) (s : St) :
  state s <> Connected ->
  (fst (start conv expected io s) = Ok tt <->
     (is_external_server s = true \/
      (spawn_result io = Ok tt /\ exists port, port_result io = Ok port)) /\
     connect_result io = Ok tt /\
     exists raw p, ping_result io = Ok raw /\ Types.PingResponse_from_dict conv raw = Ok p /\
                   protocolVersion p = expected) /\
  ((fst (start conv expected io s) = Ok tt /\ state (snd (start conv expected io s)) = Connected) \/
   (is_raise (fst (start conv expected io s)) = true /\
    state (snd (start conv expected io s)) = Error)).
Proof.
  intros Hst.
  unfold start, try_except, verify_protocol_version, ping, start_cli_server, connect_to_server,
    gets, modify, raise, request, lift, mbind, M_bind, mret, M_ret.
  destruct (state s); [| | congruence |]; cbn;
    destruct (is_external_server s), (spawn_result io) as [[]|], (port_result io) as [[]|],
      (connect_result io) as [[]|], (ping_result io) as [raw|] eqn:Eping; cbn;
    try (destruct (Types.PingResponse_from_dict conv raw) as [p|] eqn:Efd; cbn;
         [case_bool_decide; cbn|]);
    (split;
     [split;
      [intros Hok;
       first [discriminate Hok | split; [eauto | split; [reflexivity | eauto 6]]]
      |intros (Ha & Hb & raw' & p' & Hr & Hf & Hv);
       destruct Ha as [Ha|(Ha1 & port & Ha2)]; congruence]
     |first [left; split; reflexivity | right; split; reflexivity]]).
Qed.

(** C9 (corrected): on a client that is not connected, [start()] ends
    connected exactly when the spawn (skipped for an external server), the
    transport and the ping succeed and [int()] of the reported
    protocolVersion, taken by [PingResponse.from_dict], equals the expected
    version; otherwise it raises and leaves the state [Error].  In
    particular a ping answer without protocolVersion (or with None) raises,
    and so does one whose [int()] differs from the expected version. *)
Theorem start_handshake (conv : PyConv) (expected : Z) (io : StartIO) (s : St)
    (Hst : state s <> Connected) :
  let r := start conv expected io s in
  (fst r = Ok tt <->
     (is_external_server s = true \/
      (spawn_result io = Ok tt /\ exists port, port_result io = Ok port)) /\
     connect_result io = Ok tt /\
     exists raw p, ping_result io = Ok raw /\ Types.PingResponse_from_dict conv raw = Ok p /\
                   protocolVersion p = expected) /\
  ((fst r = Ok tt /\ state (snd r) = Connected) \/
   (is_raise (fst r) = true /\ state (snd r) = Error)) /\
  (forall d, ping_result io = Ok (PDict d) -> is_None (py_get d "protocolVersion") = true ->
     is_raise (fst r) = true /\ state (snd r) = Error) /\
  (forall raw p, ping_result io = Ok raw -> Types.PingResponse_from_dict conv raw = Ok p ->
     protocolVersion p <> expected -> is_raise (fst r) = true /\ state (snd r) = Error).
Proof.
  cbv zeta.
  destruct (start_cases conv expected io s Hst) as [Hiff Hcases].
  assert (Hfail : ~ (fst (start conv expected io s) = Ok tt) ->
                  is_raise (fst (start conv expected io s)) = true /\
                  state (snd (start conv expected io s)) = Error).
  { intros Hn. destruct Hcases as [[H _]|H]; [contradiction|exact H]. }
  refine (conj Hiff (conj Hcases (conj _ _))).
  - intros d Hp Hd. apply Hfail. intros Hok.
    destruct (proj1 Hiff Hok) as (_ & _ & raw & p & Hr & Hf & _).
    rewrite Hp in Hr. injection Hr as <-.
    pose proof (PingResponse_from_dict_no_version conv d Hd) as Hn.
    rewrite Hf in Hn. discriminate Hn.
  - intros raw p Hp Hf Hne. apply Hfail. intros Hok.
    destruct (proj1 Hiff Hok) as (_ & _ & raw' & p' & Hr & Hf' & Hv).
    rewrite Hp in Hr. injection Hr as <-. rewrite Hf in Hf'. injection Hf' as <-.
    contradiction.
Qed.

Lemma start_handshake_witness :
  state new_client <> Connected /\
  is_raise (fst (start sample_conv 3 (start_io None) new_client)) = true /\
  state (snd (start sample_conv 3 (start_io (Some 2)) new_client)) = Error.
Proof.
  assert (Hst : state new_client <> Connected) by discriminate.
  split; [exact Hst | split].
  - destruct (start_handshake sample_conv 3 (start_io None) new_client Hst)
      as (_ & _ & H & _).
    exact (proj1 (H _ eq_refl eq_refl)).
  - destruct (start_handshake sample_conv 3 (start_io (Some 2)) new_client Hst)
      as (_ & _ & _ & H).
    exact (proj2 (H _ {| message := "pong"; timestamp := 0; protocolVersion := 2 |}
                    eq_refl eq_refl ltac:(discriminate))).
Defined.

(** The version is compared after [int()]: a server reporting 2.5 passes
    the handshake of an SDK expecting version 2, and [start()] ends
    connected. *)
Lemma start_accepts_truncated_version :
  py_int sample_conv (PFloat 2.5%float) = Ok 2 /\
  fst (start sample_conv 2 (start_io_answer (Some (PFloat 2.5%float))) new_client) = Ok tt /\
  state (snd (start sample_conv 2 (start_io_answer (Some (PFloat 2.5%float))) new_client))
  = Connected.
Proof. repeat split. Qed.

(* ===================================================================== *)
(** * C10: unsubscribe closures                                         *)
(* ===================================================================== *)

Lemma list_remove_other h h' l :
  h' <> h -> registrations h' (list_remove h l) = registrations h' l.
Proof.
  intros Hne. unfold registrations. induction l as [|x r IH]; simpl; [done|].
  destruct (decide (x = h)) as [->|Hx]; simpl.
  - destruct (Nat.eq_dec h h'); [congruence|done].
  - destruct (Nat.eq_dec x h'); rewrite IH; done.
Qed.

Lemma list_remove_self h l :
  registrations h (list_remove h l) = (registrations h l - 1)%nat.
Proof.
  unfold registrations. induction l as [|x r IH]; simpl; [done|].
  destruct (decide (x = h)) as [->|Hx]; simpl.
  - destruct (Nat.eq_dec h h); [lia|congruence].
  - destruct (Nat.eq_dec x h); [congruence|exact IH].
Qed.

Lemma registrations_zero h l : registrations h l = 0%nat <-> h ∉ l.
Proof.
  unfold registrations. rewrite list_elem_of_In. symmetry. apply count_occ_not_In.
Qed.

Lemma guarded_remove_count h h' hs :
  registrations h' (if decide (h ∈ hs) then list_remove h hs else hs)
  = if decide (h' = h) then (registrations h' hs - 1)%nat else registrations h' hs.
Proof.
  destruct (decide (h ∈ hs)) as [Hin|Hout]; destruct (decide (h' = h)) as [->|Hne].
  - apply list_remove_self.
  - apply list_remove_other, Hne.
  - apply registrations_zero in Hout. rewrite Hout. done.
  - done.
Qed.

Lemma guarded_remove_twice h hs g :
  (registrations h hs <= 1)%nat ->
  g = (if decide (h ∈ hs) then list_remove h hs else hs) ->
  (if decide (h ∈ g) then list_remove h g else g) = g.
Proof.
  intros Hle Hg.
  assert (H0 : registrations h g = 0%nat).
  { rewrite Hg, guarded_remove_count, decide_True by done.
    destruct (decide (h ∈ hs)) as [Hin|Hout]; [lia|].
    apply registrations_zero in Hout. lia. }
  apply registrations_zero in H0. rewrite decide_False by exact H0. reflexivity.
Qed.

Lemma registrations_app h l1 l2 :
  registrations h (l1 ++ l2) = (registrations h l1 + registrations h l2)%nat.
Proof. unfold registrations. apply count_occ_app. Qed.

(** Registering the same handler twice with [CopilotClient.on(handler)]
    gives two equal closures; calling the first one twice removes both
    registrations, so the handler stops receiving events although the
    second closure was never called. *)
Lemma client_unsubscribe_second_call_not_noop :
  fst (client_on (ArgHandler 1%nat) None new_client) = Ok (UnsubscribeWildcard 1%nat) /\
  fst (client_on (ArgHandler 1%nat) None (snd (client_on (ArgHandler 1%nat) None new_client)))
    = Ok (UnsubscribeWildcard 1%nat) /\
  lifecycle_receivers "session.created"
    (unsubscribe (UnsubscribeWildcard 1%nat)
       (snd (client_on (ArgHandler 1%nat) None (snd (client_on (ArgHandler 1%nat) None new_client)))))
    = [1%nat] /\
  lifecycle_receivers "session.created"
    (unsubscribe (UnsubscribeWildcard 1%nat) (unsubscribe (UnsubscribeWildcard 1%nat)
       (snd (client_on (ArgHandler 1%nat) None (snd (client_on (ArgHandler 1%nat) None new_client))))))
    = [].
Proof. vm_compute. split; [reflexivity | split; [reflexivity | split; reflexivity]]. Qed.

(** C10: the unsubscribe closure of [Session.on(h)] discards [h] from the
    session's handler set: it touches no other handler or session and a
    second call changes nothing.  The closure of [CopilotClient.on]
    removes one registration of its handler (if there is one): every other
    handler keeps all its registrations, and a second call changes nothing
    when the handler was registered at most once. *)
Theorem unsubscribe_removes_one_registration (s : St) :
  (forall l h,
     session_receivers l (unsubscribe (UnsubscribeSession l h) s)
       = session_receivers l s ∖ {[h]} /\
     (forall l', l' <> l ->
        session_receivers l' (unsubscribe (UnsubscribeSession l h) s)
          = session_receivers l' s) /\
     (forall t, lifecycle_receivers t (unsubscribe (UnsubscribeSession l h) s)
                  = lifecycle_receivers t s) /\
     unsubscribe (UnsubscribeSession l h) (unsubscribe (UnsubscribeSession l h) s)
       = unsubscribe (UnsubscribeSession l h) s) /\
  (forall h,
     (forall t h', h' <> h ->
        registrations h' (lifecycle_receivers t (unsubscribe (UnsubscribeWildcard h) s))
          = registrations h' (lifecycle_receivers t s)) /\
     registrations h (lifecycle_handlers (unsubscribe (UnsubscribeWildcard h) s))
       = (registrations h (lifecycle_handlers s) - 1)%nat /\
     typed_lifecycle_handlers (unsubscribe (UnsubscribeWildcard h) s)
       = typed_lifecycle_handlers s /\
     heap_sessions (unsubscribe (UnsubscribeWildcard h) s) = heap_sessions s /\
     ((registrations h (lifecycle_handlers s) <= 1)%nat ->
      unsubscribe (UnsubscribeWildcard h) (unsubscribe (UnsubscribeWildcard h) s)
        = unsubscribe (UnsubscribeWildcard h) s)) /\
  (forall t h,
     (forall t' h', h' <> h ->
        registrations h' (lifecycle_receivers t' (unsubscribe (UnsubscribeTyped t h) s))
          = registrations h' (lifecycle_receivers t' s)) /\
     registrations h (default [] (typed_lifecycle_handlers
                                    (unsubscribe (UnsubscribeTyped t h) s) !! t))
       = (registrations h (default [] (typed_lifecycle_handlers s !! t)) - 1)%nat /\
     (forall t', t' <> t ->
        typed_lifecycle_handlers (unsubscribe (UnsubscribeTyped t h) s) !! t'
          = typed_lifecycle_handlers s !! t') /\
     lifecycle_handlers (unsubscribe (UnsubscribeTyped t h) s) = lifecycle_handlers s /\
     heap_sessions (unsubscribe (UnsubscribeTyped t h) s) = heap_sessions s /\
     ((registrations h (default [] (typed_lifecycle_handlers s !! t)) <= 1)%nat ->
      unsubscribe (UnsubscribeTyped t h) (unsubscribe (UnsubscribeTyped t h) s)
        = unsubscribe (UnsubscribeTyped t h) s)).
Proof.
  split; [|split].
  - (* Session.on: a set, [discard] *)
    intros l h. unfold unsubscribe, update_session, session_receivers. simpl.
    split; [|split; [|split]].
    + rewrite lookup_alter_eq. destruct (heap_sessions s !! l); simpl; [done|].
      apply leibniz_equiv. set_solver.
    + intros l' Hne. rewrite lookup_alter_ne by congruence. reflexivity.
    + intros t. reflexivity.
    + unfold set_heap_sessions. simpl. f_equal.
      rewrite alter_alter_eq. apply alter_ext. intros sess _. simpl. f_equal.
      apply leibniz_equiv. set_solver.
  - (* CopilotClient.on(handler) *)
    intros h. split; [|split; [|split; [|split]]].
    + intros t h' Hne. unfold lifecycle_receivers. simpl.
      rewrite !registrations_app, guarded_remove_count, decide_False by done.
      reflexivity.
    + simpl. rewrite guarded_remove_count, decide_True by done. reflexivity.
    + reflexivity.
    + reflexivity.
    + intros Hle. simpl. unfold set_lifecycle at 1. simpl.
      rewrite (guarded_remove_twice h _ _ Hle eq_refl). reflexivity.
  - (* CopilotClient.on(event_type, handler) *)
    intros t h. simpl.
    destruct (typed_lifecycle_handlers s !! t) as [hs|] eqn:Et.
    + split; [|split; [|split; [|split; [|split]]]].
      * intros t' h' Hne. unfold lifecycle_receivers. simpl.
        rewrite !registrations_app.
        destruct (decide (t' = t)) as [->|Ht].
        -- rewrite lookup_insert_eq, Et. simpl.
           rewrite guarded_remove_count, decide_False by done. reflexivity.
        -- rewrite lookup_insert_ne by congruence. reflexivity.
      * simpl. rewrite lookup_insert_eq. simpl.
        rewrite guarded_remove_count, decide_True by done. reflexivity.
      * intros t' Hne. simpl. rewrite lookup_insert_ne by congruence. reflexivity.
      * reflexivity.
      * reflexivity.
      * intros Hle. simpl. rewrite lookup_insert_eq.
        unfold set_lifecycle at 1. simpl.
        rewrite (guarded_remove_twice h hs _ Hle eq_refl), insert_insert_eq. reflexivity.
    + rewrite Et. repeat split; intros; reflexivity.
Qed.

Lemma unsubscribe_removes_one_registration_witness :
  registrations 2 (lifecycle_receivers "session.created"
                     (unsubscribe (UnsubscribeWildcard 1%nat) two_lifecycle_handlers)) = 1%nat /\
  unsubscribe (UnsubscribeWildcard 1%nat)
    (unsubscribe (UnsubscribeWildcard 1%nat) two_lifecycle_handlers)
  = unsubscribe (UnsubscribeWildcard 1%nat) two_lifecycle_handlers.
Proof.
  destruct (unsubscribe_removes_one_registration two_lifecycle_handlers)
    as (_ & Hw & _).
  destruct (Hw 1%nat) as (Hiso & _ & _ & _ & Hidem).
  split.
  - rewrite (Hiso "session.created"%string 2%nat) by lia. reflexivity.
  - apply Hidem. vm_compute. lia.
Defined.

(* ===================================================================== *)
(** * types.py: from_dict and to_dict                                    *)
(* ===================================================================== *)

Lemma is_None_true (v : pyval) : is_None v = true -> v = PNone.
Proof. destruct v; done. Qed.

Lemma dict_get_set_eq (d : dict) (k : string) (v : pyval) :
  dict_get (dict_set d k v) k = Some v.
Proof.
  induction d as [|[k' v'] r IH]; simpl.
  - rewrite String.eqb_refl. reflexivity.
  - destruct (String.eqb k k') eqn:E; simpl; rewrite ?String.eqb_refl; [reflexivity|].
    rewrite E. exact IH.
Qed.

Lemma dict_get_set_ne (d : dict) (k k' : string) (v : pyval) :
  k' <> k -> dict_get (dict_set d k v) k' = dict_get d k'.
Proof.
  intros Hne. induction d as [|[k0 v0] r IH]; simpl.
  - apply String.eqb_neq in Hne. rewrite Hne. reflexivity.
  - destruct (String.eqb k k0) eqn:E; simpl.
    + apply String.eqb_eq in E. subst k0.
      apply String.eqb_neq in Hne. rewrite Hne. reflexivity.
    + destruct (String.eqb k' k0); [reflexivity|exact IH].
Qed.

(** Case analysis on the [is None] tests of the fields still abstract. *)
Ltac none_case :=
  match goal with
  | |- context [is_None ?v] =>
      is_var v; let E := fresh "E" in
      destruct (is_None v) eqn:E; [apply is_None_true in E; subst v|]
  end.

Ltac conv_rw Hs Hi Hf :=
  repeat first [ progress cbn | progress rewrite ?Hs, ?Hi, ?Hf | none_case ].

Lemma ModelLimits_round_trip_aux (x : Types.ModelLimits) :
  Types.vision x <> Some empty_vision ->
  Types.ModelLimits_from_dict (Types.ModelLimits_to_dict x) = Ok x.
Proof.
  destruct x as [mpt mcw [[smt mpi mpis]|]]; simpl Types.vision; intros Hv;
    unfold Types.ModelLimits_to_dict, Types.ModelLimits_from_dict,
      Types.ModelVisionLimits_to_dict, Types.ModelVisionLimits_from_dict, Types.set_if_not_None;
    repeat first [ progress cbn | none_case ]; try reflexivity.
  all: exfalso; apply Hv; reflexivity.
Qed.

Lemma ModelInfo_round_trip_aux (c : PyConv) (Hc : conv_ok c) (x : Types.ModelInfo) :
  Types.vision (Types.limits (Types.capabilities x)) <> Some empty_vision ->
  Types.ModelInfo_from_dict c (Types.ModelInfo_to_dict x) = Ok x.
Proof.
  destruct Hc as (Hs & _ & Hi & Hf).
  destruct x as [id name [[sv re] lim] pol bil sre dre]; simpl Types.vision; intros Hv.
  pose proof (ModelLimits_round_trip_aux lim Hv) as Hl.
  unfold Types.ModelInfo_to_dict, Types.ModelInfo_from_dict, Types.with_dict.
  cbn [dict_set String.eqb Ascii.eqb Bool.eqb].
  set (ld := Types.ModelLimits_to_dict lim).
  assert (Hld : exists d, ld = PDict d) by (exists (match ld with PDict d => d | _ => [] end);
                                            subst ld; destruct lim as [? ? [?|]]; reflexivity).
  destruct Hld as [dl Hdl].
  destruct pol as [[st tm]|]; destruct bil as [[m]|];
    unfold Types.set_if_not_None;
    repeat first [ progress cbn - [ld Types.ModelLimits_from_dict]
                 | progress rewrite ?Hs, ?Hi, ?Hf | none_case ];
    rewrite <- ?Hdl, ?Hl; cbn; reflexivity.
Qed.

Lemma SessionContext_round_trip_aux (c : PyConv) (Hc : conv_ok c) (x : Types.SessionContext) :
  Types.SessionContext_from_dict c (Types.SessionContext_to_dict x) = Ok x.
Proof.
  destruct Hc as (Hs & _ & Hi & Hf). destruct x as [cwd gr rp br].
  unfold Types.SessionContext_to_dict, Types.SessionContext_from_dict, Types.set_if_not_None.
  conv_rw Hs Hi Hf; reflexivity.
Qed.

Lemma SessionMetadata_round_trip_aux (c : PyConv) (Hc : conv_ok c) (x : Types.SessionMetadata) :
  Types.SessionMetadata_from_dict c (Types.SessionMetadata_to_dict x) = Ok x.
Proof.
  destruct Hc as (Hs & _ & Hi & Hf).
  destruct x as [sid st mt rem sm [[cwd gr rp br]|]];
    unfold Types.SessionMetadata_to_dict, Types.SessionMetadata_from_dict,
      Types.SessionContext_to_dict, Types.SessionContext_from_dict, Types.set_if_not_None;
    conv_rw Hs Hi Hf; destruct rem; reflexivity.
Qed.

(** X1 ([PingResponse], [StopError], [GetStatusResponse]): [from_dict]
    applied to [to_dict] gives the object back. *)
Theorem flat_responses_round_trip (c : PyConv) (Hc : conv_ok c) :
  (forall p, Types.PingResponse_from_dict c (Types.PingResponse_to_dict p) = Ok p) /\
  (forall e, Types.StopError_from_dict c (Types.StopError_to_dict e) = Ok e) /\
  (forall g, Types.GetStatusResponse_from_dict c (Types.GetStatusResponse_to_dict g) = Ok g).
Proof.
  destruct Hc as (Hs & _ & Hi & Hf).
  refine (conj _ (conj _ _)); intros [];
    unfold Types.PingResponse_to_dict, Types.PingResponse_from_dict,
      Types.StopError_to_dict, Types.StopError_from_dict,
      Types.GetStatusResponse_to_dict, Types.GetStatusResponse_from_dict;
    conv_rw Hs Hi Hf; reflexivity.
Qed.

Lemma flat_responses_round_trip_witness :
  conv_ok sample_conv /\
  Types.PingResponse_from_dict sample_conv
    (Types.PingResponse_to_dict {| message := "pong"; timestamp := 7; protocolVersion := 2 |})
  = Ok {| message := "pong"; timestamp := 7; protocolVersion := 2 |}.
Proof.
  assert (H : conv_ok sample_conv) by (repeat split).
  split; [exact H|]. apply (flat_responses_round_trip sample_conv H).
Defined.

(** X2 ([GetAuthStatusResponse]): [from_dict] applied to [to_dict] gives
    the object back, and [to_dict] leaves out the fields that are None. *)
Theorem GetAuthStatusResponse_round_trip (x : Types.GetAuthStatusResponse) :
  Types.GetAuthStatusResponse_from_dict (Types.GetAuthStatusResponse_to_dict x) = Ok x /\
  exists d, Types.GetAuthStatusResponse_to_dict x = PDict d /\ Forall (fun kv => snd kv <> PNone) d.
Proof.
  destruct x as [ia at_ ho lo sm].
  unfold Types.GetAuthStatusResponse_to_dict, Types.GetAuthStatusResponse_from_dict,
    Types.set_if_not_None.
  repeat first [ progress cbn | none_case ];
    (split; [destruct ia; reflexivity|]);
    eexists; (split; [reflexivity|]);
    repeat (apply List.Forall_cons; [cbn; intros Heq; rewrite ?Heq in *; cbn in *; discriminate|]);
    apply List.Forall_nil.
Qed.

(** X3 ([ModelLimits]): [from_dict] applied to [to_dict] gives the object
    back exactly when its vision limits are not the ones with every field
    None, whose [to_dict] is the empty dict that [from_dict] reads as no
    vision limits. *)
Theorem ModelLimits_round_trip (x : Types.ModelLimits) :
  Types.ModelLimits_from_dict (Types.ModelLimits_to_dict x) = Ok x <->
  Types.vision x <> Some empty_vision.
Proof.
  split.
  - intros H Hv. destruct x as [mpt mcw v]; simpl in Hv; subst v.
    revert H. unfold Types.ModelLimits_to_dict, Types.ModelLimits_from_dict, Types.set_if_not_None.
    repeat first [ progress cbn | none_case ]; congruence.
  - apply ModelLimits_round_trip_aux.
Qed.

(** X4 ([ModelInfo]): [from_dict] applied to [to_dict] gives the model
    back, capabilities, policy and billing included, when its vision
    limits are not all None. *)
Theorem ModelInfo_round_trip (c : PyConv) (Hc : conv_ok c) (x : Types.ModelInfo)
    (Hv : Types.vision (Types.limits (Types.capabilities x)) <> Some empty_vision) :
  Types.ModelInfo_from_dict c (Types.ModelInfo_to_dict x) = Ok x.
Proof. exact (ModelInfo_round_trip_aux c Hc x Hv). Qed.

Lemma ModelInfo_round_trip_witness :
  conv_ok sample_conv /\
  Types.ModelInfo_from_dict sample_conv (Types.ModelInfo_to_dict sample_model) = Ok sample_model.
Proof.
  assert (H : conv_ok sample_conv) by (repeat split).
  split; [exact H|]. apply (ModelInfo_round_trip sample_conv H sample_model). discriminate.
Defined.

(** X5 ([SessionMetadata], [SessionContext]): [from_dict] applied to
    [to_dict] gives the metadata back, context included. *)
Theorem SessionMetadata_round_trip (c : PyConv) (Hc : conv_ok c) (x : Types.SessionMetadata) :
  Types.SessionMetadata_from_dict c (Types.SessionMetadata_to_dict x) = Ok x.
Proof. exact (SessionMetadata_round_trip_aux c Hc x). Qed.

Lemma SessionMetadata_round_trip_witness :
  conv_ok sample_conv /\
  Types.SessionMetadata_from_dict sample_conv (Types.SessionMetadata_to_dict sample_metadata)
  = Ok sample_metadata.
Proof.
  assert (H : conv_ok sample_conv) by (repeat split).
  split; [exact H|]. apply (SessionMetadata_round_trip sample_conv H).
Defined.

(** X6 ([SessionLifecycleEvent.from_dict]): a missing "type" reads as
    "session.updated" and a missing "sessionId" as ""; an absent or falsy
    "metadata" gives no metadata; a non-empty dict gives metadata whose
    missing times are ""; any other truthy "metadata" raises
    AttributeError. *)
Theorem SessionLifecycleEvent_from_dict_cases (data : dict) :
  (forall ev, Types.SessionLifecycleEvent_from_dict data = Ok ev ->
     (dict_get data "type" = None -> Types.le_type ev = PStr "session.updated") /\
     (dict_get data "sessionId" = None -> Types.le_sessionId ev = PStr "")) /\
  (truthy (py_get data "metadata") = false ->
     exists ev, Types.SessionLifecycleEvent_from_dict data = Ok ev /\ Types.le_metadata ev = None) /\
  (forall m, dict_get data "metadata" = Some (PDict m) -> m <> [] ->
     exists ev, Types.SessionLifecycleEvent_from_dict data = Ok ev /\
       Types.le_metadata ev =
         Some {| Types.lm_startTime := py_get_or m "startTime" (PStr "");
                 Types.lm_modifiedTime := py_get_or m "modifiedTime" (PStr "");
                 Types.lm_summary := py_get m "summary" |}) /\
  (forall v, dict_get data "metadata" = Some v -> truthy v = true -> (forall m, v <> PDict m) ->
     Types.SessionLifecycleEvent_from_dict data = Raise (AttributeError_get v)).
Proof.
  unfold Types.SessionLifecycleEvent_from_dict, py_in, py_get_or, py_get.
  refine (conj _ (conj _ (conj _ _))).
  - intros ev H.
    assert (Hf : Types.le_type ev = default (PStr "session.updated") (dict_get data "type") /\
                 Types.le_sessionId ev = default (PStr "") (dict_get data "sessionId")).
    { revert H.
      destruct (is_not_None (dict_get data "metadata") && truthy (default PNone (dict_get data "metadata")));
        [destruct (Types.SessionLifecycleEventMetadata_from_dict _)|];
        cbn; intros H; inversion H; auto. }
    destruct Hf as [Ht Hs]. split; intros Hk; [rewrite Ht, Hk|rewrite Hs, Hk]; reflexivity.
  - intros Hf. rewrite Hf, andb_false_r. cbn. eexists; split; reflexivity.
  - intros m Hm Hne. rewrite Hm. cbn.
    destruct m; [congruence|]. cbn. eexists; split; reflexivity.
  - intros v Hv Ht Hnd. rewrite Hv. cbn. rewrite Ht. cbn.
    destruct v; try reflexivity. exfalso. exact (Hnd d eq_refl).
Qed.

Lemma SessionLifecycleEvent_from_dict_cases_witness :
  Types.SessionLifecycleEvent_from_dict [("metadata", PList [PInt 1])]
  = Raise (AttributeError_get (PList [PInt 1])).
Proof.
  destruct (SessionLifecycleEvent_from_dict_cases [("metadata", PList [PInt 1])])
    as (_ & _ & _ & H).
  apply H; [reflexivity | reflexivity | discriminate].
Defined.

(* ===================================================================== *)
(** * CopilotClient: force_stop, the simple requests, start              *)
(* ===================================================================== *)

Ltac monad_unfold :=
  unfold require_client, log_op in *;
  unfold mbind, M_bind, mret, M_ret, gets, modify, raise, lift, request in *.

(** X7 ([force_stop]): it never raises; it empties the registry without
    sending session.destroy or touching any session object, drops the
    connection, the models cache and the port (for a spawned server), kills
    a spawned CLI process, and ends disconnected; a failing
    [self._client.stop()] is ignored. *)
Theorem force_stop_effects (transport : outcome unit) (s : St) :
  let '(r, s') := force_stop transport s in
  r = Ok tt /\ sessions s' = ∅ /\ client s' = false /\ models_cache s' = None /\
  state s' = Disconnected /\ process s' = process s && is_external_server s /\
  actual_port s' = (if is_external_server s then actual_port s else None) /\
  heap_sessions s' = heap_sessions s /\ lifecycle_handlers s' = lifecycle_handlers s /\
  io_log s' = io_log s ++ (if client s then ["transport.stop"%string] else []) ++
                (if process s && negb (is_external_server s) then ["process.kill"%string] else []).
Proof.
  destruct s as [st cl pr ext ap ss mc lh tlh hs hl hn lg].
  unfold force_stop, try_except. monad_unfold.
  destruct cl, pr, ext, transport; cbn; rewrite ?app_nil_r, <- ?app_assoc;
    repeat split; reflexivity.
Qed.

(** X8 (the requests of [CopilotClient]): on a client that is not
    connected, [ping], [get_status], [get_auth_status], [list_models],
    [list_sessions], [delete_session], [get_foreground_session_id] and
    [set_foreground_session_id] raise RuntimeError("Client not connected")
    before sending anything, and change nothing. *)
Theorem requests_need_connection (s : St) (Hc : client s = false) :
  let err := RuntimeError "Client not connected" in
  (forall conv io, ping conv io s = (Raise err, s)) /\
  (forall c r, get_status c r s = (Raise err, s)) /\
  (forall r, get_auth_status r s = (Raise err, s)) /\
  (forall r, list_models r s = (Raise err, s)) /\
  (forall c r, list_sessions c r s = (Raise err, s)) /\
  (forall sid r, delete_session sid r s = (Raise err, s)) /\
  (forall r, get_foreground_session_id r s = (Raise err, s)) /\
  (forall c sid r, set_foreground_session_id c sid r s = (Raise err, s)).
Proof.
  cbv zeta.
  unfold ping, get_status, get_auth_status, list_models, list_sessions, delete_session,
    get_foreground_session_id, set_foreground_session_id.
  monad_unfold. rewrite Hc.
  repeat split; intros; reflexivity.
Qed.

Lemma requests_need_connection_witness :
  client new_client = false /\
  list_sessions sample_conv (Ok (PDict [])) new_client
  = (Raise (RuntimeError "Client not connected"), new_client).
Proof.
  split; [reflexivity|].
  destruct (requests_need_connection new_client eq_refl) as (_ & _ & _ & _ & H & _).
  apply H.
Defined.

Lemma omap_map_ok {A B} (f : A -> outcome B) (g : B -> A) (xs : list B) :
  (forall x, f (g x) = Ok x) -> omap f (map g xs) = Ok xs.
Proof. intros H. induction xs as [|x r IH]; cbn; [reflexivity|]. rewrite H. cbn. rewrite IH. reflexivity. Qed.

Lemma omap_app_raise {A B} (f : A -> outcome B) (g : B -> A) (xs : list B) (v : A) rest e :
  (forall x, f (g x) = Ok x) -> f v = Raise e -> omap f (map g xs ++ v :: rest) = Raise e.
Proof. intros H Hv. induction xs as [|x r IH]; cbn; [rewrite Hv; reflexivity|]. rewrite H. cbn. rewrite IH. reflexivity. Qed.

(** X9 ([list_sessions]): the sessions the server lists under "sessions"
    come back as [SessionMetadata] objects, in order; an answer without
    "sessions" gives []; one malformed entry makes the whole call raise its
    error.  One session.list request is sent. *)
Theorem list_sessions_reads_answer (c : PyConv) (Hc : conv_ok c) (s : St) (Hcl : client s = true) :
  (forall d ms, dict_get d "sessions" = Some (PList (map Types.SessionMetadata_to_dict ms)) ->
     list_sessions c (Ok (PDict d)) s = (Ok ms, log_request "session.list" s)) /\
  (forall d, dict_get d "sessions" = None ->
     list_sessions c (Ok (PDict d)) s = (Ok [], log_request "session.list" s)) /\
  (forall d ms v rest e, dict_get d "sessions" =
       Some (PList (map Types.SessionMetadata_to_dict ms ++ v :: rest)) ->
     Types.SessionMetadata_from_dict c v = Raise e ->
     list_sessions c (Ok (PDict d)) s = (Raise e, log_request "session.list" s)).
Proof.
  unfold list_sessions. monad_unfold. rewrite Hcl. cbn.
  unfold response_get, py_get_or.
  refine (conj _ (conj _ _)).
  - intros d ms Hd. rewrite Hd. cbn.
    rewrite (omap_map_ok _ _ _ (SessionMetadata_round_trip_aux c Hc)). reflexivity.
  - intros d Hd. rewrite Hd. reflexivity.
  - intros d ms v rest e Hd Hv. rewrite Hd. cbn.
    rewrite (omap_app_raise _ _ _ _ _ _ (SessionMetadata_round_trip_aux c Hc) Hv). reflexivity.
Qed.

Lemma list_sessions_reads_answer_witness :
  conv_ok sample_conv /\ client connected_client = true /\
  list_sessions sample_conv
    (Ok (PDict [("sessions", PList [Types.SessionMetadata_to_dict sample_metadata])]))
    connected_client
  = (Ok [sample_metadata], log_request "session.list" connected_client).
Proof.
  assert (H : conv_ok sample_conv) by (repeat split).
  refine (conj H (conj eq_refl _)).
  destruct (list_sessions_reads_answer sample_conv H connected_client eq_refl) as (Hl & _).
  apply (Hl _ [sample_metadata]). reflexivity.
Defined.

Lemma start_success_connected (conv : PyConv) (ev : Z) (io : StartIO) (s : St) :
  fst (start conv ev io s) = Ok tt -> state (snd (start conv ev io s)) = Connected.
Proof.
  unfold start, try_except, verify_protocol_version, ping, start_cli_server, connect_to_server.
  monad_unfold.
  destruct (state s) eqn:Est; cbn; try (intros; exact Est);
    destruct (is_external_server s), (spawn_result io), (port_result io) as [[]|],
      (connect_result io), (ping_result io) as [pr|]; cbn; try discriminate;
    destruct (Types.PingResponse_from_dict conv pr); cbn; try discriminate;
    case_bool_decide; cbn; congruence.
Qed.

(** X10 ([start]): once [start()] has succeeded, calling it again sends
    nothing and changes nothing. *)
Theorem start_twice (conv : PyConv) (ev : Z) (io io' : StartIO) (s : St)
    (Hok : fst (start conv ev io s) = Ok tt) :
  start conv ev io' (snd (start conv ev io s)) = (Ok tt, snd (start conv ev io s)).
Proof.
  pose proof (start_success_connected conv ev io s Hok) as Hst.
  unfold start at 1. monad_unfold. rewrite Hst. reflexivity.
Qed.

Lemma start_twice_witness :
  fst (start sample_conv 2 (start_io (Some 2)) new_client) = Ok tt /\
  start sample_conv 2 (start_io (Some 2)) (snd (start sample_conv 2 (start_io (Some 2)) new_client))
  = (Ok tt, snd (start sample_conv 2 (start_io (Some 2)) new_client)).
Proof.
  assert (H : fst (start sample_conv 2 (start_io (Some 2)) new_client) = Ok tt) by reflexivity.
  split; [exact H|]. apply (start_twice sample_conv 2 _ _ new_client H).
Defined.

(* ===================================================================== *)
(** * Wire formats and tool registration                                 *)
(* ===================================================================== *)

Lemma copy_if_in_get_eq (src w : dict) (k k' : string) :
  dict_get (copy_if_in src k k' w) k' =
  match dict_get src k with Some v => Some v | None => dict_get w k' end.
Proof.
  unfold copy_if_in, py_in, py_get. destruct (dict_get src k); cbn; [apply dict_get_set_eq|reflexivity].
Qed.

Lemma copy_if_in_get_ne (src w : dict) (k k' j : string) :
  j <> k' -> dict_get (copy_if_in src k k' w) j = dict_get w j.
Proof.
  intros Hne. unfold copy_if_in. destruct (py_in k src); [apply dict_get_set_ne, Hne|reflexivity].
Qed.

Ltac lookup_chain :=
  repeat first
    [ rewrite copy_if_in_get_eq
    | rewrite copy_if_in_get_ne by (intros ?; discriminate)
    | rewrite dict_get_set_eq
    | rewrite dict_get_set_ne by (intros ?; discriminate) ].

(** X11 ([_convert_provider_to_wire_format]): for a provider dict whose
    "azure" entry is absent or a dict, the wire dict has "type" (None when
    missing) and exactly the keys base_url, api_key, wire_api, bearer_token
    present in the provider, renamed to baseUrl, apiKey, wireApi,
    bearerToken; "azure" appears only when the azure dict has
    "api_version", as {"apiVersion": ...}; nothing else.  An "azure" of
    None raises TypeError. *)
Theorem provider_wire_format (p : dict) :
  ((dict_get p "azure" = None \/ exists a, dict_get p "azure" = Some (PDict a)) ->
   exists w, convert_provider_to_wire_format (PDict p) = Ok w /\
     dict_get w "type" = Some (py_get p "type") /\
     dict_get w "baseUrl" = dict_get p "base_url" /\
     dict_get w "apiKey" = dict_get p "api_key" /\
     dict_get w "wireApi" = dict_get p "wire_api" /\
     dict_get w "bearerToken" = dict_get p "bearer_token" /\
     dict_get w "azure" = match dict_get p "azure" with
                          | Some (PDict a) =>
                              option_map (fun v => PDict [("apiVersion", v)]) (dict_get a "api_version")
                          | _ => None
                          end /\
     (forall k, k ∉ ["type"; "baseUrl"; "apiKey"; "wireApi"; "bearerToken"; "azure"]%string ->
        dict_get w k = None)) /\
  (dict_get p "azure" = Some PNone ->
   convert_provider_to_wire_format (PDict p) =
   Raise (OtherError "argument of type 'NoneType' is not iterable")).
Proof.
  split.
  - intros Haz. unfold convert_provider_to_wire_format. cbv zeta.
    unfold py_in at 1. unfold py_get at 5.
    assert (Hfields : forall w0,
      w0 = copy_if_in p "bearer_token" "bearerToken"
             (copy_if_in p "wire_api" "wireApi"
                (copy_if_in p "api_key" "apiKey"
                   (copy_if_in p "base_url" "baseUrl" [("type", py_get p "type")]))) ->
      dict_get w0 "type" = Some (py_get p "type") /\
      dict_get w0 "baseUrl" = dict_get p "base_url" /\
      dict_get w0 "apiKey" = dict_get p "api_key" /\
      dict_get w0 "wireApi" = dict_get p "wire_api" /\
      dict_get w0 "bearerToken" = dict_get p "bearer_token" /\
      dict_get w0 "azure" = None /\
      (forall k, k ∉ ["type"; "baseUrl"; "apiKey"; "wireApi"; "bearerToken"; "azure"]%string ->
         dict_get w0 k = None)).
    { intros w0 ->. repeat split; lookup_chain;
        try (match goal with |- context [dict_get p ?k] => destruct (dict_get p k) end;
             reflexivity); try reflexivity.
      intros k Hk. rewrite !not_elem_of_cons in Hk.
      destruct Hk as (H1 & H2 & H3 & H4 & H5 & H6 & _).
      rewrite !copy_if_in_get_ne by assumption. cbn.
      apply String.eqb_neq in H1. rewrite H1. reflexivity. }
    destruct (Hfields _ eq_refl) as (H1 & H2 & H3 & H4 & H5 & H6 & H7). clear Hfields.
    set (w0 := copy_if_in p "bearer_token" "bearerToken"
               (copy_if_in p "wire_api" "wireApi"
                  (copy_if_in p "api_key" "apiKey"
                     (copy_if_in p "base_url" "baseUrl" [("type", py_get p "type")])))) in *.
    clearbody w0.
    destruct Haz as [Hn | [a Ha]].
    + rewrite Hn. cbn. eexists. split; [reflexivity|].
      repeat split; assumption.
    + rewrite Ha. cbn.
      replace (py_get p "azure") with (PDict a) by (unfold py_get; rewrite Ha; reflexivity).
      unfold copy_if_contains, py_contains, py_getitem, py_in. cbn.
      destruct (dict_get a "api_version") as [v|] eqn:Hv; cbn.
      * eexists. split; [reflexivity|].
        repeat split; try (rewrite dict_get_set_ne by (intros ?; discriminate); assumption).
        -- rewrite dict_get_set_eq. reflexivity.
        -- intros k Hk. pose proof Hk as Hk'.
           rewrite !not_elem_of_cons in Hk'. destruct Hk' as (_ & _ & _ & _ & _ & H6' & _).
           rewrite dict_get_set_ne by exact H6'. apply H7, Hk.
      * eexists. split; [reflexivity|]. repeat split; assumption.
  - intros Hn. unfold convert_provider_to_wire_format. cbv zeta.
    unfold py_in, py_get. rewrite Hn. reflexivity.
Qed.

Lemma provider_wire_format_witness :
  convert_provider_to_wire_format (PDict [("type", PStr "azure"); ("azure", PNone)])
  = Raise (OtherError "argument of type 'NoneType' is not iterable").
Proof.
  destruct (provider_wire_format [("type", PStr "azure"); ("azure", PNone)]) as [_ H].
  apply H. reflexivity.
Defined.

(** X12 ([_convert_custom_agent_to_wire_format]): for an agent dict, the
    wire dict always has "name" and "prompt" (None when missing) and
    exactly the keys display_name, description, tools, mcp_servers, infer
    present in the agent, under displayName, description, tools,
    mcpServers, infer; nothing else.  An agent that is not a dict raises
    AttributeError. *)
Theorem custom_agent_wire_format (a : dict) :
  (exists w, convert_custom_agent_to_wire_format (PDict a) = Ok w /\
     dict_get w "name" = Some (py_get a "name") /\
     dict_get w "prompt" = Some (py_get a "prompt") /\
     dict_get w "displayName" = dict_get a "display_name" /\
     dict_get w "description" = dict_get a "description" /\
     dict_get w "tools" = dict_get a "tools" /\
     dict_get w "mcpServers" = dict_get a "mcp_servers" /\
     dict_get w "infer" = dict_get a "infer" /\
     (forall k, k ∉ ["name"; "prompt"; "displayName"; "description"; "tools"; "mcpServers";
                     "infer"]%string -> dict_get w k = None)) /\
  (forall v, (forall d, v <> PDict d) ->
     convert_custom_agent_to_wire_format v = Raise (AttributeError_get v)).
Proof.
  split.
  - unfold convert_custom_agent_to_wire_format. cbv zeta. eexists. split; [reflexivity|].
    repeat split; lookup_chain;
      try (match goal with |- context [dict_get a ?k] => destruct (dict_get a k) end;
           reflexivity); try reflexivity.
    intros k Hk. rewrite !not_elem_of_cons in Hk.
    destruct Hk as (H1 & H2 & H3 & H4 & H5 & H6 & H7 & _).
    rewrite !copy_if_in_get_ne by assumption. cbn.
    apply String.eqb_neq in H1, H2. rewrite H1, H2. reflexivity.
  - intros v Hv. destruct v; try reflexivity. exfalso. exact (Hv d eq_refl).
Qed.

Lemma custom_agent_wire_format_witness :
  convert_custom_agent_to_wire_format (PList []) = Raise (AttributeError_get (PList [])).
Proof.
  destruct (custom_agent_wire_format []) as [_ H]. apply H. discriminate.
Defined.

Lemma register_tools_loop_app (l1 l2 : list Tool) m :
  register_tools_loop (l1 ++ l2) m = register_tools_loop l2 (register_tools_loop l1 m).
Proof. revert m. induction l1; intros m; simpl; auto. Qed.

Lemma register_tools_loop_keep (ts : list Tool) m n :
  (forall t, In t ts -> tool_name t = n -> tool_handler t = None) \/ n = ""%string ->
  register_tools_loop ts m !! n = m !! n.
Proof.
  revert m. induction ts as [|t r IH]; intros m Hn; simpl; [reflexivity|].
  rewrite IH.
  - destruct (tool_handler t) as [h|] eqn:Eh; [|reflexivity].
    destruct (String.eqb (tool_name t) "") eqn:Ee; [reflexivity|].
    apply lookup_insert_ne. intros Heq. subst n.
    destruct Hn as [Hn|Hn].
    + rewrite (Hn t (or_introl eq_refl) eq_refl) in Eh. discriminate.
    + rewrite Hn, String.eqb_refl in Ee. discriminate.
  - destruct Hn as [Hn|Hn]; [left; intros t' Ht'; apply Hn; right; exact Ht'|right; exact Hn].
Qed.

Lemma register_tools_some (ts : list Tool) :
  register_tools (Some ts) = register_tools_loop ts ∅.
Proof. destruct ts; reflexivity. Qed.

(** X13 ([_register_tools]): the tool table maps a name to the handler of
    the last tool of that name that has a handler; a tool without a name or
    without a handler is skipped, and [None] gives the empty table. *)
Theorem register_tools_table (tools : list Tool) (n : string) :
  register_tools None = ∅ /\
  register_tools (Some tools) !! ""%string = None /\
  ((forall t, In t tools -> tool_name t = n -> tool_handler t = None) ->
     register_tools (Some tools) !! n = None) /\
  (forall pre t post h, tools = pre ++ t :: post -> tool_name t = n -> n <> ""%string ->
     tool_handler t = Some h ->
     (forall t', In t' post -> tool_name t' = n -> tool_handler t' = None) ->
     register_tools (Some tools) !! n = Some h).
Proof.
  rewrite register_tools_some.
  refine (conj eq_refl (conj _ (conj _ _))).
  - rewrite register_tools_loop_keep by (right; reflexivity). reflexivity.
  - intros Hn. rewrite register_tools_loop_keep by (left; exact Hn). reflexivity.
  - intros pre t post h -> Hname Hne Hh Hpost.
    rewrite register_tools_loop_app. simpl.
    rewrite register_tools_loop_keep by (left; exact Hpost).
    rewrite Hh, Hname. apply String.eqb_neq in Hne. rewrite Hne.
    apply lookup_insert_eq.
Qed.

Lemma register_tools_table_witness :
  register_tools (Some [{| tool_name := "grep"; tool_description := "";
                           tool_handler := Some (fun _ => TReturn None); tool_parameters := PNone |};
                         {| tool_name := "grep"; tool_description := "";
                            tool_handler := None; tool_parameters := PNone |}]) !! "grep"%string
  = Some (fun _ => TReturn None).
Proof.
  destruct (register_tools_table
              [{| tool_name := "grep"; tool_description := "";
                  tool_handler := Some (fun _ => TReturn None); tool_parameters := PNone |};
               {| tool_name := "grep"; tool_description := "";
                  tool_handler := None; tool_parameters := PNone |}] "grep") as (_ & _ & _ & H).
  eapply (H []); [reflexivity | reflexivity | discriminate | reflexivity |].
  intros t' [<-|[]] _. reflexivity.
Defined.

(* ===================================================================== *)
(** * create_session and resume_session                                  *)
(* ===================================================================== *)

(** X14 ([create_session], [resume_session]): on a client that is not
    connected, without auto_start they raise RuntimeError("Client not
    connected. Call start() first.") and change nothing; with auto_start, a
    failing [start()] ends the call with the same outcome and state as
    [start()] alone, so no session.create or session.resume is sent. *)
Theorem open_session_needs_connection (conv : PyConv) (ev : Z) (sio : StartIO)
    (cfg : SessionConfig) (resp : outcome SessionResponse) (sid : string) (s : St)
    (Hc : client s = false) :
  create_session conv false ev sio cfg resp s =
    (Raise (RuntimeError "Client not connected. Call start() first."), s) /\
  resume_session conv false ev sio sid cfg resp s =
    (Raise (RuntimeError "Client not connected. Call start() first."), s) /\
  (forall e, fst (start conv ev sio s) = Raise e ->
     create_session conv true ev sio cfg resp s = (Raise e, snd (start conv ev sio s)) /\
     resume_session conv true ev sio sid cfg resp s = (Raise e, snd (start conv ev sio s))).
Proof.
  unfold create_session, resume_session, ensure_started. monad_unfold. rewrite Hc. cbn.
  refine (conj eq_refl (conj eq_refl _)).
  intros e He. destruct (start conv ev sio s) as [r s']. cbn in He. subst r. split; reflexivity.
Qed.

Lemma open_session_needs_connection_witness :
  client new_client = false /\
  fst (start sample_conv 2 (start_io (Some 3)) new_client) = Raise version_2_3_mismatch /\
  create_session sample_conv true 2 (start_io (Some 3)) empty_config
    (Ok {| sr_sessionId := Some "s9"%string; sr_workspacePath := PNone |}) new_client
  = (Raise version_2_3_mismatch, snd (start sample_conv 2 (start_io (Some 3)) new_client)).
Proof.
  assert (Hs : fst (start sample_conv 2 (start_io (Some 3)) new_client)
               = Raise version_2_3_mismatch) by reflexivity.
  refine (conj eq_refl (conj Hs _)).
  destruct (open_session_needs_connection sample_conv 2 (start_io (Some 3)) empty_config
              (Ok {| sr_sessionId := Some "s9"%string; sr_workspacePath := PNone |}) "s9"
              new_client eq_refl) as (_ & _ & H).
  exact (proj1 (H _ Hs)).
Defined.

Lemma open_session_registers (method : string) (cfg : SessionConfig) (sid : string) (wp : pyval)
    (s : St) (Hc : client s = true)
    (Hfresh : forall k l, sessions s !! k = Some l -> (l < heap_next s)%nat) :
  let '(r, s') := open_session method cfg (Ok {| sr_sessionId := Some sid; sr_workspacePath := wp |}) s in
  r = Ok (heap_next s) /\
  session_of s' sid = Some {| session_id := sid; event_handlers := ∅;
                              tool_handlers := register_tools (cfg_tools cfg);
                              permission_handler := cfg_on_permission_request cfg |} /\
  (forall k, k <> sid -> session_of s' k = session_of s k) /\
  io_log s' = io_log s ++ [method] /\ state s' = state s /\ client s' = true.
Proof.
  unfold open_session. monad_unfold. rewrite Hc. cbn.
  unfold session_of. cbn.
  refine (conj eq_refl (conj _ (conj _ (conj eq_refl (conj eq_refl Hc))))).
  - rewrite lookup_insert_eq. cbn. rewrite lookup_insert_eq.
    unfold configured_session. destruct (cfg_on_permission_request cfg); reflexivity.
  - intros k Hk. rewrite lookup_insert_ne by congruence.
    destruct (sessions s !! k) as [l|] eqn:El; cbn; [|reflexivity].
    rewrite lookup_insert_ne; [reflexivity|].
    specialize (Hfresh k l El). lia.
Qed.

Lemma open_session_missing_id (method : string) (cfg : SessionConfig) (wp : pyval) (s : St)
    (Hc : client s = true) :
  open_session method cfg (Ok {| sr_sessionId := None; sr_workspacePath := wp |}) s
  = (Raise (KeyError "sessionId"), log_request method s).
Proof. unfold open_session. monad_unfold. rewrite Hc. reflexivity. Qed.

(** X15 ([create_session]): on a connected client, once the payload is
    built, the new session object is registered under the "sessionId" the
    server answers (whatever the config's session_id), with no event
    handler, the tool table of [_register_tools(config["tools"])] and the
    config's permission handler; the other registry entries keep their
    sessions, and one session.create is sent.  An answer without
    "sessionId" raises KeyError after the request, registering nothing. *)
Theorem create_session_registers (conv : PyConv) (auto_start : bool) (ev : Z) (sio : StartIO) (cfg : SessionConfig)
    (p : dict) (Hp : create_session_payload cfg = Ok p) (sid : string) (wp : pyval) (s : St)
    (Hc : client s = true)
    (Hfresh : forall k l, sessions s !! k = Some l -> (l < heap_next s)%nat) :
  (let '(r, s') := create_session conv auto_start ev sio cfg
                     (Ok {| sr_sessionId := Some sid; sr_workspacePath := wp |}) s in
   r = Ok (heap_next s) /\
   session_of s' sid = Some {| session_id := sid; event_handlers := ∅;
                               tool_handlers := register_tools (cfg_tools cfg);
                               permission_handler := cfg_on_permission_request cfg |} /\
   (forall k, k <> sid -> session_of s' k = session_of s k) /\
   io_log s' = io_log s ++ ["session.create"%string]) /\
  create_session conv auto_start ev sio cfg (Ok {| sr_sessionId := None; sr_workspacePath := wp |}) s
  = (Raise (KeyError "sessionId"), log_request "session.create" s).
Proof.
  assert (Hpre : forall r, create_session conv auto_start ev sio cfg r s
                           = open_session "session.create" cfg r s).
  { intros r. unfold create_session, ensure_started. monad_unfold. rewrite Hc. cbn.
    rewrite Hp. reflexivity. }
  rewrite !Hpre. split.
  - pose proof (open_session_registers "session.create" cfg sid wp s Hc Hfresh) as H.
    destruct (open_session _ _ _ s) as [r s']. destruct H as (H1 & H2 & H3 & H4 & _).
    auto.
  - apply open_session_missing_id, Hc.
Qed.

Lemma create_session_registers_witness :
  create_session_payload empty_config = Ok [] /\ client connected_client1 = true /\
  session_of (snd (create_session sample_conv false 2 (start_io (Some 2)) empty_config
                     (Ok {| sr_sessionId := Some "s2"%string; sr_workspacePath := PNone |})
                     connected_client1)) "s1"
  = session_of connected_client1 "s1".
Proof.
  assert (Hp : create_session_payload empty_config = Ok []) by reflexivity.
  refine (conj Hp (conj eq_refl _)).
  assert (Hf : forall k l, sessions connected_client1 !! k = Some l ->
                           (l < heap_next connected_client1)%nat).
  { intros k l Hk. unfold connected_client1 in Hk. cbn in Hk.
    apply lookup_singleton_Some in Hk. destruct Hk as [_ <-]. cbn. lia. }
  pose proof (create_session_registers sample_conv false 2 (start_io (Some 2)) empty_config [] Hp "s2" PNone
                connected_client1 eq_refl Hf) as [H _].
  destruct (create_session _ _ _ _ _ _ _) as [r s'] eqn:E. cbn.
  destruct H as (_ & _ & H & _). apply H. discriminate.
Defined.

Lemma set_if_truthy_ne (d : dict) (k j : string) (x : pyval) :
  j <> k -> dict_get (set_if_truthy d k x) j = dict_get d j.
Proof. intros H. unfold set_if_truthy. destruct (truthy x); [apply dict_get_set_ne, H|reflexivity]. Qed.

Lemma set_if_truthy_eq (d : dict) (k : string) (x : pyval) :
  dict_get (set_if_truthy d k x) k = if truthy x then Some x else dict_get d k.
Proof. unfold set_if_truthy. destruct (truthy x); [apply dict_get_set_eq|reflexivity]. Qed.

Lemma set_flag_ne (d : dict) (k j : string) (b : bool) :
  j <> k -> dict_get (set_flag d k b) j = dict_get d j.
Proof. intros H. unfold set_flag. destruct b; [apply dict_get_set_ne, H|reflexivity]. Qed.

Lemma set_flag_eq (d : dict) (k : string) (b : bool) :
  dict_get (set_flag d k b) k = if b then Some (PBool true) else dict_get d k.
Proof. unfold set_flag. destruct b; [apply dict_get_set_eq|reflexivity]. Qed.

Lemma set_provider_ne (d d' : dict) (v : pyval) (j : string) :
  set_provider d v = Ok d' -> j <> "provider"%string -> dict_get d' j = dict_get d j.
Proof.
  unfold set_provider. intros H Hj. destruct (truthy v).
  - destruct (convert_provider_to_wire_format v); cbn in H; inversion H; subst.
    apply dict_get_set_ne, Hj.
  - inversion H. reflexivity.
Qed.

Lemma set_custom_agents_ne (d d' : dict) (v : pyval) (j : string) :
  set_custom_agents d v = Ok d' -> j <> "customAgents"%string -> dict_get d' j = dict_get d j.
Proof.
  unfold set_custom_agents. intros H Hj. destruct (truthy v).
  - destruct (py_iter v); cbn in H; [|discriminate].
    destruct (omap _ _); cbn in H; inversion H; subst. apply dict_get_set_ne, Hj.
  - inversion H. reflexivity.
Qed.

Lemma set_infinite_sessions_ne (d d' : dict) (v : pyval) (j : string) :
  set_infinite_sessions d v = Ok d' -> j <> "infiniteSessions"%string -> dict_get d' j = dict_get d j.
Proof.
  unfold set_infinite_sessions. intros H Hj. destruct (truthy v).
  - destruct (copy_if_contains v _ _ []); cbn in H; [|discriminate].
    destruct (copy_if_contains v _ _ _); cbn in H; [|discriminate].
    destruct (copy_if_contains v _ _ _); cbn in H; inversion H; subst.
    apply dict_get_set_ne, Hj.
  - inversion H. reflexivity.
Qed.

Lemma hooks_enabled_any (hooks : option SessionHooks) :
  hooks_enabled hooks = existsb (fun kv => is_not_None (snd kv)) (default [] hooks).
Proof. destruct hooks as [[|kv r]|]; reflexivity. Qed.

Ltac payload_chain :=
  repeat first
    [ rewrite set_if_truthy_ne by (intros ?; discriminate)
    | rewrite set_flag_ne by (intros ?; discriminate)
    | rewrite dict_get_set_ne by (intros ?; discriminate)
    | rewrite set_if_truthy_eq
    | rewrite set_flag_eq
    | rewrite dict_get_set_eq ].

(** X16 ([create_session]): in the session.create payload, "streaming" is
    sent whenever the config's streaming is not None (False included);
    "hooks": True only when some hook handler is not None;
    "requestPermission": True exactly when a permission handler is given;
    "sessionId" and "model" only when the config's values are truthy. *)
Theorem create_session_payload_keys (cfg : SessionConfig) (p : dict)
    (Hp : create_session_payload cfg = Ok p) :
  dict_get p "streaming" = (if is_None (cfg_streaming cfg) then None else Some (cfg_streaming cfg)) /\
  dict_get p "hooks" = (if existsb (fun kv => is_not_None (snd kv)) (default [] (cfg_hooks cfg))
                        then Some (PBool true) else None) /\
  dict_get p "requestPermission" =
    (if is_not_None (cfg_on_permission_request cfg) then Some (PBool true) else None) /\
  dict_get p "sessionId" = (if truthy (cfg_session_id cfg) then Some (cfg_session_id cfg) else None) /\
  dict_get p "model" = (if truthy (cfg_model cfg) then Some (cfg_model cfg) else None).
Proof.
  rewrite <- hooks_enabled_any.
  unfold create_session_payload in Hp. cbv zeta in Hp.
  match type of Hp with obind (set_provider ?d0 _) _ = _ => set (d := d0) in Hp end.
  destruct (set_provider d (cfg_provider cfg)) as [d1|] eqn:E1; cbn in Hp; [|discriminate].
  destruct (set_custom_agents _ (cfg_custom_agents cfg)) as [d2|] eqn:E2; cbn in Hp; [|discriminate].
  assert (Hd : forall j, j ∉ ["provider"; "customAgents"; "infiniteSessions"; "mcpServers";
                              "configDir"; "skillDirectories"; "disabledSkills"]%string ->
                         dict_get p j = dict_get d j).
  { intros j Hj. rewrite !not_elem_of_cons in Hj.
    destruct Hj as (H1 & H2 & H3 & H4 & H5 & H6 & H7 & _).
    rewrite (set_infinite_sessions_ne _ _ _ _ Hp H3), !set_if_truthy_ne by assumption.
    rewrite (set_custom_agents_ne _ _ _ _ E2 H2), set_if_truthy_ne by assumption.
    apply (set_provider_ne _ _ _ _ E1 H1). }
  rewrite !Hd by (rewrite !not_elem_of_cons; repeat split; try (intros ?; discriminate);
                  apply not_elem_of_nil).
  subst d. clear.
  destruct (is_None (cfg_streaming cfg)); repeat split; payload_chain;
    repeat match goal with |- context [if ?b then _ else _] => destruct b end; reflexivity.
Qed.

Lemma create_session_payload_keys_witness :
  create_session_payload
    {| cfg_session_id := PNone; cfg_model := PStr ""; cfg_reasoning_effort := PNone; cfg_tools := None;
       cfg_system_message := PNone; cfg_available_tools := PNone; cfg_excluded_tools := PNone;
       cfg_on_permission_request := None; cfg_on_user_input_request := None;
       cfg_hooks := Some [("on_pre_tool_use", None)];
       cfg_working_directory := PNone; cfg_streaming := PBool false; cfg_provider := PNone;
       cfg_mcp_servers := PNone; cfg_custom_agents := PNone; cfg_config_dir := PNone;
       cfg_skill_directories := PNone; cfg_disabled_skills := PNone;
       cfg_infinite_sessions := PNone; cfg_disable_resume := PNone |}
  = Ok [("streaming", PBool false)] /\
  dict_get [("streaming", PBool false)] "hooks" = None.
Proof.
  match goal with |- create_session_payload ?c = _ /\ _ =>
    assert (Hp : create_session_payload c = Ok [("streaming", PBool false)]) by reflexivity;
    split; [exact Hp|];
    exact (proj1 (proj2 (create_session_payload_keys c _ Hp)))
  end.
Defined.

(** X17 ([resume_session]): the session.resume payload carries
    "sessionId": the id asked for, and "disableResume": True only when the
    config's disable_resume is truthy; yet the session object is registered
    under the "sessionId" the server answers, with the config's tool table
    and permission handler, and one session.resume is sent. *)
Theorem resume_session_registers (conv : PyConv) (auto_start : bool) (ev : Z) (sio : StartIO)
    (session_id : string) (cfg : SessionConfig) (p : dict)
    (Hp : resume_session_payload session_id cfg = Ok p) (sid : string) (wp : pyval) (s : St)
    (Hc : client s = true)
    (Hfresh : forall k l, sessions s !! k = Some l -> (l < heap_next s)%nat) :
  dict_get p "sessionId" = Some (PStr session_id) /\
  dict_get p "disableResume" =
    (if truthy (cfg_disable_resume cfg) then Some (PBool true) else None) /\
  (let '(r, s') := resume_session conv auto_start ev sio session_id cfg
                     (Ok {| sr_sessionId := Some sid; sr_workspacePath := wp |}) s in
   r = Ok (heap_next s) /\
   session_of s' sid = Some {| session_id := sid; event_handlers := ∅;
                               tool_handlers := register_tools (cfg_tools cfg);
                               permission_handler := cfg_on_permission_request cfg |} /\
   (forall k, k <> sid -> session_of s' k = session_of s k) /\
   io_log s' = io_log s ++ ["session.resume"%string]).
Proof.
  assert (Hpre : forall r, resume_session conv auto_start ev sio session_id cfg r s
                           = open_session "session.resume" cfg r s).
  { intros r. unfold resume_session, ensure_started. monad_unfold. rewrite Hc. cbn.
    rewrite Hp. reflexivity. }
  refine (conj _ (conj _ _)).
  1, 2: unfold resume_session_payload in Hp; cbv zeta in Hp;
    match type of Hp with obind (set_provider ?d0 _) _ = _ => set (d := d0) in Hp end;
    destruct (set_provider d (cfg_provider cfg)) as [d1|] eqn:E1; cbn in Hp; [|discriminate];
    match type of Hp with obind (set_custom_agents ?d0' _) _ = _ => set (d' := d0') in Hp end;
    destruct (set_custom_agents d' (cfg_custom_agents cfg)) as [d2|] eqn:E2; cbn in Hp;
      [|discriminate];
    rewrite (set_infinite_sessions_ne _ _ _ _ Hp) by (intros ?; discriminate);
    payload_chain;
    rewrite (set_custom_agents_ne _ _ _ _ E2) by (intros ?; discriminate);
    subst d'; payload_chain;
    destruct (is_None (cfg_streaming cfg)); payload_chain;
    rewrite (set_provider_ne _ _ _ _ E1) by (intros ?; discriminate);
    subst d; payload_chain; cbn;
    repeat match goal with |- context [if ?b then _ else _] => destruct b end; reflexivity.
  rewrite Hpre.
  pose proof (open_session_registers "session.resume" cfg sid wp s Hc Hfresh) as H.
  destruct (open_session _ _ _ s) as [r s']. destruct H as (H1 & H2 & H3 & H4 & _).
  auto.
Qed.

Lemma resume_session_registers_witness :
  resume_session_payload "s1" empty_config = Ok [("sessionId", PStr "s1")] /\
  client connected_client1 = true /\
  fst (resume_session sample_conv false 2 (start_io (Some 2)) "s1" empty_config
         (Ok {| sr_sessionId := Some "s1-resumed"%string; sr_workspacePath := PNone |})
         connected_client1) = Ok 1%nat.
Proof.
  assert (Hp : resume_session_payload "s1" empty_config = Ok [("sessionId", PStr "s1")])
    by reflexivity.
  refine (conj Hp (conj eq_refl _)).
  assert (Hf : forall k l, sessions connected_client1 !! k = Some l ->
                           (l < heap_next connected_client1)%nat).
  { intros k l Hk. unfold connected_client1 in Hk. cbn in Hk.
    apply lookup_singleton_Some in Hk. destruct Hk as [_ <-]. cbn. lia. }
  pose proof (resume_session_registers sample_conv false 2 (start_io (Some 2)) "s1" empty_config _ Hp
                "s1-resumed" PNone connected_client1 eq_refl Hf) as (_ & _ & H).
  destruct (resume_session _ _ _ _ _ _ _ _) as [r s'] eqn:E. cbn.
  destruct H as (H & _). exact H.
Defined.

(* ===================================================================== *)
(** * Notifications and inbound requests                                 *)
(* ===================================================================== *)

(** X18 ([handle_notification], session.lifecycle branch): the state is
    never changed; when the params parse, the event's type is the "type"
    key (default "session.updated"), and for a str type the handlers called
    are the typed ones of that type then the wildcard ones, each once, in
    order; for a None, bool or number type only the wildcard ones.  A
    parse error is passed on and no handler is called. *)
Theorem lifecycle_notification_receivers (params : dict) (s : St) :
  snd (handle_lifecycle_notification params s) = s /\
  match Types.SessionLifecycleEvent_from_dict params with
  | Ok ev =>
      Types.le_type ev = py_get_or params "type" (PStr "session.updated") /\
      fst (handle_lifecycle_notification params s) =
        match Types.le_type ev with
        | PStr t => Ok (map (fun h => (h, ev)) (lifecycle_receivers t s))
        | PList _ | PDict _ =>
            Raise (OtherError ("unhashable type: '" +:+ py_type_name (Types.le_type ev) +:+ "'"))
        | _ => Ok (map (fun h => (h, ev)) (lifecycle_handlers s))
        end
  | Raise e => fst (handle_lifecycle_notification params s) = Raise e
  end.
Proof.
  unfold handle_lifecycle_notification, dispatch_lifecycle_event, typed_handlers_get,
    lifecycle_receivers.
  monad_unfold.
  destruct (Types.SessionLifecycleEvent_from_dict params) as [ev|e] eqn:E; [|split; reflexivity].
  assert (Ht : Types.le_type ev = py_get_or params "type" (PStr "session.updated")).
  { unfold Types.SessionLifecycleEvent_from_dict in E.
    destruct (if py_in _ _ && _ then _ else _) as [m|]; cbn in E; inversion E; reflexivity. }
  destruct (Types.le_type ev); repeat split; try exact Ht; reflexivity.
Qed.

(** X19 ([CopilotSession._handle_hooks_invoke]): for a str hook type the
    call never raises: a known wire name ("preToolUse" and the five others)
    selects the handler under its config key, a missing or None handler, an
    unknown hook type or absent hooks give None, and an exception of the
    handler is turned into None. *)
Theorem session_hooks_dispatch (session_id : string) (hooks : option SessionHooks)
    (hook_type : string) (input_data : pyval) :
  session_handle_hooks_invoke session_id hooks (PStr hook_type) input_data =
  match str_assoc [("preToolUse", "on_pre_tool_use"); ("postToolUse", "on_post_tool_use");
                   ("userPromptSubmitted", "on_user_prompt_submitted");
                   ("sessionStart", "on_session_start"); ("sessionEnd", "on_session_end");
                   ("errorOccurred", "on_error_occurred")]%string hook_type with
  | Some k =>
      match hooks ≫= fun hs => str_assoc hs k with
      | Some (Some h) => match h input_data session_id with Ok r => Ok r | Raise _ => Ok PNone end
      | _ => Ok PNone
      end
  | None => Ok PNone
  end.
Proof.
  destruct hooks as [[|[k0 v0] r]|]; unfold session_handle_hooks_invoke; cbn -[String.eqb];
    repeat first
      [ match goal with |- context [if ?b then _ else _] => destruct b end
      | match goal with |- context [str_assoc r ?k] => destruct (str_assoc r k) as [[?|]|] end ];
    try destruct v0; reflexivity.
Qed.

(** X20 ([CopilotClient._handle_hooks_invoke]): the state is never
    changed; a falsy sessionId or hookType raises ValueError("invalid hooks
    invoke payload"); for str ids an unregistered session raises
    ValueError("unknown session <id>"), and a registered one answers
    {"output": ...} with what the session object's hooks give. *)
Theorem handle_hooks_invoke_cases (c : PyConv) (Hc : conv_ok c)
    (hooks_of : nat -> option SessionHooks) (params : dict) (s : St) :
  snd (handle_hooks_invoke c hooks_of params s) = s /\
  (truthy (py_get params "sessionId") = false \/ truthy (py_get params "hookType") = false ->
   fst (handle_hooks_invoke c hooks_of params s) = Raise (ValueError "invalid hooks invoke payload")) /\
  (forall sid t, py_get params "sessionId" = PStr sid -> sid <> ""%string ->
     py_get params "hookType" = PStr t -> t <> ""%string ->
     fst (handle_hooks_invoke c hooks_of params s) =
       match sessions s !! sid with
       | Some l =>
           match heap_sessions s !! l with
           | Some obj =>
               obind (session_handle_hooks_invoke (session_id obj) (hooks_of l) (PStr t)
                        (py_get params "input"))
                     (fun out => Ok [("output", out)])
           | None => Raise (ValueError ("unknown session " +:+ sid))
           end
       | None => Raise (ValueError ("unknown session " +:+ sid))
       end).
Proof.
  destruct Hc as (Hs & _).
  unfold handle_hooks_invoke, registry_get. monad_unfold.
  refine (conj _ (conj _ _)).
  - destruct (negb _ || negb _); [reflexivity|].
    destruct (py_get params "sessionId"); cbn; try reflexivity.
    destruct (sessions s !! _) as [l|]; cbn; [|reflexivity].
    destruct (heap_sessions s !! l); cbn; [|reflexivity].
    destruct (session_handle_hooks_invoke _ _ _ _); reflexivity.
  - intros [H|H]; rewrite H; cbn; [reflexivity|]. rewrite orb_true_r. reflexivity.
  - intros sid t Hsid Hne Ht Htne. rewrite Hsid, Ht. cbn.
    apply String.eqb_neq in Hne, Htne. rewrite Hne, Htne. cbn.
    destruct (sessions s !! sid) as [l|]; cbn; rewrite ?Hs; [|reflexivity].
    destruct (heap_sessions s !! l); cbn; rewrite ?Hs; [|reflexivity].
    destruct (session_handle_hooks_invoke _ _ _ _); reflexivity.
Qed.

(** X21 ([CopilotClient._handle_user_input_request] and
    [CopilotSession._handle_user_input_request]): the state is never
    changed; a falsy sessionId or question raises ValueError("invalid user
    input request payload"); for a registered session without a handler
    RuntimeError is raised; otherwise the handler gets the question, the
    choices (an empty list when falsy) and allowFreeform (True when absent),
    and the answer is {"answer", "wasFreeform"} read from its result, a
    missing key raising KeyError. *)
Theorem handle_user_input_cases (c : PyConv) (Hc : conv_ok c)
    (input_handler_of : nat -> option UserInputHandler) (params : dict) (s : St) :
  snd (handle_user_input_request c input_handler_of params s) = s /\
  (truthy (py_get params "sessionId") = false \/ truthy (py_get params "question") = false ->
   fst (handle_user_input_request c input_handler_of params s)
     = Raise (ValueError "invalid user input request payload")) /\
  (forall sid, py_get params "sessionId" = PStr sid -> sid <> ""%string ->
     truthy (py_get params "question") = true ->
     fst (handle_user_input_request c input_handler_of params s) =
       match sessions s !! sid with
       | Some l =>
           match heap_sessions s !! l with
           | Some obj =>
               match input_handler_of l with
               | None => Raise (RuntimeError "User input requested but no handler registered")
               | Some h =>
                   obind (h {| uir_question := py_get params "question";
                               uir_choices := if truthy (py_get params "choices")
                                              then py_get params "choices" else PList [];
                               uir_allowFreeform := py_get_or params "allowFreeform" (PBool true) |}
                            (session_id obj)) (fun result =>
                   obind (py_getitem result "answer") (fun answer =>
                   obind (py_getitem result "wasFreeform") (fun wasFreeform =>
                   Ok [("answer", answer); ("wasFreeform", wasFreeform)])))
               end
           | None => Raise (ValueError ("unknown session " +:+ sid))
           end
       | None => Raise (ValueError ("unknown session " +:+ sid))
       end).
Proof.
  destruct Hc as (Hs & _).
  unfold handle_user_input_request, registry_get. monad_unfold.
  refine (conj _ (conj _ _)).
  - destruct (negb _ || negb _); [reflexivity|].
    destruct (py_get params "sessionId"); cbn; try reflexivity.
    destruct (sessions s !! _) as [l|]; cbn; [|reflexivity].
    destruct (heap_sessions s !! l); cbn; [|reflexivity].
    destruct (session_handle_user_input_request _ _ _); cbn; [|reflexivity].
    destruct (py_getitem _ "answer"); cbn; [|reflexivity].
    destruct (py_getitem _ "wasFreeform"); reflexivity.
  - intros [H|H]; rewrite H; cbn; [reflexivity|]. rewrite orb_true_r. reflexivity.
  - intros sid Hsid Hne Hq. rewrite Hsid, Hq. cbn.
    apply String.eqb_neq in Hne. rewrite Hne. cbn.
    assert (Hqo : py_get_or params "question" (PStr "") = py_get params "question").
    { unfold py_get_or, py_get in *. destruct (dict_get params "question"); [reflexivity|].
      discriminate. }
    destruct (sessions s !! sid) as [l|]; cbn; rewrite ?Hs; [|reflexivity].
    destruct (heap_sessions s !! l); cbn; rewrite ?Hs; [|reflexivity].
    unfold session_handle_user_input_request.
    destruct (input_handler_of l) as [h|]; [|reflexivity]. rewrite Hqo.
    destruct (h _ _); cbn; [|reflexivity].
    destruct (py_getitem _ "answer"); cbn; [|reflexivity].
    destruct (py_getitem _ "wasFreeform"); reflexivity.
Qed.

Lemma handle_hooks_invoke_cases_witness :
  conv_ok sample_conv /\
  fst (handle_hooks_invoke sample_conv (fun _ => None)
         [("sessionId", PStr "s1"); ("hookType", PStr "preToolUse")] connected_client1)
  = Ok [("output", PNone)].
Proof.
  assert (Hc : conv_ok sample_conv) by (repeat split).
  split; [exact Hc|].
  destruct (handle_hooks_invoke_cases sample_conv Hc (fun _ => None)
              [("sessionId", PStr "s1"); ("hookType", PStr "preToolUse")] connected_client1)
    as (_ & _ & H).
  rewrite (H "s1" "preToolUse" eq_refl ltac:(discriminate) eq_refl ltac:(discriminate)).
  reflexivity.
Defined.

Lemma handle_user_input_cases_witness :
  conv_ok sample_conv /\
  fst (handle_user_input_request sample_conv (fun _ => None) [("sessionId", PStr "s1")]
         connected_client1)
  = Raise (ValueError "invalid user input request payload").
Proof.
  assert (Hc : conv_ok sample_conv) by (repeat split).
  split; [exact Hc|].
  destruct (handle_user_input_cases sample_conv Hc (fun _ => None) [("sessionId", PStr "s1")]
              connected_client1) as (_ & H & _).
  apply H. right. reflexivity.
Defined.

(* ===================================================================== *)
(** * send_and_wait                                                      *)
(* ===================================================================== *)

(** The handler's state after a run of events: the last assistant.message,
    the last session.error, and whether an idle or error event came. *)
Lemma wait_handler_fold (events : list SessionEvent) (w : WaitState) :
  fold_left wait_handler events w =
  {| last_assistant_message :=
       match last (List.filter (fun e => String.eqb (ev_type e) "assistant.message") events) with
       | Some e => Some e | None => last_assistant_message w end;
     error_event :=
       match last (List.filter (fun e => String.eqb (ev_type e) "session.error") events) with
       | Some e => Some (OtherError ("Session error: " +:+
                                     default (ev_data_str e) (ev_data_message e)))
       | None => error_event w end;
     idle := existsb (fun e => String.eqb (ev_type e) "session.idle"
                               || String.eqb (ev_type e) "session.error") events || idle w |}.
Proof.
  revert w. induction events as [|e r IH]; intros w.
  - destruct w; reflexivity.
  - cbn [fold_left List.filter existsb]. rewrite IH. unfold wait_handler.
    destruct (String.eqb (ev_type e) "assistant.message") eqn:Ea.
    + apply String.eqb_eq in Ea. rewrite Ea. cbn. rewrite last_cons.
      destruct (last (List.filter _ r)); reflexivity.
    + destruct (String.eqb (ev_type e) "session.idle") eqn:Ei.
      * apply String.eqb_eq in Ei. rewrite Ei. cbn.
        rewrite orb_true_r. reflexivity.
      * destruct (String.eqb (ev_type e) "session.error") eqn:Ee; cbn.
        -- rewrite last_cons. rewrite orb_true_r.
           destruct (last (List.filter (fun e0 => String.eqb (ev_type e0) "session.error") r));
             reflexivity.
        -- reflexivity.
Qed.

Lemma session_on_off_receivers (l h : nat) (s s' : St) :
  h ∉ session_receivers l s ->
  heap_sessions s' = heap_sessions (snd (session_on l h s)) ->
  session_receivers l (unsubscribe (UnsubscribeSession l h) s') = session_receivers l s.
Proof.
  intros Hh Hs'. unfold session_on in Hs'. monad_unfold.
  unfold session_receivers, unsubscribe, update_session in *.
  cbn in Hs'. cbn. rewrite Hs'. rewrite !lookup_alter_eq.
  destruct (heap_sessions s !! l) as [sess|]; cbn in *; [|reflexivity].
  set_solver.
Qed.

(** X22 ([CopilotSession.send_and_wait]): once session.send is answered
    with a messageId, the outcome is decided by the events the handler
    sees: with no session.idle or session.error it is the timeout error
    (60 seconds by default), else the last session.error is raised, else the
    last assistant.message is returned (None when there is none). *)
Theorem send_and_wait_outcome (c : PyConv) (l h : nat) (options : dict)
    (timeout : option PrimFloat.float) (r : dict) (events : list SessionEvent) (s : St)
    (Hprompt : py_in "prompt" options = true) (Hmid : py_in "messageId" r = true) :
  fst (send_and_wait c l h options timeout (Ok (PDict r)) events s) =
  if negb (existsb (fun e => String.eqb (ev_type e) "session.idle"
                             || String.eqb (ev_type e) "session.error") events)
  then Raise (OtherError ("Timeout after " +:+ py_str c (PFloat (default 60.0%float timeout))
                          +:+ "s waiting for session.idle"))
  else match last (List.filter (fun e => String.eqb (ev_type e) "session.error") events) with
       | Some e => Raise (OtherError ("Session error: " +:+
                                      default (ev_data_str e) (ev_data_message e)))
       | None => Ok (last (List.filter (fun e => String.eqb (ev_type e) "assistant.message") events))
       end.
Proof.
  unfold py_in in *.
  destruct (dict_get options "prompt") eqn:Ep; [|discriminate].
  destruct (dict_get r "messageId") eqn:Em; [|discriminate].
  unfold send_and_wait, try_finally, session_on, send. monad_unfold.
  cbn -[wait_handler]. rewrite Ep. cbn -[wait_handler]. rewrite Em.
  cbn -[wait_handler]. rewrite wait_handler_fold. cbn.
  rewrite orb_false_r.
  destruct (existsb _ events); cbn; [|reflexivity].
  repeat match goal with |- context [last ?x] => destruct (last x) end; reflexivity.
Qed.

(** X23 ([CopilotSession.send_and_wait]): whatever happens (a missing
    prompt, a failed send, a timeout or a session error), the handler it
    subscribes is removed again, so a handler not registered before leaves
    the session object's handler set as it was, and the registry is
    untouched.  Without a "prompt" key nothing is sent and KeyError is
    raised. *)
Theorem send_and_wait_restores_handlers (c : PyConv) (l h : nat) (options : dict)
    (timeout : option PrimFloat.float) (resp : outcome pyval) (events : list SessionEvent) (s : St)
    (Hh : h ∉ session_receivers l s) :
  session_receivers l (snd (send_and_wait c l h options timeout resp events s))
    = session_receivers l s /\
  sessions (snd (send_and_wait c l h options timeout resp events s)) = sessions s /\
  (py_in "prompt" options = false ->
   fst (send_and_wait c l h options timeout resp events s) = Raise (KeyError "prompt") /\
   io_log (snd (send_and_wait c l h options timeout resp events s)) = io_log s).
Proof.
  destruct (send_and_wait c l h options timeout resp events s) as [res sf] eqn:E.
  cbn [fst snd].
  unfold send_and_wait, try_finally, send in E. unfold mbind, M_bind at 1 in E.
  assert (Hon : session_on l h s = (Ok (UnsubscribeSession l h), snd (session_on l h s)))
    by reflexivity.
  rewrite Hon in E. set (s1 := snd (session_on l h s)) in *.
  assert (Hr : forall s', heap_sessions s' = heap_sessions s1 ->
             session_receivers l (unsubscribe (UnsubscribeSession l h) s') = session_receivers l s)
    by (intros s' E'; apply session_on_off_receivers; assumption).
  assert (Hss : sessions s1 = sessions s) by reflexivity.
  assert (Hlog : io_log s1 = io_log s) by reflexivity.
  clearbody s1. clear Hon.
  unfold py_in. monad_unfold. cbn -[wait_handler unsubscribe] in E.
  destruct (dict_get options "prompt") eqn:Ep; cbn -[wait_handler unsubscribe] in E.
  - destruct resp as [v|e]; cbn -[wait_handler unsubscribe] in E;
      [destruct (py_getitem v "messageId"); cbn -[wait_handler unsubscribe] in E;
       [destruct (negb _); cbn -[unsubscribe] in E;
        [|destruct (error_event _); cbn -[unsubscribe] in E]|]|].
    all: injection E as <- <-.
    all: split; [apply Hr; reflexivity|].
    all: split; [unfold unsubscribe, update_session; cbn; exact Hss|].
    all: intros H; cbn in H; discriminate H.
  - injection E as <- <-.
    split; [apply Hr; reflexivity|].
    split; [unfold unsubscribe, update_session; cbn; exact Hss|].
    intros _. split; [reflexivity|]. unfold unsubscribe, update_session; cbn; exact Hlog.
Qed.

Lemma send_and_wait_outcome_witness :
  py_in "prompt" [("prompt", PStr "hi")] = true /\
  fst (send_and_wait sample_conv 0 7 [("prompt", PStr "hi")] None
         (Ok (PDict [("messageId", PStr "m1")]))
         [{| ev_type := "assistant.message"; ev_data_message := Some "hello"%string;
             ev_data_str := "" |};
          {| ev_type := "session.idle"; ev_data_message := None; ev_data_str := "" |}]
         connected_client1)
  = Ok (Some {| ev_type := "assistant.message"; ev_data_message := Some "hello"%string;
                ev_data_str := "" |}).
Proof.
  split; [reflexivity|].
  rewrite (send_and_wait_outcome sample_conv 0 7 [("prompt", PStr "hi")] None
             [("messageId", PStr "m1")] _ connected_client1 eq_refl eq_refl).
  reflexivity.
Defined.

Lemma send_and_wait_restores_handlers_witness :
  (7%nat ∉ session_receivers 0 connected_client1) /\
  session_receivers 0 (snd (send_and_wait sample_conv 0 7 [] None (Ok PNone) [] connected_client1))
    = session_receivers 0 connected_client1.
Proof.
  assert (Hh : 7%nat ∉ session_receivers 0 connected_client1).
  { unfold session_receivers, connected_client1. cbn. set_solver. }
  split; [exact Hh|].
  exact (proj1 (send_and_wait_restores_handlers sample_conv 0 7 [] None (Ok PNone) []
                  connected_client1 Hh)).
Defined.

(* ===================================================================== *)
(** * SessionListFilter                                                  *)
(* ===================================================================== *)

(** X24 ([SessionListFilter.to_dict]): the dict has a key for each field
    that is not None, with its value, and no other key; for a filter whose
    cwd is a str it is the dict [SessionContext.to_dict] gives for the same
    fields. *)
Theorem SessionListFilter_to_dict_keys (f : Types.SessionListFilter) :
  exists d, Types.SessionListFilter_to_dict f = PDict d /\
  dict_get d "cwd" = (if is_None (Types.lf_cwd f) then None else Some (Types.lf_cwd f)) /\
  dict_get d "gitRoot" = (if is_None (Types.lf_gitRoot f) then None else Some (Types.lf_gitRoot f)) /\
  dict_get d "repository" =
    (if is_None (Types.lf_repository f) then None else Some (Types.lf_repository f)) /\
  dict_get d "branch" = (if is_None (Types.lf_branch f) then None else Some (Types.lf_branch f)) /\
  (forall k, k ∉ ["cwd"; "gitRoot"; "repository"; "branch"]%string -> dict_get d k = None) /\
  (forall cwd, Types.lf_cwd f = PStr cwd ->
     Types.SessionListFilter_to_dict f =
     Types.SessionContext_to_dict {| Types.cwd := cwd; Types.gitRoot := Types.lf_gitRoot f;
                                     Types.repository := Types.lf_repository f;
                                     Types.branch := Types.lf_branch f |}).
Proof.
  destruct f as [c0 g0 r0 b0].
  unfold Types.SessionListFilter_to_dict, Types.SessionContext_to_dict, Types.set_if_not_None.
  cbn [Types.lf_cwd Types.lf_gitRoot Types.lf_repository Types.lf_branch].
  eexists. split; [reflexivity|].
  destruct (is_None c0) eqn:E0, (is_None g0) eqn:Eg, (is_None r0) eqn:Er, (is_None b0) eqn:Eb; cbn;
    (split; [reflexivity|]); (split; [reflexivity|]); (split; [reflexivity|]);
    (split; [reflexivity|]);
    (split;
     [ intros k Hk; rewrite !not_elem_of_cons in Hk;
       destruct Hk as (H1 & H2 & H3 & H4 & _);
       apply String.eqb_neq in H1, H2, H3, H4;
       rewrite ?H1, ?H2, ?H3, ?H4; reflexivity
     | intros cwd Hc; subst c0; try discriminate E0; rewrite ?Eg, ?Er, ?Eb; reflexivity ]).
Qed.
